(** * Bank-Assignment: the balance-consistency transaction flow

    The repository carries three implementations of the same small ledger:

    - [Server]: the Express handlers of [server/index.js] over SQLite
      ([GET /api/account/balance], [GET /api/account/transactions],
      [POST /api/account/transaction]);
    - [Mock]: the in-memory backend of [services/bankerService.ts] and
      [services/accountService.ts] ([customers], [updateCustomerBalance],
      [getAccountBalance], [getTransactions], [makeTransaction]);
    - [Supabase]: the hosted-Postgres client of [lib/supabase.ts] together
      with the migration that declares the [transactions] table and the
      function [get_current_balance].

    Numbers.  A JavaScript number is modelled by [JS.number]: an exact
    integer, one of the two infinities, or NaN.  Arithmetic on the finite
    part is exact integer arithmetic, so the model coincides with IEEE
    doubles on integral amounts (for instance amounts in the smallest
    currency unit) below 2^53; rounding of fractional doubles and the
    negative zero are not represented.

    Time.  Timestamps ([created_at], [date]) are integers handed in by the
    environment of a call, as are the identifiers drawn from [uuidv4()]
    and [gen_random_uuid()]. *)

From stdpp Require Import base option list strings sorting pretty.
From Stdlib Require Import ZArith Lia Ascii.

Local Open Scope Z_scope.

(** ** JavaScript values and the operators the handlers apply to them *)

Module JS.

Inductive number : Type :=
| Fin (z : Z)
| PosInf
| NegInf
| NaN.

(** The values a field of a JSON request body (or a cell of a SQLite
    row) can hold; a missing field reads as [JUndefined].  Objects and
    arrays are not represented. *)
Inductive jsval : Type :=
| JUndefined
| JNull
| JBool (b : bool)
| JNum (n : number)
| JStr (s : string).

#[global] Instance number_eq_dec : EqDecision number.
Proof. solve_decision. Defined.

#[global] Instance jsval_eq_dec : EqDecision jsval.
Proof. solve_decision. Defined.

(** [x + y] on numbers. *)
Definition num_add (x y : number) : number :=
  match x, y with
  | NaN, _ | _, NaN => NaN
  | Fin a, Fin b => Fin (a + b)
  | PosInf, NegInf | NegInf, PosInf => NaN
  | PosInf, _ | _, PosInf => PosInf
  | NegInf, _ | _, NegInf => NegInf
  end.

Definition num_neg (x : number) : number :=
  match x with
  | Fin a => Fin (- a)
  | PosInf => NegInf
  | NegInf => PosInf
  | NaN => NaN
  end.

(** [x - y] on numbers. *)
Definition num_sub (x y : number) : number := num_add x (num_neg y).

(** The comparison underlying [<], [>], [<=] on numbers: [None] is the
    "undefined" answer that NaN produces. *)
Definition num_less (x y : number) : option bool :=
  match x, y with
  | NaN, _ | _, NaN => None
  | Fin a, Fin b => Some (bool_decide (a < b))
  | NegInf, NegInf => Some false
  | NegInf, _ => Some true
  | _, NegInf => Some false
  | PosInf, _ => Some false
  | _, PosInf => Some true
  end.

(** [x > y] on numbers, as used by the TypeScript services. *)
Definition num_gt (x y : number) : bool :=
  match num_less y x with
  | Some true => true
  | _ => false
  end.

(** ToBoolean on numbers: [0] and NaN are falsy. *)
Definition num_truthy (x : number) : bool :=
  match x with
  | Fin 0 => false
  | NaN => false
  | _ => true
  end.

(** ToBoolean. *)
Definition ToBoolean (v : jsval) : bool :=
  match v with
  | JUndefined | JNull => false
  | JBool b => b
  | JNum n => num_truthy n
  | JStr s => negb (bool_decide (s = ""))
  end.

Definition digit_of (c : Ascii.ascii) : option Z :=
  let n := Z.of_nat (Ascii.nat_of_ascii c) in
  if bool_decide (48 <= n <= 57) then Some (n - 48) else None.

Fixpoint digits_value (acc : Z) (s : string) : option Z :=
  match s with
  | EmptyString => Some acc
  | String c s' =>
      match digit_of c with
      | Some d => digits_value (10 * acc + d) s'
      | None => None
      end
  end.

(** A non-empty run of decimal digits. *)
Definition decimal_digits (s : string) : option Z :=
  match s with
  | EmptyString => None
  | _ => digits_value 0 s
  end.

Fixpoint trim_start (s : string) : string :=
  match s with
  | String c s' => if Ascii.is_space c then trim_start s' else s
  | EmptyString => EmptyString
  end.

Definition trim (s : string) : string :=
  String.rev (trim_start (String.rev (trim_start s))).

Definition unsigned_literal (s : string) : number :=
  if bool_decide (s = "Infinity") then PosInf
  else match decimal_digits s with
       | Some z => Fin z
       | None => NaN
       end.

(** StringToNumber, on the literals the integer model can denote:
    surrounding white space is dropped, the empty string is [0], and a
    signed run of decimal digits or a signed [Infinity] is that number;
    every other string handled here converts to NaN.  (Fractions,
    exponents and radix prefixes denote numbers outside [number].) *)
Definition StringToNumber (s : string) : number :=
  match trim s with
  | EmptyString => Fin 0
  | String "+"%char r => unsigned_literal r
  | String "-"%char r => num_neg (unsigned_literal r)
  | t => unsigned_literal t
  end.

Definition ToNumber (v : jsval) : number :=
  match v with
  | JUndefined => NaN
  | JNull => Fin 0
  | JBool b => Fin (if b then 1 else 0)
  | JNum n => n
  | JStr s => StringToNumber s
  end.

Definition number_to_string (n : number) : string :=
  match n with
  | Fin z => pretty z
  | PosInf => "Infinity"
  | NegInf => "-Infinity"
  | NaN => "NaN"
  end.

Definition ToString (v : jsval) : string :=
  match v with
  | JUndefined => "undefined"
  | JNull => "null"
  | JBool b => if b then "true" else "false"
  | JNum n => number_to_string n
  | JStr s => s
  end.

(** The abstract relational comparison [x < y] on primitives: two
    strings compare as strings, anything else as numbers. *)
Definition js_less (x y : jsval) : option bool :=
  match x, y with
  | JStr a, JStr b => Some (String.ltb a b)
  | _, _ => num_less (ToNumber x) (ToNumber y)
  end.

(** [x > y]. *)
Definition js_gt (x y : jsval) : bool :=
  match js_less y x with
  | Some true => true
  | _ => false
  end.

(** [x <= y]: true only when [y < x] is defined and false. *)
Definition js_le (x y : jsval) : bool :=
  match js_less y x with
  | Some false => true
  | _ => false
  end.

(** [x + y]: concatenation as soon as one operand is a string. *)
Definition js_add (x y : jsval) : jsval :=
  match x, y with
  | JStr _, _ | _, JStr _ => JStr (ToString x +:+ ToString y)
  | _, _ => JNum (num_add (ToNumber x) (ToNumber y))
  end.

(** [x - y]. *)
Definition js_sub (x y : jsval) : jsval :=
  JNum (num_sub (ToNumber x) (ToNumber y)).

(** [x === y]; NaN is not equal to itself. *)
Definition js_strict_eq (x y : jsval) : bool :=
  match x, y with
  | JNum NaN, _ | _, JNum NaN => false
  | _, _ => bool_decide (x = y)
  end.

(** [x || y]. *)
Definition js_or (x y : jsval) : jsval :=
  if ToBoolean x then x else y.

End JS.

(** ** The Express server over SQLite ([server/index.js]) *)

Module Server.
Import JS.

(** A row of [users], as the [auth] middleware leaves it in [req.user]. *)
Record user_row : Type := mk_user {
  user_id : string;
  user_username : string;
  user_email : string;
  user_role : string
}.

(** A row of [accounts].  SQLite cells are dynamically typed, hence the
    balance is a [jsval]. *)
Record account_row : Type := mk_account {
  acc_id : string;
  acc_user_id : string;
  acc_balance : jsval;
  acc_created_at : Z
}.

(** A row of [transactions]. *)
Record transaction_row : Type := mk_transaction {
  tx_id : string;
  tx_account_id : string;
  tx_type : jsval;
  tx_amount : jsval;
  tx_description : jsval;
  tx_created_at : Z
}.

Record tables : Type := mk_tables {
  accounts : list account_row;
  transactions : list transaction_row
}.

(** The single connection [db]: the current contents, and the contents
    saved by [BEGIN TRANSACTION] while a transaction is open. *)
Record database : Type := mk_database {
  live : tables;
  journal : option tables
}.

#[global] Instance account_row_eq_dec : EqDecision account_row.
Proof. solve_decision. Defined.

#[global] Instance transaction_row_eq_dec : EqDecision transaction_row.
Proof. solve_decision. Defined.

#[global] Instance tables_eq_dec : EqDecision tables.
Proof. solve_decision. Defined.

#[global] Instance database_eq_dec : EqDecision database.
Proof. solve_decision. Defined.

(** The statements the transaction handler sends inside its [try]. *)
Inductive db_op : Type :=
| OpSelect
| OpBegin
| OpUpdate
| OpInsert
| OpCommit.

#[global] Instance db_op_eq_dec : EqDecision db_op.
Proof. solve_decision. Defined.

(** What the surroundings of one request supply: the value [uuidv4()]
    returns, the reading of [CURRENT_TIMESTAMP], and which statements
    the driver fails with a storage error (leaving the database as it
    was). *)
Record env : Type := mk_env {
  uuid : string;
  now : Z;
  io_error : db_op → bool
}.

(** The outcome of an awaited driver call. *)
Inductive attempt (A : Type) : Type :=
| Returned (a : A)
| Thrown.
Arguments Returned {A} a.
Arguments Thrown {A}.

(** An awaited call: reads and writes the connection, returns or throws. *)
Definition io (A : Type) : Type := database → database * attempt A.

Definition ret {A : Type} (a : A) : io A := λ db, (db, Returned a).

Definition bind {A B : Type} (m : io A) (k : A → io B) : io B :=
  λ db, match m db with
        | (db', Returned a) => k a db'
        | (db', Thrown) => (db', Thrown)
        end.

Notation "x <- m ;; k" := (bind m (λ x, k))
  (at level 100, m at next level, right associativity).

(** How a bound parameter lands in a column of REAL affinity: NaN is
    stored as NULL, a boolean as 0 or 1, and text that reads as a signed
    decimal integer as that number; other text stays text. *)
Definition real_affinity (v : jsval) : jsval :=
  match v with
  | JUndefined => JNull
  | JNull => JNull
  | JBool b => JNum (Fin (if b then 1 else 0))
  | JNum NaN => JNull
  | JNum n => JNum n
  | JStr s =>
      match s with
      | String "+"%char r =>
          match decimal_digits r with Some z => JNum (Fin z) | None => JStr s end
      | String "-"%char r =>
          match decimal_digits r with Some z => JNum (Fin (- z)) | None => JStr s end
      | _ =>
          match decimal_digits s with Some z => JNum (Fin z) | None => JStr s end
      end
  end.

(** [db.get('SELECT * FROM accounts WHERE user_id = ?', [uid])]: the
    first matching row, or [undefined]. *)
Definition db_get_account (e : env) (uid : string) : io (option account_row) :=
  λ db,
    if io_error e OpSelect then (db, Thrown)
    else (db, Returned (snd <$> list_find (λ a, acc_user_id a = uid)
                                          (accounts (live db)))).

(** [db.run('BEGIN TRANSACTION')]: refused inside an open transaction. *)
Definition db_run_begin (e : env) : io unit :=
  λ db,
    if io_error e OpBegin then (db, Thrown)
    else match journal db with
         | Some _ => (db, Thrown)
         | None => (mk_database (live db) (Some (live db)), Returned tt)
         end.

Definition set_balance (newBalance : jsval) (id : string) (a : account_row)
  : account_row :=
  if decide (acc_id a = id)
  then mk_account (acc_id a) (acc_user_id a) (real_affinity newBalance)
                  (acc_created_at a)
  else a.

(** [db.run('UPDATE accounts SET balance = ? WHERE id = ?', [newBalance, id])]. *)
Definition db_run_update_balance (e : env) (newBalance : jsval) (id : string)
  : io unit :=
  λ db,
    if io_error e OpUpdate then (db, Thrown)
    else (mk_database
            (mk_tables (set_balance newBalance id <$> accounts (live db))
                       (transactions (live db)))
            (journal db),
          Returned tt).

(** The constraints of [transactions]: [id] is the primary key, [type]
    is one of the two kinds, [amount] is not NULL. *)
Definition transaction_admissible (t : transaction_row)
    (existing : list transaction_row) : bool :=
  bool_decide (tx_id t ∉ tx_id <$> existing)
  && (bool_decide (tx_type t = JStr "deposit")
      || bool_decide (tx_type t = JStr "withdrawal"))
  && negb (bool_decide (tx_amount t = JNull)).

(** [db.run('INSERT INTO transactions (id, account_id, type, amount,
    description) VALUES (?, ?, ?, ?, ?)', ...)]; [created_at] takes its
    default [CURRENT_TIMESTAMP]. *)
Definition db_run_insert_transaction (e : env) (id account_id : string)
    (type amount description : jsval) : io unit :=
  λ db,
    if io_error e OpInsert then (db, Thrown)
    else
      let t := mk_transaction id account_id type (real_affinity amount)
                              description (now e) in
      if transaction_admissible t (transactions (live db))
      then (mk_database
              (mk_tables (accounts (live db)) (transactions (live db) ++ [t]))
              (journal db),
            Returned tt)
      else (db, Thrown).

(** [db.run('COMMIT')]: refused when no transaction is open. *)
Definition db_run_commit (e : env) : io unit :=
  λ db,
    if io_error e OpCommit then (db, Thrown)
    else match journal db with
         | Some _ => (mk_database (live db) None, Returned tt)
         | None => (db, Thrown)
         end.

(** [db.run('ROLLBACK')]: restores the saved contents; refused when no
    transaction is open. *)
Definition db_run_rollback : io unit :=
  λ db,
    match journal db with
    | Some saved => (mk_database saved None, Returned tt)
    | None => (db, Thrown)
    end.

(** The JSON bodies the three customer routes send. *)
Record transaction_view : Type := mk_view {
  view_id : string;
  view_type : jsval;
  view_amount : jsval;
  view_description : jsval;
  view_date : Z
}.

Inductive json : Type :=
| ErrorJson (error : string)
| BalanceJson (balance : jsval)
| TransactionsJson (rows : list transaction_view)
| SuccessJson (transactionId : string) (newBalance : jsval).

(** What the client gets: a status with a body, or nothing at all when
    the handler's promise rejects before [res] is used. *)
Inductive reply : Type :=
| Reply (status : Z) (body : json)
| NoReply.

(** [req.body] of the transaction route. *)
Record request_body : Type := mk_body {
  body_type : jsval;
  body_amount : jsval;
  body_description : jsval
}.

(** [GET /api/account/balance]. *)
Definition get_balance (e : env) (user : user_row) : database → database * reply :=
  λ db,
    if negb (bool_decide (user_role user = "customer"))
    then (db, Reply 403 (ErrorJson "Access denied"))
    else
      match db_get_account e (user_id user) db with
      | (db', Returned None) => (db', Reply 404 (ErrorJson "Account not found"))
      | (db', Returned (Some account)) =>
          (db', Reply 200 (BalanceJson (acc_balance account)))
      | (db', Thrown) => (db', Reply 500 (ErrorJson "Server error"))
      end.

Definition newer_first (a b : transaction_row) : Prop :=
  tx_created_at b ≤ tx_created_at a.

#[global] Instance newer_first_dec a b : Decision (newer_first a b).
Proof. unfold newer_first. apply _. Defined.

Definition to_view (t : transaction_row) : transaction_view :=
  mk_view (tx_id t) (tx_type t) (tx_amount t) (tx_description t)
          (tx_created_at t).

(** [SELECT id, type, amount, description, created_at as date FROM
    transactions WHERE account_id = ? ORDER BY created_at DESC]. *)
Definition db_all_transactions (e : env) (account_id : string)
  : io (list transaction_view) :=
  λ db,
    if io_error e OpSelect then (db, Thrown)
    else (db, Returned
                (to_view <$>
                   merge_sort newer_first
                     (filter (λ t, tx_account_id t = account_id)
                             (transactions (live db))))).

(** [GET /api/account/transactions]. *)
Definition get_transactions (e : env) (user : user_row)
  : database → database * reply :=
  λ db,
    if negb (bool_decide (user_role user = "customer"))
    then (db, Reply 403 (ErrorJson "Access denied"))
    else
      match (account <- db_get_account e (user_id user) ;;
             match account with
             | None => ret (Reply 404 (ErrorJson "Account not found"))
             | Some account =>
                 transactions <- db_all_transactions e (acc_id account) ;;
                 ret (Reply 200 (TransactionsJson transactions))
             end) db with
      | (db', Returned r) => (db', r)
      | (db', Thrown) => (db', Reply 500 (ErrorJson "Server error"))
      end.

(** The [try] block of [POST /api/account/transaction]. *)
Definition post_transaction_try (e : env) (user : user_row)
    (body : request_body) : io reply :=
  if negb (bool_decide (user_role user = "customer"))
  then ret (Reply 403 (ErrorJson "Access denied"))
  else
    let type := body_type body in
    let amount := body_amount body in
    let description := body_description body in
    if negb (ToBoolean type) || negb (ToBoolean amount)
       || js_le amount (JNum (Fin 0))
    then ret (Reply 400 (ErrorJson "Invalid transaction data"))
    else if negb (js_strict_eq type (JStr "deposit"))
            && negb (js_strict_eq type (JStr "withdrawal"))
    then ret (Reply 400 (ErrorJson "Invalid transaction type"))
    else
      account <- db_get_account e (user_id user) ;;
      match account with
      | None => ret (Reply 404 (ErrorJson "Account not found"))
      | Some account =>
          if js_strict_eq type (JStr "withdrawal")
             && js_gt amount (acc_balance account)
          then ret (Reply 400 (ErrorJson "Insufficient funds"))
          else
            let newBalance :=
              if js_strict_eq type (JStr "deposit")
              then js_add (acc_balance account) amount
              else js_sub (acc_balance account) amount in
            _ <- db_run_begin e ;;
            _ <- db_run_update_balance e newBalance (acc_id account) ;;
            let transactionId := uuid e in
            _ <- db_run_insert_transaction e transactionId (acc_id account)
                   type amount (js_or description JNull) ;;
            _ <- db_run_commit e ;;
            ret (Reply 200 (SuccessJson transactionId newBalance))
      end.

(** [POST /api/account/transaction]: the [try] block, and the [catch]
    that awaits [ROLLBACK] before it answers 500.  When that [ROLLBACK]
    itself throws, the handler's promise rejects and nothing is sent. *)
Definition post_transaction (e : env) (user : user_row) (body : request_body)
  : database → database * reply :=
  λ db,
    match post_transaction_try e user body db with
    | (db', Returned r) => (db', r)
    | (db', Thrown) =>
        match db_run_rollback db' with
        | (db'', Returned _) => (db'', Reply 500 (ErrorJson "Server error"))
        | (db'', Thrown) => (db'', NoReply)
        end
    end.

(** The balance the handler computes for an account and a request, and
    the row it then inserts. *)
Definition new_balance (account : account_row) (body : request_body) : jsval :=
  if js_strict_eq (body_type body) (JStr "deposit")
  then js_add (acc_balance account) (body_amount body)
  else js_sub (acc_balance account) (body_amount body).

Definition posted_row (e : env) (account : account_row) (body : request_body)
  : transaction_row :=
  mk_transaction (uuid e) (acc_id account) (body_type body)
                 (real_affinity (body_amount body))
                 (js_or (body_description body) JNull) (now e).

(** The state an accepted request leaves behind. *)
Definition committed (e : env) (account : account_row) (body : request_body)
    (db : database) : database :=
  mk_database
    (mk_tables
       (set_balance (new_balance account body) (acc_id account)
          <$> accounts (live db))
       (transactions (live db) ++ [posted_row e account body]))
    None.

(** The account row a user's requests operate on. *)
Definition account_of (user : user_row) (db : database) : option account_row :=
  snd <$> list_find (λ a, acc_user_id a = user_id user) (accounts (live db)).

(** The transactions recorded for an account, in insertion order. *)
Definition history (account_id : string) (db : database)
  : list transaction_row :=
  filter (λ t, tx_account_id t = account_id) (transactions (live db)).

(** [seedInitialData]: each seeded customer gets an account holding 5000
    and one matching transaction, "Initial deposit".  An entry of [ids]
    is the triple of identifiers drawn for one customer: user, account,
    transaction. *)
Definition seed_account (ids : string * string * string) (now : Z)
  : account_row :=
  mk_account ids.1.2 ids.1.1 (JNum (Fin 5000)) now.

Definition seed_transaction (ids : string * string * string) (now : Z)
  : transaction_row :=
  mk_transaction ids.2 ids.1.2 (JStr "deposit") (JNum (Fin 5000))
                 (JStr "Initial deposit") now.

Definition seedInitialData (johndoe janedoe alice : string * string * string)
    (now : Z) : database :=
  let customers := [johndoe; janedoe; alice] in
  mk_database
    (mk_tables ((λ c, seed_account c now) <$> customers)
               ((λ c, seed_transaction c now) <$> customers))
    None.

(** *** The ledger an account's rows add up to *)

(** The amount of a row, when the cell holds a finite number. *)
Definition amount_value (t : transaction_row) : Z :=
  match tx_amount t with
  | JNum (Fin z) => z
  | _ => 0
  end.

(** The sum of the amounts of an account's rows of one type. *)
Definition total (type : string) (account_id : string) (db : database) : Z :=
  foldr Z.add 0
    (amount_value <$> filter (λ t, tx_type t = JStr type) (history account_id db)).

(** Balance identity: every stored balance is the account's deposits
    minus its withdrawals. *)
Definition balance_identity (db : database) : Prop :=
  ∀ a, a ∈ accounts (live db) →
    acc_balance a
    = JNum (Fin (total "deposit" (acc_id a) db
                 - total "withdrawal" (acc_id a) db)).

Definition finite_amounts (db : database) : Prop :=
  Forall (λ t, ∃ z, tx_amount t = JNum (Fin z)) (transactions (live db)).

(** A request whose amount is a finite JSON number. *)
Definition numeric_request (body : request_body) : Prop :=
  ∃ z, body_amount body = JNum (Fin z).

(** The states the server passes through when it starts from a freshly
    seeded database and handles one request after the other, each with
    a finite numeric amount.  The three seeded account identifiers are
    distinct: [accounts.id] is a primary key. *)
Inductive reachable : database → Prop :=
| reachable_seed johndoe janedoe alice now :
    NoDup [johndoe.1.2; janedoe.1.2; alice.1.2] →
    reachable (seedInitialData johndoe janedoe alice now)
| reachable_post e user body db :
    reachable db →
    numeric_request body →
    reachable (post_transaction e user body db).1.

(** A balance that is a number and not below zero. *)
Definition non_negative (v : jsval) : Prop :=
  ∃ n, v = JNum n ∧ num_less n (Fin 0) = Some false.

(** The amounts the validation of the transaction route turns away:
    a missing field, [null], zero, NaN, and the negative numbers. *)
Inductive invalid_amount : jsval → Prop :=
| invalid_missing : invalid_amount JUndefined
| invalid_null : invalid_amount JNull
| invalid_nan : invalid_amount (JNum NaN)
| invalid_not_positive z : z ≤ 0 → invalid_amount (JNum (Fin z))
| invalid_negative_infinity : invalid_amount (JNum NegInf).



(** *** The handler between its [await]s

    Several requests share the one connection.  Each [await] hands
    control back to the event loop, so the statements of different
    requests may alternate; a request in flight is the statement it is
    waiting on together with the locals that its continuation reads. *)

Record frame : Type := mk_frame {
  fr_env : env;
  fr_type : jsval;
  fr_amount : jsval;
  fr_description : jsval
}.

Inductive task : Type :=
| AwaitSelect (f : frame) (uid : string)
| AwaitBegin (f : frame) (account_id : string) (newBalance : jsval)
| AwaitUpdate (f : frame) (account_id : string) (newBalance : jsval)
| AwaitInsert (f : frame) (account_id : string) (newBalance : jsval)
| AwaitCommit (f : frame) (newBalance : jsval)
| AwaitRollback
| Finished (r : reply).

(** The synchronous prefix of the handler, up to its first [await]. *)
Definition accept (e : env) (user : user_row) (body : request_body) : task :=
  if negb (bool_decide (user_role user = "customer"))
  then Finished (Reply 403 (ErrorJson "Access denied"))
  else
    let type := body_type body in
    let amount := body_amount body in
    if negb (ToBoolean type) || negb (ToBoolean amount)
       || js_le amount (JNum (Fin 0))
    then Finished (Reply 400 (ErrorJson "Invalid transaction data"))
    else if negb (js_strict_eq type (JStr "deposit"))
            && negb (js_strict_eq type (JStr "withdrawal"))
    then Finished (Reply 400 (ErrorJson "Invalid transaction type"))
    else AwaitSelect (mk_frame e type amount (body_description body))
                     (user_id user).

(** A statement settles: its continuation runs, or control passes to the
    [catch] block, whose first act is to await [ROLLBACK]. *)
Definition settle {A : Type} (r : database * attempt A) (k : A → task)
  : database * task :=
  match r with
  | (db', Returned a) => (db', k a)
  | (db', Thrown) => (db', AwaitRollback)
  end.

(** One awaited statement and the synchronous code that follows it. *)
Definition resume (t : task) : database → database * task :=
  λ db,
    match t with
    | AwaitSelect f uid =>
        settle (db_get_account (fr_env f) uid db)
          (λ account,
             match account with
             | None => Finished (Reply 404 (ErrorJson "Account not found"))
             | Some account =>
                 if js_strict_eq (fr_type f) (JStr "withdrawal")
                    && js_gt (fr_amount f) (acc_balance account)
                 then Finished (Reply 400 (ErrorJson "Insufficient funds"))
                 else
                   AwaitBegin f (acc_id account)
                     (if js_strict_eq (fr_type f) (JStr "deposit")
                      then js_add (acc_balance account) (fr_amount f)
                      else js_sub (acc_balance account) (fr_amount f))
             end)
    | AwaitBegin f id newBalance =>
        settle (db_run_begin (fr_env f) db) (λ _, AwaitUpdate f id newBalance)
    | AwaitUpdate f id newBalance =>
        settle (db_run_update_balance (fr_env f) newBalance id db)
          (λ _, AwaitInsert f id newBalance)
    | AwaitInsert f id newBalance =>
        settle (db_run_insert_transaction (fr_env f) (uuid (fr_env f)) id
                  (fr_type f) (fr_amount f)
                  (js_or (fr_description f) JNull) db)
          (λ _, AwaitCommit f newBalance)
    | AwaitCommit f newBalance =>
        settle (db_run_commit (fr_env f) db)
          (λ _, Finished (Reply 200 (SuccessJson (uuid (fr_env f)) newBalance)))
    | AwaitRollback =>
        match db_run_rollback db with
        | (db', Returned _) => (db', Finished (Reply 500 (ErrorJson "Server error")))
        | (db', Thrown) => (db', Finished NoReply)
        end
    | Finished r => (db, Finished r)
    end.

(** The event loop under a given schedule: each entry names the request
    whose pending statement runs next. *)
Fixpoint run_schedule (schedule : list nat) (db : database)
    (tasks : list task) : database * list task :=
  match schedule with
  | [] => (db, tasks)
  | i :: rest =>
      match tasks !! i with
      | Some t =>
          let '(db', t') := resume t db in
          run_schedule rest db' (<[i := t']> tasks)
      | None => run_schedule rest db tasks
      end
  end.

End Server.

(** ** The in-memory backend ([bankerService.ts], [accountService.ts]) *)

Module Mock.
Import JS.

Inductive kind : Type :=
| deposit
| withdrawal.

#[global] Instance kind_eq_dec : EqDecision kind.
Proof. solve_decision. Defined.

Record Transaction : Type := mk_Transaction {
  t_id : string;
  t_type : kind;
  t_amount : number;
  t_date : Z;
  t_description : option string
}.

Record Customer : Type := mk_Customer {
  c_id : string;
  c_username : string;
  c_email : string;
  c_balance : number;
  c_createdAt : Z;
  c_transactions : list Transaction
}.

Definition day : Z := 24 * 60 * 60 * 1000.

(** The module-level array [customers] as it is when the module loads;
    the four identifiers come from [uuidv4()], [now] from [Date.now()]. *)
Definition customers (john jane tx1 tx2 : string) (now : Z) : list Customer :=
  [ mk_Customer john "johndoe" "john.doe@example.com" (Fin 5000)
      (now - 30 * day)
      [ mk_Transaction tx1 deposit (Fin 2000) (now - 7 * day)
          (Some "Initial deposit");
        mk_Transaction tx2 withdrawal (Fin 500) (now - 5 * day)
          (Some "ATM withdrawal") ];
    mk_Customer jane "janedoe" "jane.doe@example.com" (Fin 7500)
      (now - 45 * day) [] ].

(** [customers.find(c => c.id === id)]. *)
Definition find_customer (id : string) (store : list Customer)
  : option Customer :=
  snd <$> list_find (λ c, c_id c = id) store.

(** [updateCustomerBalance]: nothing happens for an unknown customer;
    otherwise the balance is overwritten and the transaction is put in
    front of the history ([unshift]). *)
Definition updateCustomerBalance (customerId : string) (newBalance : number)
    (transaction : Transaction) (store : list Customer) : list Customer :=
  match list_find (λ c, c_id c = customerId) store with
  | None => store
  | Some (customerIndex, c) =>
      <[customerIndex :=
          mk_Customer (c_id c) (c_username c) (c_email c) newBalance
                      (c_createdAt c) (transaction :: c_transactions c)]> store
  end.

(** A settled promise. *)
Inductive outcome (A : Type) : Type :=
| Resolved (a : A)
| Rejected (message : string).
Arguments Resolved {A} a.
Arguments Rejected {A} message.

(** [getAccountBalance]: [customer?.balance || 0]. *)
Definition getAccountBalance (DEMO_CUSTOMER_ID : string)
    (store : list Customer) : number :=
  match find_customer DEMO_CUSTOMER_ID store with
  | Some customer =>
      if num_truthy (c_balance customer) then c_balance customer else Fin 0
  | None => Fin 0
  end.

(** [getTransactions]: [customer?.transactions || []]. *)
Definition getTransactions (DEMO_CUSTOMER_ID : string)
    (store : list Customer) : list Transaction :=
  match find_customer DEMO_CUSTOMER_ID store with
  | Some customer => c_transactions customer
  | None => []
  end.

Record TransactionParams : Type := mk_params {
  p_type : kind;
  p_amount : number;
  p_description : option string
}.

Record TransactionResult : Type := mk_result {
  r_success : bool;
  r_transactionId : string;
  r_newBalance : number
}.

(** [makeTransaction].  After its initial delay the body runs without
    an [await], hence as one step on the store. *)
Definition makeTransaction (DEMO_CUSTOMER_ID : string) (uuid : string)
    (now : Z) (params : TransactionParams) (store : list Customer)
  : list Customer * outcome TransactionResult :=
  let type := p_type params in
  let amount := p_amount params in
  let description := p_description params in
  match find_customer DEMO_CUSTOMER_ID store with
  | None => (store, Rejected "Customer not found")
  | Some customer =>
      if bool_decide (type = withdrawal) && num_gt amount (c_balance customer)
      then (store, Rejected "Insufficient funds")
      else
        let newBalance :=
          if bool_decide (type = deposit)
          then num_add (c_balance customer) amount
          else num_sub (c_balance customer) amount in
        let transaction := mk_Transaction uuid type amount now description in
        (updateCustomerBalance DEMO_CUSTOMER_ID newBalance transaction store,
         Resolved (mk_result true (t_id transaction) newBalance))
  end.

(** The balance and the record that an accepted call produces. *)
Definition new_balance (customer : Customer) (params : TransactionParams)
  : number :=
  if bool_decide (p_type params = deposit)
  then num_add (c_balance customer) (p_amount params)
  else num_sub (c_balance customer) (p_amount params).

Definition recorded (uuid : string) (now : Z) (params : TransactionParams)
  : Transaction :=
  mk_Transaction uuid (p_type params) (p_amount params) now
                 (p_description params).

Definition credited (customer : Customer) (newBalance : number)
    (transaction : Transaction) : Customer :=
  mk_Customer (c_id customer) (c_username customer) (c_email customer)
              newBalance (c_createdAt customer)
              (transaction :: c_transactions customer).

(** *** The ledger a customer's history adds up to *)

Definition amount_value (t : Transaction) : Z :=
  match t_amount t with
  | Fin z => z
  | _ => 0
  end.

Definition total (k : kind) (history : list Transaction) : Z :=
  foldr Z.add 0 (amount_value <$> filter (λ t, t_type t = k) history).

(** The balance is [offset] above deposits minus withdrawals. *)
Definition balance_above_ledger (offset : Z) (c : Customer) : Prop :=
  c_balance c
  = Fin (offset + total deposit (c_transactions c)
         - total withdrawal (c_transactions c)).

Definition balance_identity (store : list Customer) : Prop :=
  ∀ c, c ∈ store → balance_above_ledger 0 c.

(** The stores the mock passes through: [DEMO_CUSTOMER_ID] is the
    identifier of the first customer, and amounts are finite. *)
Inductive reachable (john jane tx1 tx2 : string) (now : Z)
  : list Customer → Prop :=
| reachable_load :
    reachable john jane tx1 tx2 now (customers john jane tx1 tx2 now)
| reachable_make uuid t params store :
    reachable john jane tx1 tx2 now store →
    (∃ z, p_amount params = Fin z) →
    reachable john jane tx1 tx2 now (makeTransaction john uuid t params store).1.

End Mock.

(** ** The customer's transactions page ([pages/customer/Transactions.tsx])

    The page fetches the history once and orders it itself. *)

Module Page.
Import JS.

Inductive SortOrder : Type :=
| date_desc
| date_asc
| amount_desc
| amount_asc.

(** The comparison function handed to [Array.prototype.sort]. *)
Definition compare (order : SortOrder) (a b : Mock.Transaction) : number :=
  match order with
  | date_desc => Fin (Mock.t_date b - Mock.t_date a)
  | date_asc => Fin (Mock.t_date a - Mock.t_date b)
  | amount_desc => num_sub (Mock.t_amount b) (Mock.t_amount a)
  | amount_asc => num_sub (Mock.t_amount a) (Mock.t_amount b)
  end.

(** [a] may stand before [b]: the comparison is not above zero. *)
Definition precedes (order : SortOrder) (a b : Mock.Transaction) : Prop :=
  num_gt (compare order a b) (Fin 0) = false.

#[global] Instance precedes_dec order a b : Decision (precedes order a b).
Proof. unfold precedes. apply _. Defined.


Definition oldest_first (a b : Mock.Transaction) : Prop :=
  Mock.t_date a ≤ Mock.t_date b.

Definition newest_first (a b : Mock.Transaction) : Prop :=
  Mock.t_date b ≤ Mock.t_date a.

End Page.

(** ** The hosted Postgres backend ([lib/supabase.ts] and its migration) *)

Module Supabase.
Import JS.

Inductive kind : Type :=
| deposit
| withdrawal.

#[global] Instance kind_eq_dec : EqDecision kind.
Proof. solve_decision. Defined.

(** A row of [public.transactions].  The columns [amount] and
    [balance_after] are [numeric NOT NULL]; values reach them as JSON
    numbers, so they are finite. *)
Record row : Type := mk_row {
  row_id : string;
  row_user_id : string;
  row_type : kind;
  row_amount : Z;
  row_description : option string;
  row_balance_after : Z;
  row_created_at : Z
}.

#[global] Instance row_eq_dec : EqDecision row.
Proof. solve_decision. Defined.

(** [auth.users] (by id) and [public.transactions]. *)
Record backend : Type := mk_backend {
  auth_users : list string;
  transactions : list row
}.

(** What the surroundings of one client call supply: the signed-in user
    ([supabase.auth.getUser()], also [auth.uid()] on the server side),
    the defaults [gen_random_uuid()] and [now()], and whether a request
    comes back with an error of its own (network, service). *)
Record env : Type := mk_env {
  session : option string;
  gen_random_uuid : string;
  now : Z;
  rpc_fails : bool;
  insert_fails : bool;
  select_fails : bool
}.

Inductive thrown : Type :=
| Error (message : string)
| PostgrestError.

Inductive outcome (A : Type) : Type :=
| Resolved (a : A)
| Rejected (err : thrown).
Arguments Resolved {A} a.
Arguments Rejected {A} err.

Definition newer_first (a b : row) : Prop :=
  row_created_at b ≤ row_created_at a.

#[global] Instance newer_first_dec a b : Decision (newer_first a b).
Proof. unfold newer_first. apply _. Defined.

(** The SQL function [get_current_balance(user_id)]: [balance_after] of
    the user's first row under [ORDER BY created_at DESC LIMIT 1],
    [COALESCE]d to 0. *)
Definition get_current_balance (user_id : string) (rows : list row) : Z :=
  match merge_sort newer_first
          (filter (λ r, row_user_id r = user_id) rows) with
  | r :: _ => row_balance_after r
  | [] => 0
  end.

(** [getCurrentBalance]: [if (error) throw error; return data || 0]. *)
Definition getCurrentBalance (e : env) (userId : string) (db : backend)
  : outcome number :=
  if rpc_fails e then Rejected PostgrestError
  else
    let data := Fin (get_current_balance userId (transactions db)) in
    Resolved (if num_truthy data then data else Fin 0).

(** [getTransactions]: every row the policy "Users can view own
    transactions" lets through, newest first. *)
Definition getTransactions (e : env) (db : backend) : outcome (list row) :=
  if select_fails e then Rejected PostgrestError
  else Resolved (merge_sort newer_first
                   (filter (λ r, Some (row_user_id r) = session e)
                           (transactions db))).

(** A number as it travels in the JSON body of the insert: NaN and the
    infinities are serialised as [null]. *)
Definition json_number (n : number) : option Z :=
  match n with
  | Fin z => Some z
  | _ => None
  end.

(** [.from('transactions').insert({...}).select().single()].  The row is
    accepted when both numeric columns are not NULL, the policy "Users
    can insert own transactions" holds, the user exists, the amount is
    positive and the generated key is new. *)
Definition insert_transaction (e : env) (user_id : string) (type : kind)
    (amount : number) (description : option string) (balance_after : number)
    (db : backend) : backend * outcome row :=
  if insert_fails e then (db, Rejected PostgrestError)
  else
    match json_number amount, json_number balance_after with
    | Some a, Some b =>
        let r := mk_row (gen_random_uuid e) user_id type a description b
                        (now e) in
        if bool_decide (session e = Some user_id)
           && bool_decide (user_id ∈ auth_users db)
           && bool_decide (0 < a)
           && bool_decide (row_id r ∉ row_id <$> transactions db)
        then (mk_backend (auth_users db) (transactions db ++ [r]), Resolved r)
        else (db, Rejected PostgrestError)
    | _, _ => (db, Rejected PostgrestError)
    end.

(** [createTransaction]. *)
Definition createTransaction (e : env) (type : kind) (amount : number)
    (description : option string) (db : backend)
  : backend * outcome (row * number) :=
  match session e with
  | None => (db, Rejected (Error "Not authenticated"))
  | Some user =>
      match getCurrentBalance e user db with
      | Rejected err => (db, Rejected err)
      | Resolved currentBalance =>
          let newBalance :=
            if bool_decide (type = deposit)
            then num_add currentBalance amount
            else num_sub currentBalance amount in
          if bool_decide (type = withdrawal) && num_gt amount currentBalance
          then (db, Rejected (Error "Insufficient funds"))
          else
            match insert_transaction e user type amount description
                    newBalance db with
            | (db', Resolved data) => (db', Resolved (data, newBalance))
            | (db', Rejected err) => (db', Rejected err)
            end
      end
  end.

(** *** [createTransaction] between its [await]s

    Each client awaits three requests in turn: the session, the balance,
    the insert.  Requests of different clients reach the service in any
    order. *)

Record frame : Type := mk_frame {
  fr_env : env;
  fr_type : kind;
  fr_amount : number;
  fr_description : option string
}.

Inductive call : Type :=
| AwaitUser (f : frame)
| AwaitBalance (f : frame) (user : string)
| AwaitInsert (f : frame) (user : string) (newBalance : number)
| Settled (r : outcome (row * number)).

Definition invoke (e : env) (type : kind) (amount : number)
    (description : option string) : call :=
  AwaitUser (mk_frame e type amount description).

(** One awaited request and the synchronous code that follows it. *)
Definition advance (c : call) (db : backend) : backend * call :=
  match c with
  | AwaitUser f =>
      match session (fr_env f) with
      | None => (db, Settled (Rejected (Error "Not authenticated")))
      | Some user => (db, AwaitBalance f user)
      end
  | AwaitBalance f user =>
      match getCurrentBalance (fr_env f) user db with
      | Rejected err => (db, Settled (Rejected err))
      | Resolved currentBalance =>
          let newBalance :=
            if bool_decide (fr_type f = deposit)
            then num_add currentBalance (fr_amount f)
            else num_sub currentBalance (fr_amount f) in
          if bool_decide (fr_type f = withdrawal)
             && num_gt (fr_amount f) currentBalance
          then (db, Settled (Rejected (Error "Insufficient funds")))
          else (db, AwaitInsert f user newBalance)
      end
  | AwaitInsert f user newBalance =>
      match insert_transaction (fr_env f) user (fr_type f) (fr_amount f)
              (fr_description f) newBalance db with
      | (db', Resolved data) => (db', Settled (Resolved (data, newBalance)))
      | (db', Rejected err) => (db', Settled (Rejected err))
      end
  | Settled r => (db, Settled r)
  end.

Fixpoint run_schedule (schedule : list nat) (db : backend)
    (calls : list call) : backend * list call :=
  match schedule with
  | [] => (db, calls)
  | i :: rest =>
      match calls !! i with
      | Some c =>
          let '(db', c') := advance c db in
          run_schedule rest db' (<[i := c']> calls)
      | None => run_schedule rest db calls
      end
  end.

(** The rows of a user, in insertion order. *)
Definition history (user : string) (db : backend) : list row :=
  filter (λ r, row_user_id r = user) (transactions db).

(** The row an accepted call inserts. *)
Definition inserted (e : env) (user : string) (type : kind) (amount : Z)
    (description : option string) (currentBalance : Z) : row :=
  mk_row (gen_random_uuid e) user type amount description
         (if bool_decide (type = deposit)
          then currentBalance + amount else currentBalance - amount)
         (now e).

End Supabase.

(** ** Concrete runs

    The scenarios of the specification, on each backend: an account
    that received deposits of 5000 and 2000 and a withdrawal of 500,
    and the requests made against it. *)

Module Scenario.
Import JS.

(** *** On the server *)

Definition customer : Server.user_row :=
  Server.mk_user "u1" "johndoe" "john@example.com" "customer".

(** A request during which no statement fails. *)
Definition quiet (id : string) (t : Z) : Server.env :=
  Server.mk_env id t (λ _, false).

(** A request during which exactly the statement [op] fails. *)
Definition failing (op : Server.db_op) (id : string) (t : Z) : Server.env :=
  Server.mk_env id t (λ o, bool_decide (o = op)).

Definition deposit_of (amount : jsval) : Server.request_body :=
  Server.mk_body (JStr "deposit") amount JUndefined.

Definition withdrawal_of (amount : jsval) : Server.request_body :=
  Server.mk_body (JStr "withdrawal") amount JUndefined.

Definition account_with (balance : jsval) : Server.account_row :=
  Server.mk_account "a1" "u1" balance 0.

Definition opened : Server.database :=
  Server.mk_database (Server.mk_tables [account_with (JNum (Fin 0))] []) None.

Definition first_rows : list Server.transaction_row :=
  [ Server.mk_transaction "t1" "a1" (JStr "deposit") (JNum (Fin 5000)) JNull 1;
    Server.mk_transaction "t2" "a1" (JStr "deposit") (JNum (Fin 2000)) JNull 2;
    Server.mk_transaction "t3" "a1" (JStr "withdrawal") (JNum (Fin 500))
      JNull 3 ].

Definition ledger : Server.database :=
  Server.mk_database
    (Server.mk_tables [account_with (JNum (Fin 6500))] first_rows) None.

(** Two withdrawals of 4000 in flight at once, and a schedule in which
    both read the balance before either writes. *)
Definition in_flight : list Server.task :=
  [ Server.accept (quiet "t4" 4) customer (withdrawal_of (JNum (Fin 4000)));
    Server.accept (quiet "t5" 5) customer (withdrawal_of (JNum (Fin 4000))) ].

Definition both_read_first : list nat :=
  [0; 1; 0; 0; 0; 0; 1; 1; 1; 1]%nat.

(** The schedule in which the two requests take turns, each statement
    of the second following the matching statement of the first. *)
Definition taking_turns : list nat :=
  [0; 1; 0; 1; 0; 1; 0; 0; 0]%nat.

Definition seeded : Server.database :=
  Server.seedInitialData ("u1", "a1", "s1") ("u2", "a2", "s2")
    ("u3", "a3", "s3") 0.


(** *** On the mock *)

Definition loaded_at : Z := 1700000000000.

Definition loaded : list Mock.Customer :=
  Mock.customers "john" "jane" "tx1" "tx2" loaded_at.

(** The first customer of [loaded], the one [DEMO_CUSTOMER_ID] names. *)
Definition john : Mock.Customer :=
  Mock.mk_Customer "john" "johndoe" "john.doe@example.com" (Fin 5000)
    (loaded_at - 30 * Mock.day)
    [ Mock.mk_Transaction "tx1" Mock.deposit (Fin 2000)
        (loaded_at - 7 * Mock.day) (Some "Initial deposit");
      Mock.mk_Transaction "tx2" Mock.withdrawal (Fin 500)
        (loaded_at - 5 * Mock.day) (Some "ATM withdrawal") ].

Definition jane : Mock.Customer :=
  Mock.mk_Customer "jane" "janedoe" "jane.doe@example.com" (Fin 7500)
    (loaded_at - 45 * Mock.day) [].

Definition later : Z := loaded_at + 1.

(** *** On Supabase *)

Definition signed_in (id : string) (t : Z) : Supabase.env :=
  Supabase.mk_env (Some "u1") id t false false false.

Definition hosted_rows : list Supabase.row :=
  [ Supabase.mk_row "r1" "u1" Supabase.deposit 5000 None 5000 1;
    Supabase.mk_row "r2" "u1" Supabase.deposit 2000 None 7000 2;
    Supabase.mk_row "r3" "u1" Supabase.withdrawal 500 None 6500 3 ].

Definition hosted : Supabase.backend :=
  Supabase.mk_backend ["u1"] hosted_rows.

(** Two clients of the same user withdrawing 4000 at once. *)
Definition calls_in_flight : list Supabase.call :=
  [ Supabase.invoke (signed_in "r4" 4) Supabase.withdrawal (Fin 4000) None;
    Supabase.invoke (signed_in "r5" 5) Supabase.withdrawal (Fin 4000) None ].

Definition clients_taking_turns : list nat := [0; 1; 0; 1; 0; 1]%nat.

End Scenario.

(** ** Whole numbers that doubles hold exactly

    The numbers of JavaScript and the REAL cells of SQLite are IEEE-754
    doubles.  [JS.number] holds whole numbers, and [JS.num_add] and
    [JS.num_sub] add and subtract them without rounding; the doubles do
    the same as long as the operands and the result are whole numbers
    of magnitude at most [Number.MAX_SAFE_INTEGER].  The properties
    that add amounts up are stated for runs that stay within it. *)

Module Exact.

Definition MAX_SAFE_INTEGER : Z := 2 ^ 53 - 1.

Definition safe (z : Z) : Prop := Z.abs z ≤ MAX_SAFE_INTEGER.

(** Whole numbers whose magnitudes add up to no more than
    [MAX_SAFE_INTEGER]: every sum of some of them or of their
    negations, taken in any order, stays within it. *)
Definition safe_together (zs : list Z) : Prop :=
  foldr Z.add 0 (Z.abs <$> zs) ≤ MAX_SAFE_INTEGER.

End Exact.

(** ** The rest of the server: sign-in and the banker's routes
    ([server/index.js]) *)

Module Bank.
Import JS Server.

(** A row of [users]. *)
Record registered : Type := mk_registered {
  reg_id : string;
  reg_username : string;
  reg_email : string;
  reg_password : string;
  reg_role : string;
  reg_created_at : Z
}.

(** [req.user], as the routes read it. *)
Definition req_user (u : registered) : user_row :=
  mk_user (reg_id u) (reg_username u) (reg_email u) (reg_role u).

(** What the server takes from [bcryptjs] and [jsonwebtoken]:
    [bcrypt.compare(password, hash)], [jwt.sign({ id }, JWT_SECRET,
    { expiresIn: '24h' })] at a given time, and
    [jwt.verify(token, JWT_SECRET)] at a given time, which throws or
    yields the payload, of which the server reads [id]. *)
Record crypto : Type := mk_crypto {
  bcrypt_compare : string → string → bool;
  jwt_sign : string → Z → string;
  jwt_verify : string → Z → option (option string)
}.

(** The body of a sign-in request; each field is a string or absent. *)
Record credentials : Type := mk_credentials {
  cred_username : option string;
  cred_password : option string;
  cred_role : option string
}.

(** [!field] is false: the field is there and not empty. *)
Definition given (field : option string) : bool :=
  match field with
  | Some s => negb (bool_decide (s = ""))
  | None => false
  end.

(** A row the banker's customer routes return. *)
Record customer_view : Type := mk_customer_view {
  cv_id : string;
  cv_username : string;
  cv_email : string;
  cv_balance : jsval;
  cv_createdAt : Z
}.

Inductive json : Type :=
| Failure (error : string)
| SessionJson (id username role token : string)
| CustomersJson (rows : list customer_view)
| CustomerJson (row : customer_view)
| StatsJson (totalCustomers : Z) (totalBalance totalDeposits totalWithdrawals : jsval).

Inductive answer : Type :=
| Answer (status : Z) (body : json).

(** [POST /api/login].  [broken] tells whether the query fails. *)
Definition login (c : crypto) (clock : Z) (broken : bool)
    (users : list registered) (body : credentials) : answer :=
  if negb (given (cred_username body)) || negb (given (cred_password body))
     || negb (given (cred_role body))
  then Answer 400 (Failure "Please provide username, password, and role")
  else if broken then Answer 500 (Failure "Server error")
  else
    match list_find
            (λ u, Some (reg_username u) = cred_username body
                  ∧ Some (reg_role u) = cred_role body) users with
    | None => Answer 401 (Failure "Invalid login credentials")
    | Some (_, user) =>
        if negb (bcrypt_compare c (default "" (cred_password body))
                   (reg_password user))
        then Answer 401 (Failure "Invalid login credentials")
        else Answer 200
               (SessionJson (reg_id user) (reg_username user) (reg_role user)
                  (jwt_sign c (reg_id user) clock))
    end.

(** [s.replace(pattern, '')]: the first occurrence of [pattern] is
    dropped. *)
Fixpoint remove_first (pattern s : string) : string :=
  if String.prefix pattern s
  then String.substring (String.length pattern)
         (String.length s - String.length pattern) s
  else match s with
       | EmptyString => EmptyString
       | String ch rest => String ch (remove_first pattern rest)
       end.

(** The middleware [auth]: the answer it sends, or the user it puts in
    [req.user] before it calls [next()]. *)
Definition auth (c : crypto) (clock : Z) (broken : bool)
    (users : list registered) (authorization : option string)
  : answer + registered :=
  match remove_first "Bearer " <$> authorization with
  | None => inl (Answer 401 (Failure "Authentication required"))
  | Some token =>
      if bool_decide (token = "")
      then inl (Answer 401 (Failure "Authentication required"))
      else
        match jwt_verify c token clock with
        | None => inl (Answer 401 (Failure "Please authenticate"))
        | Some id =>
            if broken then inl (Answer 401 (Failure "Please authenticate"))
            else
              match list_find (λ u, Some (reg_id u) = id) users with
              | None => inl (Answer 401 (Failure "Invalid authentication token"))
              | Some (_, user) => inr user
              end
        end
  end.

(** The join [users u JOIN accounts a ON u.id = a.user_id] with the
    columns the customer routes select, for the users [keep] lets in. *)
Definition joined (keep : registered → bool) (users : list registered)
    (db : database) : list customer_view :=
  u ← filter (λ u, keep u = true) users;
  a ← filter (λ a, acc_user_id a = reg_id u) (accounts (live db));
  [mk_customer_view (reg_id u) (reg_username u) (reg_email u)
     (acc_balance a) (reg_created_at u)].

(** [GET /api/banker/customers]. *)
Definition banker_customers (e : env) (user : user_row)
    (users : list registered) (db : database) : answer :=
  if negb (bool_decide (user_role user = "banker"))
  then Answer 403 (Failure "Access denied")
  else if io_error e OpSelect then Answer 500 (Failure "Server error")
  else Answer 200
         (CustomersJson
            (joined (λ u, bool_decide (reg_role u = "customer")) users db)).

(** [GET /api/banker/customers/:id]. *)
Definition banker_customer (e : env) (user : user_row) (id : string)
    (users : list registered) (db : database) : answer :=
  if negb (bool_decide (user_role user = "banker"))
  then Answer 403 (Failure "Access denied")
  else if io_error e OpSelect then Answer 500 (Failure "Server error")
  else
    match joined (λ u, bool_decide (reg_id u = id)
                       && bool_decide (reg_role u = "customer")) users db with
    | [] => Answer 404 (Failure "Customer not found")
    | customer :: _ => Answer 200 (CustomerJson customer)
    end.

(** [GET /api/banker/customers/:id/transactions]. *)
Definition banker_customer_transactions (e : env) (user : user_row)
    (id : string) : database → database * reply :=
  λ db,
    if negb (bool_decide (user_role user = "banker"))
    then (db, Reply 403 (ErrorJson "Access denied"))
    else
      match (account <- db_get_account e id ;;
             match account with
             | None => ret (Reply 404 (ErrorJson "Account not found"))
             | Some account =>
                 transactions <- db_all_transactions e (acc_id account) ;;
                 ret (Reply 200 (TransactionsJson transactions))
             end) db with
      | (db', Returned r) => (db', r)
      | (db', Thrown) => (db', Reply 500 (ErrorJson "Server error"))
      end.

(** The number a text cell counts as in an aggregate: its longest
    leading run of decimal digits, with an optional sign, read as a
    number; 0 when there is none.  (As in [StringToNumber], fractions
    and exponents denote numbers outside [number].) *)
Fixpoint leading_digits (acc : Z) (s : string) : Z :=
  match s with
  | EmptyString => acc
  | String ch rest =>
      match digit_of ch with
      | Some d => leading_digits (10 * acc + d) rest
      | None => acc
      end
  end.

Definition text_value (s : string) : Z :=
  match trim_start s with
  | String "-"%char rest => - leading_digits 0 rest
  | String "+"%char rest => leading_digits 0 rest
  | t => leading_digits 0 t
  end.

Definition cell_value (v : jsval) : option number :=
  match v with
  | JNull | JUndefined => None
  | JNum n => Some n
  | JBool b => Some (Fin (if b then 1 else 0))
  | JStr s => Some (Fin (text_value s))
  end.

(** [SUM(column)]: NULL cells are skipped; the result is NULL when
    nothing is left, and when the sum is NaN. *)
Definition sql_sum (cells : list jsval) : jsval :=
  match omap cell_value cells with
  | [] => JNull
  | values =>
      match foldl num_add (Fin 0) values with
      | NaN => JNull
      | total => JNum total
      end
  end.

(** [GET /api/banker/stats]. *)
Definition banker_stats (e : env) (user : user_row)
    (users : list registered) (db : database) : answer :=
  if negb (bool_decide (user_role user = "banker"))
  then Answer 403 (Failure "Access denied")
  else if io_error e OpSelect then Answer 500 (Failure "Server error")
  else
    let customersCount :=
      Z.of_nat (length (filter (λ u, reg_role u = "customer") users)) in
    let totalBalance := sql_sum (acc_balance <$> accounts (live db)) in
    let totalDeposits :=
      sql_sum (tx_amount
                 <$> filter (λ t, tx_type t = JStr "deposit")
                       (transactions (live db))) in
    let totalWithdrawals :=
      sql_sum (tx_amount
                 <$> filter (λ t, tx_type t = JStr "withdrawal")
                       (transactions (live db))) in
    Answer 200
      (StatsJson customersCount
         (js_or totalBalance (JNum (Fin 0)))
         (js_or totalDeposits (JNum (Fin 0)))
         (js_or totalWithdrawals (JNum (Fin 0)))).

(** The rows [seedInitialData] puts in [users]: the banker, then the
    three customers, all with the hash of the same password. *)
Definition seeded_users (banker johndoe janedoe alice hash : string)
    (now : Z) : list registered :=
  [ mk_registered banker "banker" "banker@bank.com" hash "banker" now;
    mk_registered johndoe "johndoe" "john@example.com" hash "customer" now;
    mk_registered janedoe "janedoe" "jane@example.com" hash "customer" now;
    mk_registered alice "alice" "alice@example.com" hash "customer" now ].

(** *** What the bank holds and what went through it *)

(** The balance of an account, when the cell holds a finite number. *)
Definition balance_value (a : account_row) : Z :=
  match acc_balance a with
  | JNum (Fin z) => z
  | _ => 0
  end.

Definition holdings (db : database) : Z :=
  foldr Z.add 0 (balance_value <$> accounts (live db)).

(** The sum of the amounts of all rows of one type. *)
Definition volume (type : string) (db : database) : Z :=
  foldr Z.add 0
    (amount_value
       <$> filter (λ t, tx_type t = JStr type) (transactions (live db))).

(** The books balance: account identifiers are distinct, every stored
    balance and amount is a finite number, and the balances add up to
    the deposits minus the withdrawals. *)
Definition books_balance (db : database) : Prop :=
  NoDup (acc_id <$> accounts (live db))
  ∧ Forall (λ a, ∃ z, acc_balance a = JNum (Fin z)) (accounts (live db))
  ∧ finite_amounts db
  ∧ holdings db = volume "deposit" db - volume "withdrawal" db.

(** The runs of [Server.reachable] on which the server and SQLite add
    exactly: every request carries a whole-number amount within
    [MAX_SAFE_INTEGER], and all the deposits recorded add up to no more
    than that. *)
Inductive reachable_exactly : database → Prop :=
| exactly_seed johndoe janedoe alice now :
    NoDup [johndoe.1.2; janedoe.1.2; alice.1.2] →
    reachable_exactly (seedInitialData johndoe janedoe alice now)
| exactly_post e user body db z :
    reachable_exactly db →
    body_amount body = JNum (Fin z) →
    Exact.safe z →
    volume "deposit" (post_transaction e user body db).1
    ≤ Exact.MAX_SAFE_INTEGER →
    reachable_exactly (post_transaction e user body db).1.

End Bank.

(** ** A branch of the bank, to run the banker's routes on *)

Module Branch.
Import JS Server Bank.

Definition staff : user_row :=
  mk_user "b1" "banker" "banker@bank.com" "banker".

(** The users beside [Scenario.seeded]. *)
Definition registry : list registered :=
  seeded_users "b1" "u1" "u2" "u3" "hash:password123" 0.

Definition drop_prefix (p s : string) : option string :=
  if String.prefix p s
  then Some (String.substring (String.length p)
               (String.length s - String.length p) s)
  else None.

(** Stand-ins for the two libraries: a hash that can be read, and a
    token that names its bearer and never expires. *)
Definition plain : crypto :=
  mk_crypto (λ password hash, bool_decide (hash = "hash:" +:+ password))
            (λ id _, "token:" +:+ id)
            (λ token _, Some <$> drop_prefix "token:" token).

Definition johndoe_signs_in : credentials :=
  mk_credentials (Some "johndoe") (Some "password123") (Some "customer").

End Branch.

(** ** The rest of the in-memory backend ([bankerService.ts],
    [accountService.ts]) *)

Module Services.
Import JS Mock.

(** [getCustomerDetails]. *)
Definition getCustomerDetails (customerId : string) (store : list Customer)
  : outcome Customer :=
  match find_customer customerId store with
  | Some customer => Resolved customer
  | None => Rejected "Customer not found"
  end.

(** [getCustomerTransactions]: [customer?.transactions || []]. *)
Definition getCustomerTransactions (customerId : string)
    (store : list Customer) : list Transaction :=
  match find_customer customerId store with
  | Some customer => c_transactions customer
  | None => []
  end.

Record BankStats : Type := mk_stats {
  totalCustomers : nat;
  totalBalance : number;
  totalDeposits : number;
  totalWithdrawals : number
}.

(** The two running totals of [getBankStats], after one more
    transaction. *)
Definition count (totals : number * number) (transaction : Transaction)
  : number * number :=
  if bool_decide (t_type transaction = deposit)
  then (num_add totals.1 (t_amount transaction), totals.2)
  else (totals.1, num_add totals.2 (t_amount transaction)).

(** [getBankStats]: a [reduce] over the balances, and two nested
    [forEach] loops over the histories. *)
Definition getBankStats (store : list Customer) : BankStats :=
  let totalBalance :=
    foldl (λ sum customer, num_add sum (c_balance customer)) (Fin 0) store in
  let totals :=
    foldl (λ totals customer, foldl count totals (c_transactions customer))
          (Fin 0, Fin 0) store in
  mk_stats (length store) totalBalance totals.1 totals.2.

(** [Array.prototype.sort] with a comparison function that orders the
    elements consistently: the sort is stable, so elements that compare
    equal keep their order.  [before a b] says that the comparison of
    [a] with [b] is not above zero. *)
Fixpoint insert_sorted {A} (before : A → A → Prop)
    `{∀ a b, Decision (before a b)} (x : A) (l : list A) : list A :=
  match l with
  | [] => [x]
  | y :: rest =>
      if decide (before x y) then x :: y :: rest
      else y :: insert_sorted before x rest
  end.

Definition stable_sort {A} (before : A → A → Prop)
    `{∀ a b, Decision (before a b)} (l : list A) : list A :=
  foldr (insert_sorted before) [] l.

(** [items.slice(0, limit)] for a whole number of items, or an infinite
    or NaN limit. *)
Definition slice_to {A} (limit : number) (items : list A) : list A :=
  match limit with
  | Fin n =>
      if decide (0 ≤ n) then take (Z.to_nat n) items
      else take (Z.to_nat (Z.of_nat (length items) + n)) items
  | PosInf => items
  | NegInf | NaN => []
  end.

(** [getRecentTransactions]: [sort] orders the customer's own history
    in place, newest first, and [slice] copies its first [limit]
    entries.  The result is the store as the call leaves it, and the
    entries returned. *)
Definition getRecentTransactions (DEMO_CUSTOMER_ID : string) (limit : number)
    (store : list Customer) : list Customer * list Transaction :=
  match list_find (λ c, c_id c = DEMO_CUSTOMER_ID) store with
  | None => (store, slice_to limit [])
  | Some (index, customer) =>
      let sorted :=
        stable_sort (Page.precedes Page.date_desc) (c_transactions customer) in
      (<[index :=
           mk_Customer (c_id customer) (c_username customer)
                       (c_email customer) (c_balance customer)
                       (c_createdAt customer) sorted]> store,
       slice_to limit sorted)
  end.

(** The balances of the store, and the amounts of all its histories. *)
Definition balances (store : list Customer) : list number :=
  c_balance <$> store.

Definition amounts (store : list Customer) : list number :=
  c ← store; t_amount <$> c_transactions c.

(** Numbers that are whole and whose magnitudes add up to no more than
    [MAX_SAFE_INTEGER], so that the doubles add them exactly in any
    order. *)
Definition exact_together (values : list number) : Prop :=
  ∃ zs, values = Fin <$> zs ∧ Exact.safe_together zs.

End Services.

(** ** The hosted backend, one call after the other *)

Module Hosted.
Import JS Supabase.

(** What a row adds to its user's balance. *)
Definition signed_amount (r : row) : Z :=
  if bool_decide (row_type r = deposit) then row_amount r else - row_amount r.

(** A user's deposits minus withdrawals. *)
Definition net (user : string) (db : backend) : Z :=
  foldr Z.add 0 (signed_amount <$> history user db).

(** The states the table passes through when it starts empty and the
    calls of all clients reach it one after the other, each at a time
    [now()] later than every stored row, and each with a whole-number
    amount that the client adds to the caller's balance exactly: the
    magnitude of the amount and the balance together stay within
    [MAX_SAFE_INTEGER]. *)
Inductive reachable : backend → Prop :=
| reachable_empty users : reachable (mk_backend users [])
| reachable_call e type z description db :
    reachable db →
    Forall (λ r, row_created_at r < now e) (transactions db) →
    (∀ user, session e = Some user →
             get_current_balance user (transactions db) + Z.abs z
             ≤ Exact.MAX_SAFE_INTEGER) →
    reachable (createTransaction e type (Fin z) description db).1.

End Hosted.

(** ** The customer's transactions page and the store
    ([pages/customer/Transactions.tsx])

    The page keeps in its state the array [getTransactions] resolved
    with, which for a known customer is the customer's own array in the
    store, the one [updateCustomerBalance] and [getRecentTransactions]
    change in place. *)

Module TransactionsPage.
Import JS Mock.

(** An array a variable holds: the array of the store's customer
    [DEMO_CUSTOMER_ID], or an array of the page's own. *)
Inductive held : Type :=
| StoreArray
| OwnArray (items : list Transaction).

(** The page's state [transactions] and [balance]. *)
Record state : Type := mk_state {
  transactions : held;
  balance : number
}.

(** The items of an array, as the store is now. *)
Definition contents (DEMO_CUSTOMER_ID : string) (store : list Customer)
    (array : held) : list Transaction :=
  match array with
  | StoreArray =>
      match find_customer DEMO_CUSTOMER_ID store with
      | Some customer => c_transactions customer
      | None => []
      end
  | OwnArray items => items
  end.

(** What [getTransactions] resolves with: [customer?.transactions || []]. *)
Definition getTransactions_result (DEMO_CUSTOMER_ID : string)
    (store : list Customer) : held :=
  match find_customer DEMO_CUSTOMER_ID store with
  | Some _ => StoreArray
  | None => OwnArray []
  end.

(** [fetchData]: the balance and the transactions are put in the
    state. *)
Definition fetchData (DEMO_CUSTOMER_ID : string) (store : list Customer)
  : state :=
  mk_state (getTransactions_result DEMO_CUSTOMER_ID store)
           (getAccountBalance DEMO_CUSTOMER_ID store).

(** [handleTransactionSubmit]: after [makeTransaction] resolved, the
    balance is moved and [[newTransaction, ...prev]] becomes the list;
    [made] is the time of the service's record, [submitted] the time
    the page puts in its own.  A rejection is logged and leaves the
    state. *)
Definition handleTransactionSubmit (DEMO_CUSTOMER_ID uuid : string)
    (made submitted : Z) (type : kind) (amount : number)
    (store : list Customer) (page : state) : list Customer * state :=
  match makeTransaction DEMO_CUSTOMER_ID uuid made
          (mk_params type amount None) store with
  | (store', Resolved result) =>
      let newTransaction :=
        mk_Transaction (r_transactionId result) type amount submitted None in
      (store',
       mk_state
         (OwnArray (newTransaction
                    :: contents DEMO_CUSTOMER_ID store' (transactions page)))
         (if bool_decide (type = deposit)
          then num_add (balance page) amount
          else num_sub (balance page) amount))
  | (store', Rejected _) => (store', page)
  end.

End TransactionsPage.

(** ** The guarded routes ([components/ProtectedRoute.tsx], [App.tsx],
    [context/AuthContext.tsx]) *)

Module Routes.

(** The routes of [App], by the path they match. *)
Inductive route : Type :=
| Root
| Login
| BankerLogin
| CustomerDashboard
| CustomerTransactions
| BankerDashboard
| BankerCustomer (id : string)
| Unmatched.

Inductive rendered : Type :=
| Spinner
| Navigate (to : route)
| Page (shown : route).

(** The value of [useAuth()]: [user] is [null] or carries a role;
    [isAuthenticated] is [!!user]. *)
Record auth : Type := mk_auth {
  user : option string;
  isLoading : bool
}.

Definition isAuthenticated (a : auth) : bool :=
  bool_decide (user a ≠ None).

(** [ProtectedRoute]. *)
Definition ProtectedRoute (a : auth) (role : option string)
    (children : rendered) : rendered :=
  if isLoading a then Spinner
  else if negb (isAuthenticated a) then Navigate Login
  else
    match role with
    | Some role =>
        if negb (bool_decide (role = ""))
           && negb (bool_decide (user a = Some role))
        then Navigate (if bool_decide (user a = Some "customer")
                       then CustomerDashboard else BankerDashboard)
        else children
    | None => children
    end.

(** The element [App] renders for a route. *)
Definition App (a : auth) (r : route) : rendered :=
  match r with
  | Root => Navigate Login
  | Login | BankerLogin | Unmatched => Page r
  | CustomerDashboard | CustomerTransactions =>
      ProtectedRoute a (Some "customer") (Page r)
  | BankerDashboard | BankerCustomer _ =>
      ProtectedRoute a (Some "banker") (Page r)
  end.

(** Where the browser ends up: redirects are followed, at most [fuel]
    of them. *)
Fixpoint settle (fuel : nat) (a : auth) (r : route) : option rendered :=
  match App a r with
  | Navigate to =>
      match fuel with
      | O => None
      | S fuel => settle fuel a to
      end
  | element => Some element
  end.

(** [getHomePath] of [NotFoundPage]: where "Back to Home" leads. *)
Definition getHomePath (a : auth) : route :=
  match user a with
  | None => Login
  | Some role =>
      if bool_decide (role = "customer") then CustomerDashboard
      else BankerDashboard
  end.

(** The pages behind a guard, and the role the guard asks for. *)
Definition guarded (r : route) : option string :=
  match r with
  | CustomerDashboard | CustomerTransactions => Some "customer"
  | BankerDashboard | BankerCustomer _ => Some "banker"
  | _ => None
  end.

End Routes.

(** * Properties *)

(** ** The server handlers, one request at a time *)

Section ServerFacts.
Import JS Server.

Lemma js_strict_eq_str v s : js_strict_eq v (JStr s) = bool_decide (v = JStr s).
Proof. destruct v as [| |b|[]|]; reflexivity. Qed.

Ltac bool_hyps :=
  simpl in *;
  repeat match goal with
    | H : negb _ = false |- _ => apply negb_false_iff in H
    | H : negb _ = true |- _ => apply negb_true_iff in H
    | H : _ || _ = false |- _ => apply orb_false_iff in H; destruct H
    | H : _ && _ = true |- _ => apply andb_true_iff in H; destruct H
    | H : _ && _ = false |- _ => apply andb_false_iff in H; destruct H
    | H : _ || _ = true |- _ => apply orb_true_iff in H; destruct H
    | H : bool_decide _ = true |- _ => apply bool_decide_eq_true in H
    | H : bool_decide _ = false |- _ => apply bool_decide_eq_false in H
    end;
  try discriminate.

Ltac unfold_statements :=
  unfold db_get_account, db_run_begin, db_run_update_balance,
    db_run_insert_transaction, db_run_commit, db_run_rollback in *.

Ltac split_handler :=
  unfold post_transaction, post_transaction_try, bind, ret;
  rewrite ?js_strict_eq_str;
  unfold_statements.

Ltac split_cases H :=
  cbv beta in H;
  repeat (case_match; simplify_eq; cbv beta in * ).

(** Acceptance determines the reply and the state completely. *)
Lemma post_transaction_accepted e user body db db' tid nb :
  post_transaction e user body db = (db', Reply 200 (SuccessJson tid nb)) →
  ∃ account,
    user_role user = "customer"
    ∧ (body_type body = JStr "deposit" ∨ body_type body = JStr "withdrawal")
    ∧ ToBoolean (body_amount body) = true
    ∧ js_le (body_amount body) (JNum (Fin 0)) = false
    ∧ account_of user db = Some account
    ∧ (body_type body = JStr "withdrawal" →
       js_gt (body_amount body) (acc_balance account) = false)
    ∧ journal db = None
    ∧ tid = uuid e
    ∧ nb = new_balance account body
    ∧ db' = committed e account body db.
Proof.
  unfold committed, new_balance, posted_row, account_of.
  split_handler. intros H. split_cases H.
  all: match goal with
       | Hf : _ <$> list_find _ _ = Some ?a |- _ => exists a
       end.
  all: bool_hyps; repeat split; auto; try congruence.
Qed.

(** Conversely, a well-formed request on a sound connection is accepted. *)
Lemma post_transaction_accepts e user body db account :
  user_role user = "customer" →
  (body_type body = JStr "deposit" ∨ body_type body = JStr "withdrawal") →
  ToBoolean (body_amount body) = true →
  js_le (body_amount body) (JNum (Fin 0)) = false →
  account_of user db = Some account →
  (body_type body = JStr "withdrawal" →
   js_gt (body_amount body) (acc_balance account) = false) →
  journal db = None →
  (∀ op, io_error e op = false) →
  transaction_admissible (posted_row e account body) (transactions (live db))
  = true →
  post_transaction e user body db
  = (committed e account body db,
     Reply 200 (SuccessJson (uuid e) (new_balance account body))).
Proof.
  unfold committed, new_balance, posted_row, account_of.
  intros Hrole Htype Hamount Hpos Hacc Hfunds Hj Hio Hadm.
  assert (Htruthy : ToBoolean (body_type body) = true)
    by (destruct Htype as [-> | ->]; reflexivity).
  split_handler. cbv beta.
  rewrite !Hio, Hrole, Htruthy, Hamount, Hpos. simpl.
  destruct Htype as [Ht | Ht]; rewrite Ht in *; simpl; rewrite Hacc; simpl.
  - rewrite Hj. simpl. rewrite Hadm. reflexivity.
  - rewrite (Hfunds eq_refl), Hj. simpl. rewrite Hadm. reflexivity.
Qed.

(** Every reply but the success leaves the connection as it found it. *)
Lemma post_transaction_atomic e user body db db' r :
  journal db = None →
  post_transaction e user body db = (db', r) →
  (∃ tid nb, r = Reply 200 (SuccessJson tid nb)) ∨ db' = db.
Proof.
  destruct db as [tbl j]. simpl. intros ->.
  split_handler. intros H. split_cases H.
  all: simpl in *; simplify_eq; eauto.
Qed.

(** No request leaves a transaction open behind it. *)
Lemma post_transaction_journal e user body db :
  journal db = None → journal (post_transaction e user body db).1 = None.
Proof.
  intros Hj.
  destruct (post_transaction e user body db) as [db' r] eqn:Hpost.
  destruct (post_transaction_atomic _ _ _ _ _ _ Hj Hpost) as [(tid & nb & ->) | ->];
    [| exact Hj].
  apply post_transaction_accepted in Hpost as (account & H).
  destruct H as (_ & _ & _ & _ & _ & _ & _ & _ & _ & ->). reflexivity.
Qed.

(** *** Balance identity on the server *)

Lemma foldr_add_app (l1 l2 : list Z) :
  foldr Z.add 0 (l1 ++ l2) = foldr Z.add 0 l1 + foldr Z.add 0 l2.
Proof. induction l1 as [| x l1 IH]; simpl; lia. Qed.

Lemma total_committed type e account body db id :
  total type id (committed e account body db)
  = total type id db
    + (if decide (acc_id account = id ∧ body_type body = JStr type)
       then amount_value (posted_row e account body) else 0).
Proof.
  unfold total, history, committed. simpl.
  rewrite !filter_app, fmap_app, foldr_add_app. f_equal.
  rewrite (filter_cons _ (posted_row e account body)), filter_nil. simpl.
  repeat case_decide; simpl.
  all: rewrite ?filter_cons, ?filter_nil; simpl.
  all: repeat case_decide; simpl; try lia; tauto.
Qed.

Lemma account_of_elem user db account :
  account_of user db = Some account →
  account ∈ accounts (live db) ∧ acc_user_id account = user_id user.
Proof.
  unfold account_of. intros H.
  destruct (list_find _ _) as [[i a] |] eqn:Hfind; simplify_eq/=.
  apply list_find_Some in Hfind as (Hi & Hu & _).
  split; [by eapply list_elem_of_lookup_2 | done].
Qed.

Lemma balance_identity_committed e account body db z :
  balance_identity db →
  account ∈ accounts (live db) →
  body_amount body = JNum (Fin z) →
  body_type body = JStr "deposit" ∨ body_type body = JStr "withdrawal" →
  balance_identity (committed e account body db).
Proof.
  intros Hid Hin Hz Htype a' Ha'.
  rewrite !total_committed.
  unfold committed in Ha'. simpl in Ha'.
  apply list_elem_of_fmap in Ha' as (a & -> & Ha).
  pose proof (Hid _ Hin) as Hbal. pose proof (Hid _ Ha) as Hbal'.
  unfold set_balance, new_balance, amount_value, posted_row. simpl.
  rewrite js_strict_eq_str, Hz, Hbal.
  destruct Htype as [Ht | Ht]; rewrite Ht; simpl.
  all: case_decide as Hsame; simpl.
  all: repeat case_decide.
  all: try by (exfalso;
               match goal with
               | H : ¬ (_ ∧ _) |- _ => apply H; split; congruence
               | H : _ ∧ _ |- _ => destruct H; congruence
               end).
  all: rewrite ?Hbal', ?Hsame in *; repeat f_equal; lia.
Qed.

Lemma finite_amounts_committed e account body db z :
  finite_amounts db →
  body_amount body = JNum (Fin z) →
  finite_amounts (committed e account body db).
Proof.
  unfold finite_amounts, committed. simpl. intros Hfin Hz.
  apply Forall_app. split; [done |].
  apply Forall_singleton. exists z. simpl. by rewrite Hz.
Qed.

Lemma balance_identity_seed johndoe janedoe alice now :
  NoDup [johndoe.1.2; janedoe.1.2; alice.1.2] →
  balance_identity (seedInitialData johndoe janedoe alice now).
Proof.
  intros Hnd a Ha.
  assert (Hdistinct : johndoe.1.2 ≠ janedoe.1.2 ∧ johndoe.1.2 ≠ alice.1.2
                      ∧ janedoe.1.2 ≠ alice.1.2).
  { apply NoDup_cons in Hnd as [Hj Hnd]. apply NoDup_cons in Hnd as [Hn _].
    apply not_elem_of_cons in Hj as [? Hj].
    apply not_elem_of_cons in Hj as [? _].
    apply not_elem_of_cons in Hn as [? _]. done. }
  destruct Hdistinct as (Hjn & Hja & Hna). clear Hnd.
  unfold seedInitialData in Ha. simpl in Ha.
  unfold total, history, seedInitialData. simpl.
  rewrite !elem_of_cons in Ha.
  destruct Ha as [-> | [-> | [-> | Ha]]]; [| | | by apply elem_of_nil in Ha].
  all: simpl; rewrite ?filter_cons, ?filter_nil; simpl.
  all: repeat (case_decide; simpl; rewrite ?filter_cons, ?filter_nil; simpl).
  all: try congruence; try done.
Qed.

(** What holds of the server between two requests. *)
Lemma reachable_invariant db :
  reachable db →
  journal db = None ∧ finite_amounts db ∧ balance_identity db.
Proof.
  induction 1 as [johndoe janedoe alice now Hnd
                 | e user body db Hreach (Hj & Hfin & Hid) [z Hz]].
  - split; [reflexivity |]. split; [| by apply balance_identity_seed].
    unfold finite_amounts, seedInitialData. simpl.
    repeat constructor; by eexists.
  - destruct (post_transaction e user body db) as [db' r] eqn:Hpost. simpl.
    destruct (post_transaction_atomic _ _ _ _ _ _ Hj Hpost)
      as [(tid & nb & ->) | ->]; [| done].
    apply post_transaction_accepted in Hpost
      as (account & _ & Htype & _ & _ & Hacc & _ & _ & _ & _ & ->).
    apply account_of_elem in Hacc as [Hin _].
    split; [reflexivity |].
    split; [by eapply finite_amounts_committed
           | by eapply balance_identity_committed].
Qed.

(** No balance falls below zero. *)
Lemma reachable_non_negative db a :
  reachable db → a ∈ accounts (live db) → non_negative (acc_balance a).
Proof.
  intros Hreach. revert a.
  induction Hreach as [johndoe janedoe alice now Hnd
                      | e user body db Hreach IH [z Hz]]; intros a Ha.
  - unfold seedInitialData in Ha. simpl in Ha.
    exists (Fin 5000). split; [| reflexivity].
    repeat (apply elem_of_cons in Ha as [-> | Ha]; [reflexivity |]).
    by apply elem_of_nil in Ha.
  - pose proof (reachable_invariant _ Hreach) as (Hj & _ & _).
    destruct (post_transaction e user body db) as [db' r] eqn:Hpost.
    simpl in Ha.
    destruct (post_transaction_atomic _ _ _ _ _ _ Hj Hpost)
      as [(tid & nb & ->) | ->]; [| by apply IH].
    apply post_transaction_accepted in Hpost
      as (account & _ & Htype & _ & Hpos & Hacc & Hfunds & _ & _ & _ & ->).
    apply account_of_elem in Hacc as [Hin _].
    destruct (IH _ Hin) as (b & Hb & Hnn).
    unfold committed in Ha. simpl in Ha.
    apply list_elem_of_fmap in Ha as (a0 & -> & Ha0).
    unfold set_balance. case_decide as Hsame; [| by apply IH]. simpl.
    unfold new_balance. rewrite js_strict_eq_str, Hz, Hb.
    rewrite Hz in Hpos, Hfunds. rewrite Hb in Hfunds.
    unfold js_le, js_less, ToNumber, num_less in Hpos.
    destruct (bool_decide (0 < z)) eqn:Hzpos; [| done].
    apply bool_decide_eq_true in Hzpos.
    destruct Htype as [Ht | Ht]; rewrite Ht; simpl.
    + destruct b as [b | | |]; simpl in *; simplify_eq.
      * apply bool_decide_eq_false in Hnn.
        eexists. split; [reflexivity |]. simpl.
        by rewrite bool_decide_eq_false_2 by lia.
      * by eexists.
    + specialize (Hfunds Ht). unfold js_gt, js_less, ToNumber in Hfunds.
      destruct b as [b | | |]; simpl in *; simplify_eq.
      * apply bool_decide_eq_false in Hnn.
        destruct (bool_decide (b < z)) eqn:Hlt; [done |].
        apply bool_decide_eq_false in Hlt.
        eexists. split; [reflexivity |]. simpl.
        by rewrite bool_decide_eq_false_2 by lia.
      * by eexists.
Qed.

(** *** Funds check, boundary, validation *)

Lemma positive_above_balance a b :
  num_less b (Fin 0) = Some false →
  num_less b a = Some true →
  num_truthy a = true ∧ num_less (Fin 0) a = Some true.
Proof.
  destruct a as [a| | |], b as [b| | |]; simpl; intros H0 H1; simplify_eq.
  all: try (split; reflexivity).
  apply bool_decide_eq_false in H0. apply bool_decide_eq_true in H1.
  assert (0 < a) by lia.
  split; [destruct a; done | by rewrite bool_decide_eq_true_2].
Qed.

(** A withdrawal above a non-negative balance is turned away, the
    connection untouched. *)
Lemma post_transaction_insufficient e user body db account a :
  user_role user = "customer" →
  body_type body = JStr "withdrawal" →
  body_amount body = JNum a →
  io_error e OpSelect = false →
  account_of user db = Some account →
  non_negative (acc_balance account) →
  js_gt (JNum a) (acc_balance account) = true →
  post_transaction e user body db
  = (db, Reply 400 (ErrorJson "Insufficient funds")).
Proof.
  intros Hrole Htype Ha Hio Hacc (b & Hb & Hnn) Hgt.
  unfold account_of in Hacc.
  assert (Hlt : num_less b a = Some true).
  { rewrite Hb in Hgt. unfold js_gt, js_less, ToNumber in Hgt.
    by destruct (num_less b a) as [[|]|]. }
  destruct (positive_above_balance _ _ Hnn Hlt) as [Htruthy Hpos].
  assert (Hle : js_le (JNum a) (JNum (Fin 0)) = false)
    by (unfold js_le, js_less, ToNumber; by rewrite Hpos).
  change (num_truthy a) with (ToBoolean (JNum a)) in Htruthy.
  split_handler. cbv beta.
  rewrite Hrole, Htype, Ha, Hio, Htruthy, Hle. simpl.
  rewrite Hacc. simpl. by rewrite Hgt.
Qed.

Lemma account_of_committed e user account body db :
  account_of user db = Some account →
  account_of user (committed e account body db)
  = Some (set_balance (new_balance account body) (acc_id account) account).
Proof.
  unfold account_of, committed. simpl. intros Hacc.
  rewrite list_find_fmap.
  erewrite (list_find_ext _ (λ a, acc_user_id a = user_id user)).
  - destruct (list_find _ _) as [[i a] |]; simplify_eq/=. reflexivity.
  - intros a. unfold set_balance. simpl. by case_decide.
Qed.

(** A withdrawal of exactly the balance passes the funds check and
    empties the account. *)
Lemma post_transaction_exact_withdrawal e user body db account b :
  user_role user = "customer" →
  body_type body = JStr "withdrawal" →
  body_amount body = JNum (Fin b) →
  0 < b →
  account_of user db = Some account →
  acc_balance account = JNum (Fin b) →
  journal db = None →
  (∀ op, io_error e op = false) →
  uuid e ∉ tx_id <$> transactions (live db) →
  post_transaction e user body db
  = (committed e account body db,
     Reply 200 (SuccessJson (uuid e) (JNum (Fin 0))))
  ∧ acc_balance <$> account_of user (committed e account body db)
    = Some (JNum (Fin 0)).
Proof.
  intros Hrole Htype Ha Hb Hacc Hbal Hj Hio Hfresh.
  assert (Hnb : new_balance account body = JNum (Fin 0)).
  { unfold new_balance. rewrite Htype, Ha, Hbal. simpl.
    unfold js_sub, num_sub. simpl. repeat f_equal. lia. }
  split.
  - rewrite <- Hnb. apply post_transaction_accepts; auto.
    + rewrite Ha. destruct b; done.
    + rewrite Ha. unfold js_le, js_less. simpl.
      by rewrite bool_decide_eq_true_2.
    + intros _. rewrite Ha, Hbal. unfold js_gt, js_less. simpl.
      by rewrite bool_decide_eq_false_2 by lia.
    + unfold transaction_admissible, posted_row. simpl.
      rewrite Htype, Ha. simpl. by rewrite bool_decide_eq_true_2.
  - rewrite (account_of_committed _ _ _ _ _ Hacc). simpl.
    unfold set_balance. rewrite decide_True by done. simpl.
    by rewrite Hnb.
Qed.

(** The validation turns an invalid amount away before anything is read
    or written. *)
Lemma post_transaction_invalid_amount e user body db :
  user_role user = "customer" →
  invalid_amount (body_amount body) →
  post_transaction e user body db
  = (db, Reply 400 (ErrorJson "Invalid transaction data")).
Proof.
  intros Hrole Hinv. split_handler. cbv beta. rewrite Hrole. simpl.
  destruct Hinv as [ | | | z Hz | ]; simpl.
  all: rewrite ?orb_true_r; try reflexivity.
  unfold js_le, js_less. simpl.
  rewrite bool_decide_eq_false_2 by lia. by rewrite orb_true_r.
Qed.

(** *** Storage errors *)

(** A statement that fails once the transaction is open is rolled back
    and answered 500. *)
Lemma post_transaction_write_failure e user body db op :
  journal db = None →
  op = OpUpdate ∨ op = OpInsert ∨ op = OpCommit →
  io_error e op = true →
  io_error e OpSelect = false →
  io_error e OpBegin = false →
  (∃ account, account_of user db = Some account) →
  (∃ db' nb, post_transaction (mk_env (uuid e) (now e) (λ _, false)) user body db
             = (db', Reply 200 (SuccessJson (uuid e) nb))) →
  post_transaction e user body db = (db, Reply 500 (ErrorJson "Server error")).
Proof.
  destruct db as [tbl j]. simpl. intros -> Hop Hfail Hsel Hbeg [account Hacc].
  intros (db' & nb & Hok).
  apply post_transaction_accepted in Hok
    as (account' & Hrole & Htype & Hamount & Hpos & Hacc' & Hfunds & _ & _ & _ & _).
  rewrite Hacc in Hacc'. simplify_eq. unfold account_of in Hacc. simpl in *.
  assert (Htruthy : ToBoolean (body_type body) = true)
    by (destruct Htype as [-> | ->]; reflexivity).
  split_handler. cbv beta.
  rewrite Hrole, Htruthy, Hamount, Hpos, Hsel, Hbeg. simpl.
  destruct Htype as [Ht | Ht]; rewrite Ht in *; simpl; rewrite Hacc; simpl.
  all: rewrite ?(Hfunds eq_refl); simpl.
  all: destruct Hop as [-> | [-> | ->]]; rewrite ?Hfail; simpl; try reflexivity.
  all: repeat (case_match; simplify_eq/=; try reflexivity).
Qed.

(** A failure of the account query or of [BEGIN TRANSACTION] reaches the
    [catch] block with no transaction open: its [ROLLBACK] throws in
    turn and no answer is sent. *)
Lemma post_transaction_early_failure e user body db :
  journal db = None →
  user_role user = "customer" →
  body_type body = JStr "deposit" ∨ body_type body = JStr "withdrawal" →
  ToBoolean (body_amount body) = true →
  js_le (body_amount body) (JNum (Fin 0)) = false →
  io_error e OpSelect = true
  ∨ (io_error e OpSelect = false ∧ io_error e OpBegin = true
     ∧ ∃ account, account_of user db = Some account
                  ∧ (body_type body = JStr "withdrawal" →
                     js_gt (body_amount body) (acc_balance account) = false)) →
  post_transaction e user body db = (db, NoReply).
Proof.
  intros Hj Hrole Htype Hamount Hpos Hfail.
  assert (Htruthy : ToBoolean (body_type body) = true)
    by (destruct Htype as [-> | ->]; reflexivity).
  split_handler. cbv beta.
  rewrite Hrole, Htruthy, Hamount, Hpos. simpl.
  destruct Hfail as [Hsel | (Hsel & Hbeg & account & Hacc & Hfunds)];
    rewrite Hsel.
  - destruct Htype as [Ht | Ht]; rewrite Ht; simpl; by rewrite Hj.
  - unfold account_of in Hacc.
    destruct Htype as [Ht | Ht]; rewrite Ht in *; simpl; rewrite Hacc; simpl.
    all: rewrite ?(Hfunds eq_refl), Hbeg; simpl; by rewrite Hj.
Qed.

(** *** Reading the balance *)

Lemma get_balance_found e user db account :
  Server.user_role user = "customer" →
  io_error e OpSelect = false →
  account_of user db = Some account →
  get_balance e user db = (db, Reply 200 (BalanceJson (acc_balance account))).
Proof.
  unfold get_balance, db_get_account, account_of. intros -> -> ->. reflexivity.
Qed.

Lemma get_balance_missing e user db :
  Server.user_role user = "customer" →
  io_error e OpSelect = false →
  account_of user db = None →
  get_balance e user db = (db, Reply 404 (ErrorJson "Account not found")).
Proof.
  unfold get_balance, db_get_account, account_of. intros -> -> ->. reflexivity.
Qed.

(** *** Listing, and the handler as a sequence of awaited statements *)

#[local] Instance newer_first_total : Total newer_first.
Proof. intros a b. unfold newer_first. lia. Qed.


Lemma run_alone e user body db :
  run_schedule (replicate 6 0%nat) db [accept e user body]
  = ((post_transaction e user body db).1,
     [Finished (post_transaction e user body db).2]).
Proof.
  unfold accept, post_transaction, post_transaction_try, bind, ret.
  cbv beta.
  destruct (negb (bool_decide (user_role user = "customer"))); [reflexivity |].
  destruct (negb (ToBoolean (body_type body)) || _ || _); [reflexivity |].
  destruct (negb (js_strict_eq _ _) && _); [reflexivity |].
  destruct (io_error e OpSelect) eqn:Hs, (io_error e OpBegin) eqn:Hb,
    (io_error e OpUpdate) eqn:Hu, (io_error e OpInsert) eqn:Hi,
    (io_error e OpCommit) eqn:Hc, (journal db) eqn:Hj.
  all: destruct (snd <$> list_find (λ a, acc_user_id a = user_id user)
                                   (accounts (live db)))
         as [account |] eqn:Hacc.
  all: try destruct (js_strict_eq (body_type body) (JStr "withdrawal")
                     && js_gt (body_amount body) (acc_balance account))
         eqn:Hfunds.
  all: try destruct (transaction_admissible
                       (mk_transaction (uuid e) (acc_id account)
                          (body_type body) (real_affinity (body_amount body))
                          (js_or (body_description body) JNull) (now e))
                       (transactions (live db))) eqn:Hadm.
  all: repeat (simpl; unfold settle; unfold_statements;
               rewrite ?Hs, ?Hb, ?Hu, ?Hi, ?Hc, ?Hj, ?Hacc, ?Hfunds, ?Hadm;
               try reflexivity).
Qed.
End ServerFacts.

(** ** The in-memory backend *)

Section MockFacts.
Import JS Mock.

Lemma updateCustomerBalance_found id nb tx store c :
  find_customer id store = Some c →
  find_customer id (updateCustomerBalance id nb tx store)
  = Some (credited c nb tx).
Proof.
  unfold find_customer, updateCustomerBalance. intros H.
  destruct (list_find _ store) as [[i c'] |] eqn:Hfind; simplify_eq/=.
  pose proof Hfind as (Hi & Hid & Hbefore)%list_find_Some.
  assert (Hnew : list_find (λ c0, c_id c0 = id)
                   (<[i := credited c nb tx]> store)
                 = Some (i, credited c nb tx)).
  { apply list_find_Some. split; [| split].
    - apply list_lookup_insert_eq. by eapply lookup_lt_Some.
    - exact Hid.
    - intros j y Hj Hlt. rewrite list_lookup_insert_ne in Hj by lia.
      by eapply Hbefore. }
  unfold credited in Hnew. by rewrite Hnew.
Qed.

(** Acceptance determines the result and the store. *)
Lemma makeTransaction_resolved id uuid now params store store' r :
  makeTransaction id uuid now params store = (store', Resolved r) →
  ∃ c,
    find_customer id store = Some c
    ∧ (p_type params = withdrawal →
       num_gt (p_amount params) (c_balance c) = false)
    ∧ r = mk_result true uuid (new_balance c params)
    ∧ store' = updateCustomerBalance id (new_balance c params)
                 (recorded uuid now params) store
    ∧ find_customer id store'
      = Some (credited c (new_balance c params) (recorded uuid now params)).
Proof.
  unfold makeTransaction, new_balance, recorded. intros H.
  destruct (find_customer id store) as [c |] eqn:Hc; [| done].
  destruct (bool_decide (p_type params = withdrawal) && _) eqn:Hfunds; [done |].
  simplify_eq. exists c. split; [done |]. split; [| split; [done |]].
  - intros Hw. rewrite Hw in Hfunds. by rewrite bool_decide_eq_true_2 in Hfunds.
  - split; [done |]. by apply updateCustomerBalance_found.
Qed.

(** A rejected call leaves the store as it was. *)
Lemma makeTransaction_rejected id uuid now params store store' m :
  makeTransaction id uuid now params store = (store', Rejected m) →
  store' = store
  ∧ (m = "Customer not found" ∨ m = "Insufficient funds").
Proof.
  unfold makeTransaction. intros H.
  repeat case_match; simplify_eq; auto.
Qed.

Lemma makeTransaction_insufficient id uuid now params store c :
  find_customer id store = Some c →
  p_type params = withdrawal →
  num_gt (p_amount params) (c_balance c) = true →
  makeTransaction id uuid now params store
  = (store, Rejected "Insufficient funds").
Proof.
  unfold makeTransaction. intros -> -> ->. reflexivity.
Qed.

Lemma makeTransaction_exact_withdrawal id uuid now params store c b :
  find_customer id store = Some c →
  p_type params = withdrawal →
  p_amount params = Fin b →
  c_balance c = Fin b →
  ∃ store',
    makeTransaction id uuid now params store
    = (store', Resolved (mk_result true uuid (Fin 0)))
    ∧ c_balance <$> find_customer id store' = Some (Fin 0).
Proof.
  intros Hc Ht Ha Hb.
  assert (Hnb : new_balance c params = Fin 0).
  { unfold new_balance. rewrite Ht, Ha, Hb. simpl. f_equal. lia. }
  exists (updateCustomerBalance id (Fin 0) (recorded uuid now params) store).
  split.
  - assert (Hgt : num_gt (Fin b) (Fin b) = false).
    { unfold num_gt, num_less. by rewrite bool_decide_eq_false_2 by lia. }
    unfold makeTransaction. rewrite Hc, Ht, Ha, Hb, Hgt. simpl.
    unfold recorded. rewrite Ht, Ha. repeat f_equal; lia.
  - by rewrite (updateCustomerBalance_found _ _ _ _ _ Hc).
Qed.

(** *** Balance and ledger in the mock *)

Lemma total_cons k t history :
  total k (t :: history)
  = (if decide (t_type t = k) then amount_value t else 0) + total k history.
Proof.
  unfold total. rewrite filter_cons. by case_decide.
Qed.

(** Each accepted call moves the balance and the ledger by the same
    amount. *)
Lemma credited_balance_above_ledger offset c params uuid now z :
  balance_above_ledger offset c →
  p_amount params = Fin z →
  balance_above_ledger offset
    (credited c (new_balance c params) (recorded uuid now params)).
Proof.
  unfold balance_above_ledger, credited, new_balance, recorded. simpl.
  intros -> Hz. rewrite !total_cons. unfold amount_value. simpl. rewrite Hz.
  destruct (p_type params); simpl; f_equal; lia.
Qed.

Lemma reachable_shape john jane tx1 tx2 now store :
  reachable john jane tx1 tx2 now store →
  ∃ c,
    store = [c; mk_Customer jane "janedoe" "jane.doe@example.com" (Fin 7500)
                   (now - 45 * day) []]
    ∧ c_id c = john
    ∧ balance_above_ledger 3500 c.
Proof.
  induction 1 as [| uuid t params store Hreach (c & -> & Hid & Hbal) [z Hz]].
  - eexists. split; [reflexivity |]. split; [reflexivity |].
    unfold balance_above_ledger. reflexivity.
  - destruct (makeTransaction _ _ _ _ _) as [store' [r | m]] eqn:Hmake; simpl.
    + apply makeTransaction_resolved in Hmake as (c' & Hfind & _ & _ & -> & _).
      unfold find_customer in Hfind. unfold updateCustomerBalance.
      simpl in *. rewrite decide_True in * by done. simplify_eq/=.
      eexists. split; [reflexivity |]. split; [done |].
      by eapply (credited_balance_above_ledger _ c').
    + apply makeTransaction_rejected in Hmake as [-> _]. eauto.
Qed.

(** *** Reading *)


Lemma getAccountBalance_missing id store :
  find_customer id store = None → getAccountBalance id store = Fin 0.
Proof. unfold getAccountBalance. by intros ->. Qed.

Lemma getAccountBalance_found id store c :
  find_customer id store = Some c →
  num_truthy (c_balance c) = true →
  getAccountBalance id store = c_balance c.
Proof. unfold getAccountBalance. by intros -> ->. Qed.

(** A deposit is never turned away, whatever its amount. *)
Lemma makeTransaction_deposit id uuid now params store c :
  find_customer id store = Some c →
  p_type params = deposit →
  makeTransaction id uuid now params store
  = (updateCustomerBalance id (num_add (c_balance c) (p_amount params))
       (recorded uuid now params) store,
     Resolved (mk_result true uuid (num_add (c_balance c) (p_amount params)))).
Proof.
  unfold makeTransaction, recorded. intros -> Ht. rewrite Ht. reflexivity.
Qed.

End MockFacts.

(** ** The transactions page *)

Section PageFacts.
Import JS Page.

Lemma precedes_date_asc a b : precedes date_asc a b ↔ oldest_first a b.
Proof.
  unfold precedes, oldest_first, num_gt. simpl.
  case_bool_decide; split; intros; try done; lia.
Qed.

Lemma precedes_date_desc a b : precedes date_desc a b ↔ newest_first a b.
Proof.
  unfold precedes, newest_first, num_gt. simpl.
  case_bool_decide; split; intros; try done; lia.
Qed.

#[local] Instance precedes_date_asc_total : Total (precedes date_asc).
Proof.
  intros a b. rewrite !precedes_date_asc. unfold oldest_first. lia.
Qed.

#[local] Instance precedes_date_desc_total : Total (precedes date_desc).
Proof.
  intros a b. rewrite !precedes_date_desc. unfold newest_first. lia.
Qed.

Lemma Sorted_weaken {A} (R1 R2 : relation A) (l : list A) :
  (∀ x y, R1 x y → R2 x y) → Sorted R1 l → Sorted R2 l.
Proof.
  intros Himpl Hsorted. rewrite <- (list_fmap_id l).
  by apply (Sorted_fmap id R1 R2).
Qed.


End PageFacts.

(** ** The hosted Postgres backend *)

Section SupabaseFacts.
Import JS Supabase.

#[local] Instance row_newer_first_total : Total Supabase.newer_first.
Proof. intros a b. unfold Supabase.newer_first. lia. Qed.

#[local] Instance row_newer_first_trans : Transitive Supabase.newer_first.
Proof. intros a b c. unfold Supabase.newer_first. lia. Qed.

(** [get_current_balance] is 0 for a user without rows, and otherwise
    the [balance_after] of one of the user's rows that no other row of
    the user is newer than. *)
Lemma get_current_balance_latest user rows :
  (Forall (λ r, row_user_id r ≠ user) rows
   ∧ get_current_balance user rows = 0)
  ∨ (∃ r, r ∈ rows ∧ row_user_id r = user
          ∧ (∀ r', r' ∈ rows → row_user_id r' = user →
                   row_created_at r' ≤ row_created_at r)
          ∧ get_current_balance user rows = row_balance_after r).
Proof.
  unfold get_current_balance.
  pose proof (merge_sort_Permutation Supabase.newer_first
                (filter (λ r, row_user_id r = user) rows)) as Hperm.
  pose proof (StronglySorted_merge_sort Supabase.newer_first
                (filter (λ r, row_user_id r = user) rows)) as Hsorted.
  destruct (merge_sort _ _) as [| r sorted].
  - left. split; [| reflexivity].
    apply Permutation_nil_l in Hperm.
    apply Forall_forall. intros r Hr Hu.
    assert (Hin : r ∈ filter (λ r, row_user_id r = user) rows)
      by (by apply list_elem_of_filter).
    rewrite <- Hperm in Hin. by apply elem_of_nil in Hin.
  - right. exists r.
    assert (Hr : r ∈ filter (λ r, row_user_id r = user) rows)
      by (rewrite <- Hperm; left).
    apply list_elem_of_filter in Hr as [Hu Hr].
    split; [done |]. split; [done |]. split; [| reflexivity].
    intros r' Hr' Hu'.
    assert (Hin : r' ∈ r :: sorted)
      by (rewrite Hperm; by apply list_elem_of_filter).
    apply StronglySorted_cons in Hsorted as [Hall _].
    apply elem_of_cons in Hin as [-> | Hin]; [lia |].
    rewrite Forall_forall in Hall. by apply Hall.
Qed.

Lemma getCurrentBalance_value e user db :
  rpc_fails e = false →
  getCurrentBalance e user db
  = Resolved (Fin (get_current_balance user (transactions db))).
Proof.
  unfold getCurrentBalance. intros ->.
  by destruct (get_current_balance user (transactions db)).
Qed.

(** A row strictly newer than the user's other rows decides the balance. *)
Lemma get_current_balance_snoc user rows r :
  row_user_id r = user →
  (∀ r', r' ∈ rows → row_user_id r' = user →
         row_created_at r' < row_created_at r) →
  get_current_balance user (rows ++ [r]) = row_balance_after r.
Proof.
  intros Hu Hnewer.
  destruct (get_current_balance_latest user (rows ++ [r]))
    as [[Hnone _] | (r0 & Hin & Hu0 & Hlatest & ->)].
  - apply Forall_app in Hnone as [_ Hnone].
    apply Forall_inv in Hnone. by destruct Hnone.
  - apply elem_of_app in Hin as [Hin | Hin].
    + specialize (Hnewer _ Hin Hu0).
      assert (r ∈ rows ++ [r]) as Hr
        by (apply elem_of_app; right; by apply list_elem_of_singleton).
      specialize (Hlatest _ Hr Hu). lia.
    + by apply list_elem_of_singleton in Hin as ->.
Qed.

(** Acceptance determines the inserted row and the table. *)
Lemma createTransaction_resolved e type amount description db db' data nb :
  createTransaction e type amount description db = (db', Resolved (data, nb)) →
  ∃ user a,
    session e = Some user
    ∧ rpc_fails e = false
    ∧ amount = Fin a
    ∧ 0 < a
    ∧ (type = withdrawal →
       a ≤ get_current_balance user (transactions db))
    ∧ data = inserted e user type a description
               (get_current_balance user (transactions db))
    ∧ nb = Fin (row_balance_after data)
    ∧ db' = mk_backend (auth_users db) (transactions db ++ [data]).
Proof.
  unfold createTransaction, insert_transaction, inserted. intros H.
  destruct (session e) as [user |] eqn:Hs; [| done].
  destruct (rpc_fails e) eqn:Hrpc.
  { unfold getCurrentBalance in H. by rewrite Hrpc in H. }
  rewrite getCurrentBalance_value in H by done.
  set (cur := get_current_balance user (transactions db)) in *.
  destruct (bool_decide (type = withdrawal) && _) eqn:Hfunds; [done |].
  destruct (insert_fails e); [done |].
  destruct amount as [a | | |]; [| by simpl in H; destruct type ..].
  change (json_number (Fin a)) with (Some a) in H.
  assert (Hnb : json_number
                  (if bool_decide (type = deposit)
                   then num_add (Fin cur) (Fin a)
                   else num_sub (Fin cur) (Fin a))
                = Some (if bool_decide (type = deposit)
                        then cur + a else cur - a)).
  { destruct type; simpl; f_equal; lia. }
  rewrite Hnb in H.
  destruct (bool_decide (Some user = Some user) && _ && _ && _) eqn:Hok;
    [| done].
  simplify_eq. exists user, a.
  apply andb_true_iff in Hok as [Hok _].
  apply andb_true_iff in Hok as [_ Hpos%bool_decide_eq_true].
  repeat split; try done.
  - intros ->. simpl in Hfunds. unfold num_gt, num_less in Hfunds.
    destruct (bool_decide (cur < a)) eqn:Hlt; [done |].
    apply bool_decide_eq_false in Hlt. lia.
  - simpl. destruct type; simpl; f_equal; lia.
Qed.

(** A rejected call leaves the table as it was. *)
Lemma createTransaction_rejected e type amount description db db' err :
  createTransaction e type amount description db = (db', Rejected err) →
  db' = db.
Proof.
  unfold createTransaction, insert_transaction. intros H.
  repeat case_match; simplify_eq; reflexivity.
Qed.

Lemma createTransaction_insufficient e amount description db user :
  session e = Some user →
  rpc_fails e = false →
  num_gt amount (Fin (get_current_balance user (transactions db))) = true →
  createTransaction e withdrawal amount description db
  = (db, Rejected (Error "Insufficient funds")).
Proof.
  intros Hs Hrpc Hgt. unfold createTransaction.
  rewrite Hs, getCurrentBalance_value by done. simpl. by rewrite Hgt.
Qed.

(** A well-formed call by a signed-in, existing user is accepted. *)
Lemma createTransaction_accepts e type a description db user :
  session e = Some user →
  rpc_fails e = false →
  insert_fails e = false →
  user ∈ auth_users db →
  gen_random_uuid e ∉ row_id <$> transactions db →
  0 < a →
  (type = withdrawal → a ≤ get_current_balance user (transactions db)) →
  let data := inserted e user type a description
                (get_current_balance user (transactions db)) in
  createTransaction e type (Fin a) description db
  = (mk_backend (auth_users db) (transactions db ++ [data]),
     Resolved (data, Fin (row_balance_after data))).
Proof.
  intros Hs Hrpc Hins Huser Hfresh Hpos Hfunds data. subst data.
  unfold createTransaction, insert_transaction, inserted.
  rewrite Hs, getCurrentBalance_value, Hins by done.
  set (cur := get_current_balance user (transactions db)) in *.
  assert (Hgt : bool_decide (type = withdrawal) && num_gt (Fin a) (Fin cur)
                = false).
  { destruct type; [done |]. simpl. unfold num_gt, num_less.
    rewrite bool_decide_eq_false_2; [done |]. specialize (Hfunds eq_refl). lia. }
  rewrite Hgt.
  assert (Hnb : json_number
                  (if bool_decide (type = deposit)
                   then num_add (Fin cur) (Fin a)
                   else num_sub (Fin cur) (Fin a))
                = Some (if bool_decide (type = deposit)
                        then cur + a else cur - a)).
  { destruct type; simpl; f_equal; lia. }
  change (json_number (Fin a)) with (Some a). rewrite Hnb.
  rewrite !bool_decide_eq_true_2 by done. simpl.
  repeat f_equal. destruct type; simpl; f_equal; lia.
Qed.

(** The table constraints turn away every amount that is not a finite
    number above zero. *)
Lemma createTransaction_invalid_amount e type amount description db :
  (∀ a, amount = Fin a → a ≤ 0) →
  ∃ err, createTransaction e type amount description db = (db, Rejected err).
Proof.
  intros Hinv.
  destruct (createTransaction e type amount description db)
    as [db' [[data nb] | err]] eqn:Hcreate.
  - apply createTransaction_resolved in Hcreate
      as (user & a & _ & _ & Ha & Hpos & _).
    specialize (Hinv _ Ha). lia.
  - exists err. by apply createTransaction_rejected in Hcreate as ->.
Qed.


(** A call that runs with no other in between is [createTransaction]. *)
Lemma run_call_alone e type amount description db :
  Supabase.run_schedule (replicate 3 0%nat) db
    [invoke e type amount description]
  = ((createTransaction e type amount description db).1,
     [Settled (createTransaction e type amount description db).2]).
Proof.
  unfold invoke, createTransaction. simpl.
  destruct (session e) as [user |]; [| reflexivity]. simpl.
  destruct (getCurrentBalance e user db) as [cur | err]; [| reflexivity].
  destruct (bool_decide (type = withdrawal) && num_gt amount cur);
    [reflexivity |]. simpl.
  by destruct (insert_transaction _ _ _ _ _ _ _) as [db' [data | err]].
Qed.

End SupabaseFacts.

(** ** The concrete runs of the specification *)

Section ScenarioFacts.
Import JS Scenario.

(** Balance 0; deposit 5000; deposit 2000; withdraw 500: the balance is
    6500 and the history holds the three transactions. *)
Example ledger_is_reached :
  let one := Server.post_transaction (quiet "t1" 1) customer
               (deposit_of (JNum (Fin 5000))) opened in
  let two := Server.post_transaction (quiet "t2" 2) customer
               (deposit_of (JNum (Fin 2000))) one.1 in
  let three := Server.post_transaction (quiet "t3" 3) customer
                 (withdrawal_of (JNum (Fin 500))) two.1 in
  one.2 = Server.Reply 200 (Server.SuccessJson "t1" (JNum (Fin 5000)))
  ∧ two.2 = Server.Reply 200 (Server.SuccessJson "t2" (JNum (Fin 7000)))
  ∧ three = (ledger,
             Server.Reply 200 (Server.SuccessJson "t3" (JNum (Fin 6500)))).
Proof. repeat split; vm_compute; reflexivity. Qed.

(** The same three steps on Supabase, from an empty table. *)
Example hosted_is_reached :
  let one := Supabase.createTransaction (signed_in "r1" 1) Supabase.deposit
               (Fin 5000) None (Supabase.mk_backend ["u1"] []) in
  let two := Supabase.createTransaction (signed_in "r2" 2) Supabase.deposit
               (Fin 2000) None one.1 in
  let three := Supabase.createTransaction (signed_in "r3" 3)
                 Supabase.withdrawal (Fin 500) None two.1 in
  three.1 = hosted
  ∧ Supabase.getCurrentBalance (signed_in "" 4) "u1" three.1
    = Supabase.Resolved (Fin 6500).
Proof. split; vm_compute; reflexivity. Qed.

(** The first customer of the loaded mock is the one the demo runs on. *)
Example loaded_demo_customer :
  loaded = [john; jane] ∧ Mock.find_customer "john" loaded = Some john.
Proof. split; reflexivity. Qed.

End ScenarioFacts.

(** ** The claims of the specification *)

Section Claims.
Import JS Scenario.

(** C1.  Not every accepted request writes the prior balance plus the
    amount.  The server takes [amount] as it comes in the body: the
    text "5" passes [!amount || amount <= 0], and [account.balance +
    amount] then joins the two as text.  A deposit of "5" on a balance
    of 6500 is accepted and answered with [newBalance] "65005"; the
    account is left holding 65005 against a recorded amount of 5.  (The
    same deposit with the number 5 is answered 6505 and leaves 6505.) *)
Theorem accepted_text_amount_is_concatenated :
  Server.post_transaction (quiet "t4" 4) customer (deposit_of (JStr "5"))
    ledger
  = (Server.mk_database
       (Server.mk_tables
          [account_with (JNum (Fin 65005))]
          (first_rows
           ++ [Server.mk_transaction "t4" "a1" (JStr "deposit")
                 (JNum (Fin 5)) JNull 4]))
       None,
     Server.Reply 200 (Server.SuccessJson "t4" (JStr "65005")))
  ∧ Server.post_transaction (quiet "t4" 4) customer
      (deposit_of (JNum (Fin 5))) ledger
    = (Server.mk_database
         (Server.mk_tables
            [account_with (JNum (Fin 6505))]
            (first_rows
             ++ [Server.mk_transaction "t4" "a1" (JStr "deposit")
                   (JNum (Fin 5)) JNull 4]))
         None,
       Server.Reply 200 (Server.SuccessJson "t4" (JNum (Fin 6505)))).
Proof. split; vm_compute; reflexivity. Qed.

(** C2.  A withdrawal whose amount is strictly greater than the current
    balance fails with "Insufficient funds" and changes nothing: neither
    the balance nor the history.  On the server the account is one whose
    balance is not below zero (the invariant of the data model); the
    mock and the Supabase client run the funds check before anything
    else. *)
Theorem withdrawal_above_balance_rejected :
  (∀ e user body db account a,
      Server.user_role user = "customer" →
      Server.body_type body = JStr "withdrawal" →
      Server.body_amount body = JNum a →
      Server.io_error e Server.OpSelect = false →
      Server.account_of user db = Some account →
      Server.non_negative (Server.acc_balance account) →
      js_gt (JNum a) (Server.acc_balance account) = true →
      Server.post_transaction e user body db
      = (db, Server.Reply 400 (Server.ErrorJson "Insufficient funds")))
  ∧ (∀ id uuid now params store c,
        Mock.find_customer id store = Some c →
        Mock.p_type params = Mock.withdrawal →
        num_gt (Mock.p_amount params) (Mock.c_balance c) = true →
        Mock.makeTransaction id uuid now params store
        = (store, Mock.Rejected "Insufficient funds"))
  ∧ (∀ e amount description db user,
        Supabase.session e = Some user →
        Supabase.rpc_fails e = false →
        num_gt amount
          (Fin (Supabase.get_current_balance user (Supabase.transactions db)))
        = true →
        Supabase.createTransaction e Supabase.withdrawal amount description db
        = (db, Supabase.Rejected (Supabase.Error "Insufficient funds"))).
Proof.
  split; [| split].
  - apply post_transaction_insufficient.
  - apply makeTransaction_insufficient.
  - apply createTransaction_insufficient.
Qed.

Lemma withdrawal_above_balance_rejected_witness :
  Server.post_transaction (quiet "t4" 4) customer
    (withdrawal_of (JNum (Fin 10000))) ledger
  = (ledger, Server.Reply 400 (Server.ErrorJson "Insufficient funds"))
  ∧ Mock.makeTransaction "john" "m1" later
      (Mock.mk_params Mock.withdrawal (Fin 10000) None) loaded
    = (loaded, Mock.Rejected "Insufficient funds")
  ∧ Supabase.createTransaction (signed_in "r4" 4) Supabase.withdrawal
      (Fin 10000) None hosted
    = (hosted, Supabase.Rejected (Supabase.Error "Insufficient funds")).
Proof.
  destruct withdrawal_above_balance_rejected as (Hserver & Hmock & Hhosted).
  split; [| split].
  - apply (Hserver _ _ _ _ (account_with (JNum (Fin 6500))) (Fin 10000));
      try reflexivity.
    exists (Fin 6500). split; reflexivity.
  - apply (Hmock "john" "m1" _ _ loaded john); reflexivity.
  - apply (Hhosted _ _ _ _ "u1"); reflexivity.
Defined.

(** C10.  A withdrawal whose amount equals the current balance passes
    the funds check (the comparison is the strict [amount > balance])
    and leaves the balance at exactly 0.  The amount is a valid one, a
    finite number above zero, and the write itself meets no storage
    error. *)
Theorem withdrawal_of_whole_balance_accepted :
  (∀ e user body db account b,
      Server.user_role user = "customer" →
      Server.body_type body = JStr "withdrawal" →
      Server.body_amount body = JNum (Fin b) →
      0 < b →
      Server.account_of user db = Some account →
      Server.acc_balance account = JNum (Fin b) →
      Server.journal db = None →
      (∀ op, Server.io_error e op = false) →
      Server.uuid e ∉ Server.tx_id <$> Server.transactions (Server.live db) →
      Server.post_transaction e user body db
      = (Server.committed e account body db,
         Server.Reply 200 (Server.SuccessJson (Server.uuid e) (JNum (Fin 0))))
      ∧ Server.acc_balance
          <$> Server.account_of user (Server.committed e account body db)
        = Some (JNum (Fin 0)))
  ∧ (∀ id uuid now params store c b,
        Mock.find_customer id store = Some c →
        Mock.p_type params = Mock.withdrawal →
        Mock.p_amount params = Fin b →
        Mock.c_balance c = Fin b →
        ∃ store',
          Mock.makeTransaction id uuid now params store
          = (store', Mock.Resolved (Mock.mk_result true uuid (Fin 0)))
          ∧ Mock.c_balance <$> Mock.find_customer id store' = Some (Fin 0))
  ∧ (∀ e description db user b,
        Supabase.session e = Some user →
        Supabase.rpc_fails e = false →
        Supabase.insert_fails e = false →
        user ∈ Supabase.auth_users db →
        Supabase.gen_random_uuid e
          ∉ Supabase.row_id <$> Supabase.transactions db →
        0 < b →
        Supabase.get_current_balance user (Supabase.transactions db) = b →
        ∃ db' data,
          Supabase.createTransaction e Supabase.withdrawal (Fin b)
            description db
          = (db', Supabase.Resolved (data, Fin 0))
          ∧ Supabase.row_balance_after data = 0
          ∧ Supabase.transactions db' = Supabase.transactions db ++ [data]).
Proof.
  split; [| split].
  - apply post_transaction_exact_withdrawal.
  - apply makeTransaction_exact_withdrawal.
  - intros e description db user b Hs Hrpc Hins Huser Hfresh Hb Hcur.
    pose proof (createTransaction_accepts e Supabase.withdrawal b description
                  db user Hs Hrpc Hins Huser Hfresh Hb) as Hok.
    simpl in Hok. rewrite Hcur in Hok.
    specialize (Hok (λ _, Z.le_refl b)).
    replace (b - b) with 0 in Hok by lia.
    eexists _, _. split; [exact Hok |]. split; [| reflexivity].
    unfold Supabase.inserted. simpl. lia.
Qed.

Lemma withdrawal_of_whole_balance_accepted_witness :
  (Server.post_transaction (quiet "t4" 4) customer
     (withdrawal_of (JNum (Fin 6500))) ledger).2
  = Server.Reply 200 (Server.SuccessJson "t4" (JNum (Fin 0)))
  ∧ (∃ store',
       Mock.makeTransaction "john" "m1" later
         (Mock.mk_params Mock.withdrawal (Fin 5000) None) loaded
       = (store', Mock.Resolved (Mock.mk_result true "m1" (Fin 0)))
       ∧ Mock.c_balance <$> Mock.find_customer "john" store' = Some (Fin 0))
  ∧ (∃ db' data,
       Supabase.createTransaction (signed_in "r4" 4) Supabase.withdrawal
         (Fin 6500) None hosted
       = (db', Supabase.Resolved (data, Fin 0))
       ∧ Supabase.row_balance_after data = 0
       ∧ Supabase.transactions db' = Supabase.transactions hosted ++ [data]).
Proof.
  destruct withdrawal_of_whole_balance_accepted as (Hserver & Hmock & Hhosted).
  split; [| split].
  - destruct (Hserver (quiet "t4" 4) customer
                (withdrawal_of (JNum (Fin 6500))) ledger
                (account_with (JNum (Fin 6500))) 6500
                eq_refl eq_refl eq_refl eq_refl eq_refl eq_refl eq_refl
                (λ _, eq_refl)) as [Hpost _].
    + vm_compute. intros Hin. by repeat (inversion Hin as [| ? ? ? Hin']; subst;
                                         clear Hin; rename Hin' into Hin).
    + by rewrite Hpost.
  - apply (Hmock "john" "m1" _ _ loaded john 5000); reflexivity.
  - apply (Hhosted (signed_in "r4" 4) None hosted "u1" 6500);
      try reflexivity; try lia.
    + apply list_elem_of_here.
    + vm_compute. intros Hin. by repeat (inversion Hin as [| ? ? ? Hin']; subst;
                                         clear Hin; rename Hin' into Hin).
Defined.

(** C6.  On Supabase the current balance of a user is the
    [balance_after] of the user's most recent transaction (a row of the
    user that none of the user's rows is newer than), or 0 when the user
    has no transactions.  This holds in every state of the table, the
    balance being read from it. *)
Theorem current_balance_is_latest_balance_after e user db :
  Supabase.rpc_fails e = false →
  (Forall (λ r, Supabase.row_user_id r ≠ user) (Supabase.transactions db)
   ∧ Supabase.getCurrentBalance e user db = Supabase.Resolved (Fin 0))
  ∨ (∃ r,
        r ∈ Supabase.transactions db
        ∧ Supabase.row_user_id r = user
        ∧ (∀ r', r' ∈ Supabase.transactions db →
                 Supabase.row_user_id r' = user →
                 Supabase.row_created_at r' ≤ Supabase.row_created_at r)
        ∧ Supabase.getCurrentBalance e user db
          = Supabase.Resolved (Fin (Supabase.row_balance_after r))).
Proof.
  intros Hrpc. rewrite getCurrentBalance_value by done.
  destruct (get_current_balance_latest user (Supabase.transactions db))
    as [[Hnone ->] | (r & Hr & Hu & Hlatest & ->)].
  - by left.
  - right. by exists r.
Qed.

Lemma current_balance_is_latest_balance_after_witness :
  (Forall (λ r, Supabase.row_user_id r ≠ "u1") (Supabase.transactions hosted)
   ∧ Supabase.getCurrentBalance (signed_in "" 0) "u1" hosted
     = Supabase.Resolved (Fin 0))
  ∨ (∃ r,
        r ∈ Supabase.transactions hosted
        ∧ Supabase.row_user_id r = "u1"
        ∧ (∀ r', r' ∈ Supabase.transactions hosted →
                 Supabase.row_user_id r' = "u1" →
                 Supabase.row_created_at r' ≤ Supabase.row_created_at r)
        ∧ Supabase.getCurrentBalance (signed_in "" 0) "u1" hosted
          = Supabase.Resolved (Fin (Supabase.row_balance_after r))).
Proof.
  apply (current_balance_is_latest_balance_after (signed_in "" 0) "u1" hosted).
  reflexivity.
Defined.

(** C3.  The balance identity does not hold of the mock: the array
    [customers] it loads gives johndoe a balance of 5000 over a history
    of one deposit of 2000 and one withdrawal of 500, and janedoe 7500
    over an empty history.  (The server seeds every account with a
    deposit equal to its balance, and keeps the identity from there:
    [reachable_invariant].) *)
Theorem mock_seed_breaks_balance_identity :
  Mock.reachable "john" "jane" "tx1" "tx2" loaded_at loaded
  ∧ john ∈ loaded
  ∧ Mock.c_balance john = Fin 5000
  ∧ Mock.total Mock.deposit (Mock.c_transactions john)
    - Mock.total Mock.withdrawal (Mock.c_transactions john) = 1500
  ∧ ¬ Mock.balance_identity loaded.
Proof.
  split; [constructor |]. split; [apply list_elem_of_here |].
  split; [reflexivity |]. split; [reflexivity |].
  intros Hid. specialize (Hid john (list_elem_of_here _ _)).
  unfold Mock.balance_above_ledger in Hid. vm_compute in Hid. discriminate.
Qed.

(** C4.  A failed call is not always reported, and does not always
    leave the state as it was.  When the account query or
    [BEGIN TRANSACTION] fails, the [catch] block runs [ROLLBACK] with no
    transaction open; that statement throws in turn and the client
    receives no answer (the state is unchanged).  The same happens
    without any injected error when two requests take turns on the
    connection: the second one's [BEGIN TRANSACTION] fails inside the
    first one's transaction, its [ROLLBACK] undoes the first one's
    [UPDATE], the first one's [INSERT] is then applied on its own, and
    the first one's [COMMIT] and [ROLLBACK] both throw.  The first
    request ends without an answer and with one more transaction row; the
    second is answered 500.  (A failure of [UPDATE], [INSERT] or [COMMIT]
    in a request that runs alone is rolled back and answered 500.) *)
Theorem failure_not_always_reported :
  Server.post_transaction (failing Server.OpBegin "t4" 4) customer
    (deposit_of (JNum (Fin 100))) ledger
  = (ledger, Server.NoReply)
  ∧ Server.post_transaction (failing Server.OpSelect "t4" 4) customer
      (deposit_of (JNum (Fin 100))) ledger
    = (ledger, Server.NoReply)
  ∧ Server.post_transaction (failing Server.OpInsert "t4" 4) customer
      (deposit_of (JNum (Fin 100))) ledger
    = (ledger, Server.Reply 500 (Server.ErrorJson "Server error"))
  ∧ (Server.run_schedule taking_turns ledger in_flight).2
    = [ Server.Finished Server.NoReply;
        Server.Finished (Server.Reply 500 (Server.ErrorJson "Server error")) ]
  ∧ Server.acc_balance
      <$> Server.account_of customer
            (Server.run_schedule taking_turns ledger in_flight).1
    = Some (JNum (Fin 6500))
  ∧ length (Server.history "a1" ledger) = 3%nat
  ∧ length (Server.history "a1"
              (Server.run_schedule taking_turns ledger in_flight).1)
    = 4%nat.
Proof. repeat split; vm_compute; reflexivity. Qed.

(** C5.  Concurrent calls on one account do not serialize.  Take two
    withdrawals of 4000 against a balance of 6500.  Run one after the
    other, in either order, the first succeeds and the second is turned
    away; the balance ends at 2500 with one new withdrawal.  On the
    server, when both requests read the balance before either writes,
    both succeed, each answering [newBalance = 2500], and the history
    holds both withdrawals; when the two requests take turns, neither
    is answered with a success, the balance stays at 6500 and the
    history still gains a withdrawal of 4000.  On Supabase, two clients
    taking turns both succeed, each inserting a row with
    [balance_after = 2500]. *)
Theorem concurrent_withdrawals_do_not_serialize :
  (∀ first second,
      (first, second) = ("t4", "t5") ∨ (first, second) = ("t5", "t4") →
      let one := Server.post_transaction (quiet first 4) customer
                   (withdrawal_of (JNum (Fin 4000))) ledger in
      let two := Server.post_transaction (quiet second 5) customer
                   (withdrawal_of (JNum (Fin 4000))) one.1 in
      one.2 = Server.Reply 200 (Server.SuccessJson first (JNum (Fin 2500)))
      ∧ two.2 = Server.Reply 400 (Server.ErrorJson "Insufficient funds")
      ∧ Server.acc_balance <$> Server.account_of customer two.1
        = Some (JNum (Fin 2500))
      ∧ Server.total "withdrawal" "a1" two.1 = 500 + 4000)
  ∧ ((Server.run_schedule both_read_first ledger in_flight).2
     = [ Server.Finished
           (Server.Reply 200 (Server.SuccessJson "t4" (JNum (Fin 2500))));
         Server.Finished
           (Server.Reply 200 (Server.SuccessJson "t5" (JNum (Fin 2500)))) ]
     ∧ Server.acc_balance
         <$> Server.account_of customer
               (Server.run_schedule both_read_first ledger in_flight).1
       = Some (JNum (Fin 2500))
     ∧ Server.total "withdrawal" "a1"
         (Server.run_schedule both_read_first ledger in_flight).1
       = 500 + 4000 + 4000)
  ∧ ((Server.run_schedule taking_turns ledger in_flight).2
     = [ Server.Finished Server.NoReply;
         Server.Finished
           (Server.Reply 500 (Server.ErrorJson "Server error")) ]
     ∧ Server.acc_balance
         <$> Server.account_of customer
               (Server.run_schedule taking_turns ledger in_flight).1
       = Some (JNum (Fin 6500))
     ∧ Server.total "withdrawal" "a1"
         (Server.run_schedule taking_turns ledger in_flight).1
       = 500 + 4000)
  ∧ (Supabase.run_schedule clients_taking_turns hosted calls_in_flight).2
    = [ Supabase.Settled
          (Supabase.Resolved
             (Supabase.mk_row "r4" "u1" Supabase.withdrawal 4000 None 2500 4,
              Fin 2500));
        Supabase.Settled
          (Supabase.Resolved
             (Supabase.mk_row "r5" "u1" Supabase.withdrawal 4000 None 2500 5,
              Fin 2500)) ].
Proof.
  split.
  { intros first second [[= -> ->] | [= -> ->]]; repeat split;
      vm_compute; reflexivity. }
  repeat split; vm_compute; reflexivity.
Qed.

(** C7.  Not every invalid amount is turned away.  The server route
    checks [!amount || amount <= 0], which a non-numeric string passes:
    a deposit of "abc" is accepted, the balance becomes the text
    "6500abc" and a transaction row is written.  The mock checks no
    amount at all: a deposit of -5 is accepted and lowers the balance.
    (The server does turn away -5, as it does every missing, null, zero,
    NaN or negative amount: [post_transaction_invalid_amount].) *)
Theorem invalid_amounts_accepted :
  Server.post_transaction (quiet "t4" 4) customer (deposit_of (JStr "abc"))
    ledger
  = (Server.mk_database
       (Server.mk_tables
          [account_with (JStr "6500abc")]
          (first_rows
           ++ [Server.mk_transaction "t4" "a1" (JStr "deposit") (JStr "abc")
                 JNull 4]))
       None,
     Server.Reply 200 (Server.SuccessJson "t4" (JStr "6500abc")))
  ∧ (Mock.makeTransaction "john" "m1" later
       (Mock.mk_params Mock.deposit (Fin (-5)) None) loaded).2
    = Mock.Resolved (Mock.mk_result true "m1" (Fin 4995))
  ∧ Mock.getAccountBalance "john"
      (Mock.makeTransaction "john" "m1" later
         (Mock.mk_params Mock.deposit (Fin (-5)) None) loaded).1
    = Fin 4995
  ∧ Server.post_transaction (quiet "t4" 4) customer
      (deposit_of (JNum (Fin (-5)))) ledger
    = (ledger, Server.Reply 400 (Server.ErrorJson "Invalid transaction data")).
Proof. repeat split; vm_compute; reflexivity. Qed.

(** C8, as stated, fails: for an identifier no account exists for, the
    Supabase client and the mock answer with the default 0 instead of
    failing. *)
Lemma balance_of_unknown_account_is_zero :
  Supabase.getCurrentBalance (signed_in "" 0) "nobody"
    (Supabase.mk_backend [] [])
  = Supabase.Resolved (Fin 0)
  ∧ Mock.find_customer "nobody" loaded = None
  ∧ Mock.getAccountBalance "nobody" loaded = Fin 0.
Proof. repeat split; reflexivity. Qed.

(** C8, amended.  The server route answers with the stored balance when
    the customer has an account and with 404 "Account not found" when
    there is none.  The mock and the Supabase client never fail for a
    missing account: the mock returns the balance of the customer it
    finds, and 0 when it finds none or the balance is falsy; the
    Supabase client returns 0 for a user without transactions. *)
Theorem balance_lookup :
  (∀ e user db,
      Server.user_role user = "customer" →
      Server.io_error e Server.OpSelect = false →
      Server.get_balance e user db
      = (db, match Server.account_of user db with
             | Some account =>
                 Server.Reply 200 (Server.BalanceJson (Server.acc_balance account))
             | None => Server.Reply 404 (Server.ErrorJson "Account not found")
             end))
  ∧ (∀ id store,
        Mock.getAccountBalance id store
        = match Mock.find_customer id store with
          | Some c =>
              if num_truthy (Mock.c_balance c) then Mock.c_balance c else Fin 0
          | None => Fin 0
          end)
  ∧ (∀ e user db,
        Supabase.rpc_fails e = false →
        Forall (λ r, Supabase.row_user_id r ≠ user) (Supabase.transactions db) →
        Supabase.getCurrentBalance e user db = Supabase.Resolved (Fin 0)).
Proof.
  split; [| split].
  - intros e user db Hrole Hio.
    destruct (Server.account_of user db) as [account |] eqn:Hacc.
    + by apply get_balance_found.
    + by apply get_balance_missing.
  - reflexivity.
  - intros e user db Hrpc Hnone. rewrite getCurrentBalance_value by done.
    destruct (get_current_balance_latest user (Supabase.transactions db))
      as [[_ ->] | (r & Hr & Hu & _)]; [done |].
    rewrite Forall_forall in Hnone. by destruct (Hnone _ Hr).
Qed.

Lemma balance_lookup_witness :
  Server.get_balance (quiet "" 0) customer ledger
  = (ledger, Server.Reply 200 (Server.BalanceJson (JNum (Fin 6500))))
  ∧ Server.get_balance (quiet "" 0)
      (Server.mk_user "u9" "nobody" "nobody@example.com" "customer") ledger
    = (ledger, Server.Reply 404 (Server.ErrorJson "Account not found"))
  ∧ Supabase.getCurrentBalance (signed_in "" 0) "u2" hosted
    = Supabase.Resolved (Fin 0).
Proof.
  destruct balance_lookup as (Hserver & _ & Hhosted).
  split; [| split].
  - apply (Hserver (quiet "" 0) customer ledger); reflexivity.
  - apply (Hserver (quiet "" 0)
             (Server.mk_user "u9" "nobody" "nobody@example.com" "customer")
             ledger); reflexivity.
  - apply (Hhosted (signed_in "" 0) "u2" hosted); [reflexivity |].
    unfold hosted, hosted_rows. simpl. repeat constructor; discriminate.
Defined.




End Claims.

(** * Further properties of the code *)

(** ** The server's transaction route *)

Section ServerRoute.
Import JS Server Scenario.

Ltac open_handler :=
  unfold post_transaction, post_transaction_try, bind, ret;
  rewrite ?js_strict_eq_str;
  unfold db_get_account, db_run_begin, db_run_update_balance,
    db_run_insert_transaction, db_run_commit, db_run_rollback in *.

(** An accepted request carried an identifier no stored row has. *)
Lemma post_transaction_accepted_fresh e user body db db' tid nb :
  post_transaction e user body db = (db', Reply 200 (SuccessJson tid nb)) →
  uuid e ∉ tx_id <$> transactions (live db).
Proof.
  open_handler. intros H. cbv beta in H.
  repeat (case_match; simplify_eq; cbv beta in * ).
  all: simpl in *.
  all: match goal with
       | H : transaction_admissible _ _ = true |- _ =>
           unfold transaction_admissible in H; simpl in H;
           apply andb_true_iff in H as [H _];
           apply andb_true_iff in H as [H _];
           by apply bool_decide_eq_true in H
       end.
Qed.

(** X1.  A request that runs alone on a connection with no transaction
    open is all or nothing: whatever the request and whichever
    statement fails, either it is answered with the success, or the
    database is exactly as it was; and no transaction stays open. *)
Theorem request_alone_is_all_or_nothing e user body db db' r :
  journal db = None →
  post_transaction e user body db = (db', r) →
  journal db' = None
  ∧ ((∃ tid nb, r = Reply 200 (SuccessJson tid nb)) ∨ db' = db).
Proof.
  intros Hj Hpost. split.
  - pose proof (post_transaction_journal e user body db Hj) as H.
    by rewrite Hpost in H.
  - by eapply post_transaction_atomic.
Qed.

Lemma request_alone_is_all_or_nothing_witness :
  journal ledger = None
  ∧ ((∃ tid nb,
         Reply 500 (ErrorJson "Server error") = Reply 200 (SuccessJson tid nb))
     ∨ ledger = ledger).
Proof.
  apply (request_alone_is_all_or_nothing (failing OpCommit "t4" 4) customer
           (deposit_of (JNum (Fin 100))) ledger ledger
           (Reply 500 (ErrorJson "Server error")));
    reflexivity.
Defined.

(** X3.  Starting from the seeded database and handling requests with
    finite numeric amounts one after the other, no balance ever falls
    below zero. *)
Theorem sequential_requests_keep_balances_non_negative db a :
  reachable db → a ∈ accounts (live db) → non_negative (acc_balance a).
Proof. apply reachable_non_negative. Qed.

Lemma sequential_requests_keep_balances_non_negative_witness :
  non_negative (JNum (Fin 3800)).
Proof.
  apply (sequential_requests_keep_balances_non_negative
           (post_transaction (quiet "t1" 1) customer
              (withdrawal_of (JNum (Fin 1200))) seeded).1
           (mk_account "a1" "u1" (JNum (Fin 3800)) 0)).
  - apply reachable_post.
    + apply reachable_seed. by apply (bool_decide_unpack _).
    + by exists 1200.
  - vm_compute. apply list_elem_of_here.
Defined.

(** X4.  The transaction table only grows at its end: a request that
    runs alone leaves the rows it found as they were and in place, adds
    at most one row after them, and keeps the row identifiers distinct. *)
Theorem transactions_are_append_only e user body db :
  journal db = None →
  ∃ added,
    transactions (live (post_transaction e user body db).1)
    = transactions (live db) ++ added
    ∧ (length added ≤ 1)%nat
    ∧ (NoDup (tx_id <$> transactions (live db)) →
       NoDup (tx_id <$> transactions (live (post_transaction e user body db).1))).
Proof.
  intros Hj.
  destruct (post_transaction e user body db) as [db' r] eqn:Hpost. simpl.
  destruct (post_transaction_atomic _ _ _ _ _ _ Hj Hpost)
    as [(tid & nb & ->) | ->].
  - pose proof (post_transaction_accepted_fresh _ _ _ _ _ _ _ Hpost) as Hfresh.
    apply post_transaction_accepted in Hpost
      as (account & _ & _ & _ & _ & _ & _ & _ & _ & _ & ->).
    exists [posted_row e account body]. simpl.
    split; [done |]. split; [lia |].
    intros Hnd. rewrite fmap_app. apply NoDup_app.
    split; [done |]. split; [| apply NoDup_singleton].
    intros x Hx Hx'. simpl in Hx'. apply list_elem_of_singleton in Hx' as ->.
    done.
  - exists []. rewrite app_nil_r. split; [done |]. split; [simpl; lia | done].
Qed.

Lemma transactions_are_append_only_witness :
  ∃ added,
    transactions
      (live (post_transaction (quiet "t4" 4) customer
               (deposit_of (JNum (Fin 100))) ledger).1)
    = transactions (live ledger) ++ added
    ∧ (length added ≤ 1)%nat
    ∧ (NoDup (tx_id <$> transactions (live ledger)) →
       NoDup (tx_id <$> transactions
                (live (post_transaction (quiet "t4" 4) customer
                         (deposit_of (JNum (Fin 100))) ledger).1))).
Proof.
  apply (transactions_are_append_only (quiet "t4" 4) customer
           (deposit_of (JNum (Fin 100))) ledger).
  reflexivity.
Defined.

(** X5.  A request that runs alone on a connection with no transaction
    open touches one account only: whatever its outcome, the request of
    a user leaves every account row with another identifier, and the
    history recorded under every other account identifier, as they
    were. *)
Theorem other_accounts_are_untouched e user body db account id :
  journal db = None →
  account_of user db = Some account →
  id ≠ acc_id account →
  filter (λ a, acc_id a = id) (accounts (live (post_transaction e user body db).1))
  = filter (λ a, acc_id a = id) (accounts (live db))
  ∧ history id (post_transaction e user body db).1 = history id db.
Proof.
  intros Hj Hacc Hid.
  destruct (post_transaction e user body db) as [db' r] eqn:Hpost. simpl.
  destruct (post_transaction_atomic _ _ _ _ _ _ Hj Hpost)
    as [(tid & nb & ->) | ->]; [| done].
  apply post_transaction_accepted in Hpost
    as (account' & _ & _ & _ & _ & Hacc' & _ & _ & _ & _ & ->).
  rewrite Hacc in Hacc'. injection Hacc' as <-.
  unfold committed, history. simpl. split.
  - induction (accounts (live db)) as [| a l IH]; [done |].
    rewrite fmap_cons. unfold set_balance at 1.
    destruct (decide (acc_id a = acc_id account)) as [Hsame | Hother].
    + rewrite !filter_cons_False by (simpl; congruence). exact IH.
    + by rewrite !filter_cons, IH.
  - rewrite filter_app, filter_cons, filter_nil. simpl.
    rewrite decide_False by congruence. by rewrite app_nil_r.
Qed.

Lemma other_accounts_are_untouched_witness :
  filter (λ a, acc_id a = "a2")
    (accounts (live (post_transaction (quiet "t1" 1) customer
                       (withdrawal_of (JNum (Fin 1200))) seeded).1))
  = filter (λ a, acc_id a = "a2") (accounts (live seeded))
  ∧ history "a2"
      (post_transaction (quiet "t1" 1) customer
         (withdrawal_of (JNum (Fin 1200))) seeded).1
    = history "a2" seeded.
Proof.
  apply (other_accounts_are_untouched (quiet "t1" 1) customer
           (withdrawal_of (JNum (Fin 1200))) seeded
           (mk_account "a1" "u1" (JNum (Fin 5000)) 0) "a2");
    [reflexivity | reflexivity | discriminate].
Defined.

(** X6.  A customer's request with an amount the validation turns away
    (missing, null, NaN, zero or negative), or with a type that is
    neither "deposit" nor "withdrawal", is answered 400 and the database
    is exactly as it was. *)
Theorem malformed_request_changes_nothing e user body db :
  user_role user = "customer" →
  invalid_amount (body_amount body)
  ∨ (body_type body ≠ JStr "deposit" ∧ body_type body ≠ JStr "withdrawal") →
  ∃ message,
    post_transaction e user body db = (db, Reply 400 (ErrorJson message)).
Proof.
  intros Hrole [Hamount | [Hd Hw]].
  - exists "Invalid transaction data".
    by apply post_transaction_invalid_amount.
  - open_handler. rewrite Hrole. simpl.
    rewrite (bool_decide_eq_false_2 _ Hd), (bool_decide_eq_false_2 _ Hw).
    simpl.
    destruct (negb (ToBoolean (body_type body)) || _ || _); eauto.
Qed.

Lemma malformed_request_changes_nothing_witness :
  ∃ message,
    post_transaction (quiet "t4" 4) customer
      (mk_body (JStr "transfer") (JNum (Fin 100)) JUndefined) ledger
    = (ledger, Reply 400 (ErrorJson message)).
Proof.
  apply malformed_request_changes_nothing; [reflexivity |].
  right. split; discriminate.
Defined.

End ServerRoute.

(** ** Sign-in and the banker's routes *)

Section BankFacts.
Import JS Server Bank Scenario Branch.

Lemma NoDup_fmap_elem {A B} (f : A → B) (l : list A) x y :
  NoDup (f <$> l) → x ∈ l → y ∈ l → f x = f y → x = y.
Proof.
  intros Hnd Hx Hy Hf.
  apply list_elem_of_lookup in Hx as [i Hi].
  apply list_elem_of_lookup in Hy as [j Hj].
  assert (i = j) as ->; [| congruence].
  eapply NoDup_lookup; [exact Hnd | |].
  - rewrite list_lookup_fmap, Hi. reflexivity.
  - rewrite list_lookup_fmap, Hj. simpl. by rewrite Hf.
Qed.

(** With one account per user, the account a user's requests operate on
    is the user's only account. *)
Lemma account_of_unique user db a :
  NoDup (acc_user_id <$> accounts (live db)) →
  a ∈ accounts (live db) →
  acc_user_id a = user_id user →
  account_of user db = Some a.
Proof.
  intros Hnd Ha Hu. unfold account_of.
  destruct (list_find _ _) as [[i a'] |] eqn:Hfind; simpl.
  - apply list_find_Some in Hfind as (Hi & Hu' & _).
    f_equal. eapply (NoDup_fmap_elem acc_user_id); eauto.
    + eapply list_elem_of_lookup_2; eauto.
    + congruence.
  - apply list_find_None in Hfind.
    rewrite Forall_forall in Hfind. by destruct (Hfind _ Ha).
Qed.

Lemma elem_of_joined keep users db v :
  v ∈ joined keep users db
  ↔ ∃ u a, u ∈ users ∧ keep u = true ∧ a ∈ accounts (live db)
           ∧ acc_user_id a = reg_id u
           ∧ v = mk_customer_view (reg_id u) (reg_username u) (reg_email u)
                   (acc_balance a) (reg_created_at u).
Proof.
  unfold joined. rewrite list_elem_of_bind. split.
  - intros (u & Hv & Hu). apply list_elem_of_filter in Hu as [Hk Hu].
    apply list_elem_of_bind in Hv as (a & Hv & Ha).
    apply list_elem_of_filter in Ha as [Hua Ha].
    apply list_elem_of_singleton in Hv. eauto 10.
  - intros (u & a & Hu & Hk & Ha & Hua & ->).
    exists u. split; [| by apply list_elem_of_filter].
    apply list_elem_of_bind. exists a.
    split; [by apply list_elem_of_singleton | by apply list_elem_of_filter].
Qed.

(** X7.  No user can use both families of routes: for every user,
    either the three customer routes all answer 403 and leave the
    database as it is, or the four banker routes all answer 403. *)
Theorem routes_are_separated_by_role user :
  (∀ e body db,
      get_balance e user db = (db, Reply 403 (ErrorJson "Access denied"))
      ∧ get_transactions e user db
        = (db, Reply 403 (ErrorJson "Access denied"))
      ∧ post_transaction e user body db
        = (db, Reply 403 (ErrorJson "Access denied")))
  ∨ (∀ e id users db,
        banker_customers e user users db
        = Answer 403 (Failure "Access denied")
        ∧ banker_customer e user id users db
          = Answer 403 (Failure "Access denied")
        ∧ banker_customer_transactions e user id db
          = (db, Reply 403 (ErrorJson "Access denied"))
        ∧ banker_stats e user users db
          = Answer 403 (Failure "Access denied")).
Proof.
  destruct (decide (user_role user = "customer")) as [Hrole | Hrole].
  - right. intros e id users db.
    unfold banker_customers, banker_customer, banker_customer_transactions,
      banker_stats.
    rewrite Hrole. done.
  - left. intros e body db.
    unfold get_balance, get_transactions, post_transaction,
      post_transaction_try, ret.
    by rewrite (bool_decide_eq_false_2 _ Hrole).
Qed.

Lemma routes_are_separated_by_role_witness :
  (∀ e body db,
      get_balance e staff db = (db, Reply 403 (ErrorJson "Access denied"))
      ∧ get_transactions e staff db
        = (db, Reply 403 (ErrorJson "Access denied"))
      ∧ post_transaction e staff body db
        = (db, Reply 403 (ErrorJson "Access denied")))
  ∨ (∀ e id users db,
        banker_customers e staff users db
        = Answer 403 (Failure "Access denied")
        ∧ banker_customer e staff id users db
          = Answer 403 (Failure "Access denied")
        ∧ banker_customer_transactions e staff id db
          = (db, Reply 403 (ErrorJson "Access denied"))
        ∧ banker_stats e staff users db
          = Answer 403 (Failure "Access denied")).
Proof. exact (routes_are_separated_by_role staff). Defined.

(** X8.  The banker's route to a customer's transactions gives what the
    customer's own route gives, in every state and also when a statement
    fails: the same rows in the same order, or the same error. *)
Theorem banker_reads_the_customers_own_listing e banker customer db :
  user_role banker = "banker" →
  user_role customer = "customer" →
  banker_customer_transactions e banker (user_id customer) db
  = get_transactions e customer db.
Proof.
  intros Hb Hc. unfold banker_customer_transactions, get_transactions.
  by rewrite Hb, Hc.
Qed.

Lemma banker_reads_the_customers_own_listing_witness :
  banker_customer_transactions (quiet "t4" 4) staff "u1" ledger
  = get_transactions (quiet "t4" 4) Scenario.customer ledger.
Proof.
  apply (banker_reads_the_customers_own_listing (quiet "t4" 4) staff
           Scenario.customer ledger); reflexivity.
Defined.

(** X9.  With one account per user, the banker's list of customers
    agrees with the customers' own balance route: every listed row is a
    registered customer, shown with the balance that customer's own
    request returns, and every customer with an account is listed. *)
Theorem customers_list_agrees_with_balance_route e banker users db :
  user_role banker = "banker" →
  io_error e OpSelect = false →
  NoDup (acc_user_id <$> accounts (live db)) →
  ∃ rows,
    banker_customers e banker users db = Answer 200 (CustomersJson rows)
    ∧ (∀ v, v ∈ rows →
         ∃ u, u ∈ users ∧ reg_role u = "customer"
              ∧ cv_id v = reg_id u ∧ cv_username v = reg_username u
              ∧ cv_email v = reg_email u
              ∧ get_balance e (req_user u) db
                = (db, Reply 200 (BalanceJson (cv_balance v))))
    ∧ (∀ u account,
         u ∈ users → reg_role u = "customer" →
         account_of (req_user u) db = Some account →
         ∃ v, v ∈ rows ∧ cv_id v = reg_id u
              ∧ cv_balance v = acc_balance account).
Proof.
  intros Hb Hio Hnd. eexists. split; [| split].
  - unfold banker_customers. by rewrite Hb, Hio.
  - intros v Hv.
    apply elem_of_joined in Hv as (u & a & Hu & Hk & Ha & Hua & ->).
    apply bool_decide_eq_true in Hk.
    exists u. repeat split; try done. simpl.
    apply get_balance_found; [done | done |].
    by apply account_of_unique.
  - intros u account Hu Hrole Hacc.
    apply account_of_elem in Hacc as [Ha Hua].
    exists (mk_customer_view (reg_id u) (reg_username u) (reg_email u)
              (acc_balance account) (reg_created_at u)).
    split; [| done].
    apply elem_of_joined. exists u, account.
    repeat split; try done. by apply bool_decide_eq_true.
Qed.

Lemma customers_list_agrees_with_balance_route_witness :
  ∃ rows,
    banker_customers (quiet "t1" 1) staff registry seeded
    = Answer 200 (CustomersJson rows)
    ∧ (∀ v, v ∈ rows →
         ∃ u, u ∈ registry ∧ reg_role u = "customer"
              ∧ cv_id v = reg_id u ∧ cv_username v = reg_username u
              ∧ cv_email v = reg_email u
              ∧ get_balance (quiet "t1" 1) (req_user u) seeded
                = (seeded, Reply 200 (BalanceJson (cv_balance v))))
    ∧ (∀ u account,
         u ∈ registry → reg_role u = "customer" →
         account_of (req_user u) seeded = Some account →
         ∃ v, v ∈ rows ∧ cv_id v = reg_id u
              ∧ cv_balance v = acc_balance account).
Proof.
  apply (customers_list_agrees_with_balance_route (quiet "t1" 1) staff
           registry seeded); [reflexivity | reflexivity |].
  by apply (bool_decide_unpack _).
Defined.

(** X10.  The banker's route to one customer returns a row of the
    banker's list of customers, the one with the identifier asked for;
    it answers 404 exactly when the list has no such row. *)
Theorem customer_detail_is_a_row_of_the_list e banker id users db :
  user_role banker = "banker" →
  io_error e OpSelect = false →
  ∃ rows,
    banker_customers e banker users db = Answer 200 (CustomersJson rows)
    ∧ ((∃ v, banker_customer e banker id users db
             = Answer 200 (CustomerJson v)
             ∧ v ∈ rows ∧ cv_id v = id)
       ∨ (banker_customer e banker id users db
          = Answer 404 (Failure "Customer not found")
          ∧ ∀ v, v ∈ rows → cv_id v ≠ id)).
Proof.
  intros Hb Hio. eexists. split.
  { unfold banker_customers. by rewrite Hb, Hio. }
  unfold banker_customer. rewrite Hb, Hio. simpl.
  destruct (joined (λ u, bool_decide (reg_id u = id) && _) users db)
    as [| v rest] eqn:Hrows.
  - right. split; [done |]. intros v Hv Hid.
    apply elem_of_joined in Hv as (u & a & Hu & Hk & Ha & Hua & ->).
    simpl in Hid.
    assert (mk_customer_view (reg_id u) (reg_username u) (reg_email u)
              (acc_balance a) (reg_created_at u)
            ∈ joined (λ u, bool_decide (reg_id u = id)
                           && bool_decide (reg_role u = "customer")) users db)
      as Hin.
    { apply elem_of_joined. exists u, a. repeat split; try done.
      apply andb_true_iff. split; [by apply bool_decide_eq_true | done]. }
    rewrite Hrows in Hin. by apply elem_of_nil in Hin.
  - left. exists v. split; [done |].
    assert (v ∈ joined (λ u, bool_decide (reg_id u = id)
                             && bool_decide (reg_role u = "customer")) users db)
      as Hin by (rewrite Hrows; apply list_elem_of_here).
    apply elem_of_joined in Hin as (u & a & Hu & Hk & Ha & Hua & ->).
    apply andb_true_iff in Hk as [Hid Hrole].
    apply bool_decide_eq_true in Hid.
    split; [| done].
    apply elem_of_joined. exists u, a. done.
Qed.

Lemma customer_detail_is_a_row_of_the_list_witness :
  ∃ rows,
    banker_customers (quiet "t1" 1) staff registry seeded
    = Answer 200 (CustomersJson rows)
    ∧ ((∃ v, banker_customer (quiet "t1" 1) staff "u2" registry seeded
             = Answer 200 (CustomerJson v)
             ∧ v ∈ rows ∧ cv_id v = "u2")
       ∨ (banker_customer (quiet "t1" 1) staff "u2" registry seeded
          = Answer 404 (Failure "Customer not found")
          ∧ ∀ v, v ∈ rows → cv_id v ≠ "u2")).
Proof.
  apply (customer_detail_is_a_row_of_the_list (quiet "t1" 1) staff "u2"
           registry seeded); reflexivity.
Defined.

Lemma foldl_num_add_finite (acc : Z) (zs : list Z) :
  foldl num_add (Fin acc) (Fin <$> zs) = Fin (acc + foldr Z.add 0 zs).
Proof.
  revert acc. induction zs as [| z zs IH]; intros acc; simpl.
  - f_equal. lia.
  - rewrite IH. f_equal. lia.
Qed.

(** The sum of a column of finite numbers, as the stats route reads it. *)
Lemma sql_sum_finite (zs : list Z) :
  js_or (sql_sum ((λ z, JNum (Fin z)) <$> zs)) (JNum (Fin 0))
  = JNum (Fin (foldr Z.add 0 zs)).
Proof.
  unfold sql_sum.
  assert (omap cell_value ((λ z, JNum (Fin z)) <$> zs) = Fin <$> zs) as ->.
  { induction zs as [| z zs IH]; [done |]. simpl. f_equal. exact IH. }
  destruct zs as [| z zs]; [done |].
  rewrite fmap_cons. cbv iota beta.
  change (foldl num_add (Fin 0) (Fin z :: (Fin <$> zs)))
    with (foldl num_add (Fin 0) (Fin <$> z :: zs)).
  rewrite foldl_num_add_finite.
  unfold js_or. simpl.
  destruct (0 + (z + foldr Z.add 0 zs)) eqn:Hsum; do 2 f_equal; lia.
Qed.

Lemma finite_cells {A} (cell : A → jsval) (value : A → Z) (l : list A) :
  Forall (λ x, cell x = JNum (Fin (value x))) l →
  cell <$> l = (λ z, JNum (Fin z)) <$> (value <$> l).
Proof.
  induction 1 as [| x l Hx _ IH]; [done |].
  rewrite !fmap_cons. by rewrite Hx, IH.
Qed.

Lemma set_balance_id nb id a : acc_id (set_balance nb id a) = acc_id a.
Proof. unfold set_balance. by case_decide. Qed.

Lemma set_balance_elsewhere nb id (l : list account_row) :
  id ∉ acc_id <$> l → set_balance nb id <$> l = l.
Proof.
  induction l as [| a l IH]; [done |]. rewrite !fmap_cons. intros Hid.
  apply not_elem_of_cons in Hid as [Hne Hid].
  rewrite IH by done. unfold set_balance. by rewrite decide_False.
Qed.

Lemma holdings_set_balance (l : list account_row) account v :
  NoDup (acc_id <$> l) →
  account ∈ l →
  foldr Z.add 0
    (balance_value <$> (set_balance (JNum (Fin v)) (acc_id account) <$> l))
  = foldr Z.add 0 (balance_value <$> l) - balance_value account + v.
Proof.
  induction l as [| a l IH]; intros Hnd Hin.
  - by apply elem_of_nil in Hin.
  - rewrite fmap_cons in Hnd. apply NoDup_cons in Hnd as [Hfresh Hnd].
    rewrite !fmap_cons. cbn [foldr].
    destruct (decide (acc_id a = acc_id account)) as [Hsame | Hother].
    + assert (account = a) as ->.
      { apply elem_of_cons in Hin as [-> | Hin]; [done |].
        exfalso. apply Hfresh. rewrite Hsame.
        by apply list_elem_of_fmap_2. }
      rewrite set_balance_elsewhere by done.
      unfold set_balance. rewrite decide_True by done.
      unfold balance_value at 1. simpl. lia.
    + apply elem_of_cons in Hin as [-> | Hin]; [done |].
      rewrite IH by done.
      unfold set_balance at 1. rewrite decide_False by done. lia.
Qed.

Lemma books_balance_committed e account body db z :
  books_balance db →
  account ∈ accounts (live db) →
  body_amount body = JNum (Fin z) →
  body_type body = JStr "deposit" ∨ body_type body = JStr "withdrawal" →
  books_balance (committed e account body db).
Proof.
  intros (Hnd & Hbal & Hfin & Hsum) Hin Hz Htype.
  assert (∃ b, acc_balance account = JNum (Fin b)) as [b Hb].
  { rewrite Forall_forall in Hbal. by apply Hbal. }
  assert (∃ v, new_balance account body = JNum (Fin v)
               ∧ v = b + (if decide (body_type body = JStr "deposit")
                          then z else - z)) as (v & Hv & Hvb).
  { unfold new_balance. rewrite js_strict_eq_str, Hz, Hb.
    destruct Htype as [-> | ->]; simpl; eexists; split; try reflexivity;
      simpl; lia. }
  unfold books_balance, committed, holdings, volume, finite_amounts in *.
  simpl. rewrite Hv. split; [| split; [| split]].
  - rewrite <- list_fmap_compose.
    erewrite list_fmap_ext; [exact Hnd |].
    intros ? a ?. simpl. apply set_balance_id.
  - apply Forall_fmap. eapply Forall_impl; [exact Hbal |].
    intros a [za Hza]. simpl. unfold set_balance.
    destruct (decide (acc_id a = acc_id account)); simpl; eauto.
  - apply Forall_app. split; [done |].
    apply Forall_singleton. exists z. simpl. by rewrite Hz.
  - rewrite holdings_set_balance by done.
    rewrite !filter_app, !fmap_app, !foldr_add_app.
    rewrite !filter_cons, !filter_nil. unfold posted_row. simpl.
    set (B := foldr Z.add 0 (balance_value <$> _)) in *.
    set (D := foldr Z.add 0
                (amount_value
                   <$> filter (λ t, tx_type t = JStr "deposit") _)) in *.
    set (W := foldr Z.add 0
                (amount_value
                   <$> filter (λ t, tx_type t = JStr "withdrawal") _)) in *.
    unfold balance_value, amount_value. rewrite Hb, Hz.
    destruct Htype as [Ht | Ht]; rewrite Ht in *; simpl in *.
    all: repeat case_decide; simplify_eq; simpl; lia.
Qed.

Lemma books_balance_reachable db : reachable db → books_balance db.
Proof.
  induction 1 as [johndoe janedoe alice now Hnd
                 | e user body db Hreach IH [z Hz]].
  - unfold books_balance, finite_amounts, seedInitialData. simpl.
    split; [done |].
    split; [repeat constructor; by eexists |].
    split; [repeat constructor; by eexists |]. reflexivity.
  - destruct (post_transaction e user body db) as [db' r] eqn:Hpost. simpl.
    pose proof (reachable_invariant _ Hreach) as (Hj & _).
    destruct (post_transaction_atomic _ _ _ _ _ _ Hj Hpost)
      as [(tid & nb & ->) | ->]; [| done].
    apply post_transaction_accepted in Hpost
      as (account & _ & Htype & _ & _ & Hacc & _ & _ & _ & _ & ->).
    apply account_of_elem in Hacc as [Hin _].
    by eapply books_balance_committed.
Qed.

Lemma reachable_exactly_reachable db : reachable_exactly db → reachable db.
Proof.
  induction 1 as [| e user body db z Hreach IH Hz _ _];
    [by apply reachable_seed |].
  apply reachable_post; [done | by exists z].
Qed.

Lemma reachable_exactly_deposits db :
  reachable_exactly db → volume "deposit" db ≤ Exact.MAX_SAFE_INTEGER.
Proof. induction 1; [by vm_compute | done]. Qed.

(** Every recorded amount is a number above zero. *)
Lemma reachable_amounts_positive db :
  reachable db →
  Forall (λ t, ∃ z, tx_amount t = JNum (Fin z) ∧ 0 < z)
    (transactions (live db)).
Proof.
  induction 1 as [johndoe janedoe alice now Hnd
                 | e user body db Hreach IH [z Hz]].
  - unfold seedInitialData. simpl.
    repeat constructor; exists 5000; by split.
  - destruct (post_transaction e user body db) as [db' r] eqn:Hpost. simpl.
    pose proof (reachable_invariant _ Hreach) as (Hj & _).
    destruct (post_transaction_atomic _ _ _ _ _ _ Hj Hpost)
      as [(tid & nb & ->) | ->]; [| done].
    apply post_transaction_accepted in Hpost
      as (account & _ & _ & _ & Hpos & _ & _ & _ & _ & _ & ->).
    unfold committed. simpl. apply Forall_app. split; [done |].
    apply Forall_singleton. exists z. simpl. rewrite Hz. split; [done |].
    rewrite Hz in Hpos.
    unfold js_le, js_less, ToNumber, num_less in Hpos.
    destruct (bool_decide (0 < z)) eqn:Hzpos; [| done].
    by apply bool_decide_eq_true in Hzpos.
Qed.

Lemma amount_value_positive (rows : list transaction_row) :
  Forall (λ t, ∃ z, tx_amount t = JNum (Fin z) ∧ 0 < z) rows →
  Forall (λ t, 0 ≤ amount_value t) rows.
Proof.
  intros Hrows. eapply Forall_impl; [exact Hrows |].
  intros t (z & Hz & Hpos). unfold amount_value. rewrite Hz. lia.
Qed.

Lemma sum_nonneg {A} (f : A → Z) (l : list A) :
  Forall (λ x, 0 ≤ f x) l → 0 ≤ foldr Z.add 0 (f <$> l).
Proof.
  induction 1 as [| x l Hx _ IH]; [done |].
  rewrite fmap_cons. cbn [foldr]. lia.
Qed.

Lemma sum_filter_nonneg {A} (f : A → Z) (P : A → Prop)
    `{∀ x, Decision (P x)} (l : list A) :
  Forall (λ x, 0 ≤ f x) l → 0 ≤ foldr Z.add 0 (f <$> filter P l).
Proof.
  induction 1 as [| x l Hx _ IH]; [done |].
  rewrite filter_cons. destruct (decide (P x)); [| done].
  rewrite fmap_cons. cbn [foldr]. lia.
Qed.

Lemma sum_filter_filter_le {A} (f : A → Z) (P Q : A → Prop)
    `{∀ x, Decision (P x)} `{∀ x, Decision (Q x)} (l : list A) :
  Forall (λ x, 0 ≤ f x) l →
  foldr Z.add 0 (f <$> filter P (filter Q l))
  ≤ foldr Z.add 0 (f <$> filter P l).
Proof.
  induction 1 as [| x l Hx _ IH]; [done |].
  rewrite (filter_cons Q), (filter_cons P).
  destruct (decide (Q x)), (decide (P x)).
  - rewrite filter_cons_True by done. rewrite !fmap_cons. cbn [foldr]. lia.
  - by rewrite filter_cons_False by done.
  - rewrite fmap_cons. cbn [foldr]. lia.
  - done.
Qed.

Lemma non_negative_finite b : non_negative (JNum (Fin b)) → 0 ≤ b.
Proof.
  intros (n & [= <-] & Hn). simpl in Hn.
  destruct (bool_decide (b < 0)) eqn:Hb; [done |].
  apply bool_decide_eq_false in Hb. lia.
Qed.

(** On the runs that stay within the exact range, every balance does. *)
Lemma reachable_exactly_balances db :
  reachable_exactly db →
  Forall (λ a, ∃ b, acc_balance a = JNum (Fin b)
                    ∧ 0 ≤ b ≤ Exact.MAX_SAFE_INTEGER)
    (accounts (live db)).
Proof.
  intros Hexact.
  pose proof (reachable_exactly_deposits _ Hexact) as Hbound.
  apply reachable_exactly_reachable in Hexact as Hreach.
  pose proof (reachable_invariant _ Hreach) as (_ & _ & Hid).
  pose proof (amount_value_positive _ (reachable_amounts_positive _ Hreach))
    as Hpos.
  apply Forall_forall. intros a Ha.
  pose proof (reachable_non_negative _ _ Hreach Ha) as Hnn.
  rewrite (Hid _ Ha) in Hnn. apply non_negative_finite in Hnn.
  eexists. split; [by apply Hid |]. split; [done |].
  assert (0 ≤ total "withdrawal" (acc_id a) db) as Hw.
  { unfold total, history. rewrite list_filter_filter.
    apply sum_filter_nonneg, Hpos. }
  assert (total "deposit" (acc_id a) db ≤ volume "deposit" db) as Hd.
  { unfold total, history, volume.
    by apply sum_filter_filter_le. }
  lia.
Qed.

(** X2.  Starting from the seeded database and handling requests one
    after the other, each with a whole-number amount, while all the
    deposits recorded add up to no more than [Number.MAX_SAFE_INTEGER]
    (so that the doubles of the server and of SQLite add exactly), the
    server keeps every stored balance equal to the account's deposits
    minus its withdrawals, whatever statements fail on the way; and
    every balance stays a whole number between zero and
    [MAX_SAFE_INTEGER]. *)
Theorem sequential_requests_keep_balance_identity db :
  reachable_exactly db →
  balance_identity db
  ∧ Forall (λ a, ∃ b, acc_balance a = JNum (Fin b)
                      ∧ 0 ≤ b ≤ Exact.MAX_SAFE_INTEGER)
      (accounts (live db)).
Proof.
  intros Hexact. split; [| by apply reachable_exactly_balances].
  by apply reachable_invariant, reachable_exactly_reachable.
Qed.

Lemma sequential_requests_keep_balance_identity_witness :
  balance_identity
    (post_transaction (quiet "t1" 1) Scenario.customer
       (withdrawal_of (JNum (Fin 1200))) seeded).1
  ∧ Forall (λ a, ∃ b, acc_balance a = JNum (Fin b)
                      ∧ 0 ≤ b ≤ Exact.MAX_SAFE_INTEGER)
      (accounts
         (live (post_transaction (quiet "t1" 1) Scenario.customer
                  (withdrawal_of (JNum (Fin 1200))) seeded).1)).
Proof.
  apply sequential_requests_keep_balance_identity.
  apply (exactly_post _ _ _ _ 1200); [| reflexivity | | ].
  - apply exactly_seed. by apply (bool_decide_unpack _).
  - unfold Exact.safe, Exact.MAX_SAFE_INTEGER. lia.
  - by vm_compute.
Defined.

(** X11.  After any sequence of requests on the seeded database, each
    with a whole-number amount, with all the deposits recorded adding
    up to no more than [Number.MAX_SAFE_INTEGER] (so that SQLite's
    sums are exact), the banker's dashboard adds up: the stats route
    answers with whole-number totals, the total balance it shows is
    the total of deposits minus the total of withdrawals, and the
    totals lie between zero and [MAX_SAFE_INTEGER]. *)
Theorem stats_add_up e banker users db :
  reachable_exactly db →
  user_role banker = "banker" →
  io_error e OpSelect = false →
  ∃ customers deposits withdrawals,
    banker_stats e banker users db
    = Answer 200
        (StatsJson customers (JNum (Fin (deposits - withdrawals)))
           (JNum (Fin deposits)) (JNum (Fin withdrawals)))
    ∧ deposits = volume "deposit" db
    ∧ withdrawals = volume "withdrawal" db
    ∧ 0 ≤ withdrawals ≤ deposits
    ∧ deposits ≤ Exact.MAX_SAFE_INTEGER.
Proof.
  intros Hexact Hb Hio.
  pose proof (reachable_exactly_deposits _ Hexact) as Hbound.
  pose proof (reachable_exactly_balances _ Hexact) as Hbalances.
  apply reachable_exactly_reachable in Hexact as Hreach.
  pose proof (amount_value_positive _ (reachable_amounts_positive _ Hreach))
    as Hpos.
  apply books_balance_reachable in Hreach as (_ & Hbal & Hfin & Hsum).
  do 3 eexists. split; [| split; [reflexivity | split; [reflexivity |]]].
  - unfold banker_stats. rewrite Hb, Hio. simpl.
    rewrite (finite_cells acc_balance balance_value), sql_sum_finite.
    2:{ eapply Forall_impl; [exact Hbal |]. intros a [z Hz].
        unfold balance_value. by rewrite Hz. }
    assert (∀ type,
               js_or (sql_sum (tx_amount
                                 <$> filter (λ t, tx_type t = JStr type)
                                       (transactions (live db))))
                     (JNum (Fin 0))
               = JNum (Fin (volume type db))) as Hvol.
    { intros type.
      rewrite (finite_cells tx_amount amount_value), sql_sum_finite; [done |].
      apply Forall_forall. intros t Ht.
      apply list_elem_of_filter in Ht as [_ Ht].
      unfold finite_amounts in Hfin. rewrite Forall_forall in Hfin.
      destruct (Hfin _ Ht) as [z Hz]. unfold amount_value. by rewrite Hz. }
    rewrite !Hvol. fold (holdings db). by rewrite Hsum.
  - assert (0 ≤ holdings db) as Hheld.
    { unfold holdings. apply sum_nonneg.
      eapply Forall_impl; [exact Hbalances |].
      intros a (b & Hab & Hb0 & _). unfold balance_value. by rewrite Hab. }
    assert (0 ≤ volume "withdrawal" db) as Hw
      by (unfold volume; by apply sum_filter_nonneg).
    lia.
Qed.

Lemma stats_add_up_witness :
  ∃ customers deposits withdrawals,
    banker_stats (quiet "t2" 2) staff registry
      (post_transaction (quiet "t1" 1) Scenario.customer
         (withdrawal_of (JNum (Fin 1200))) seeded).1
    = Answer 200
        (StatsJson customers (JNum (Fin (deposits - withdrawals)))
           (JNum (Fin deposits)) (JNum (Fin withdrawals)))
    ∧ deposits
      = volume "deposit"
          (post_transaction (quiet "t1" 1) Scenario.customer
             (withdrawal_of (JNum (Fin 1200))) seeded).1
    ∧ withdrawals
      = volume "withdrawal"
          (post_transaction (quiet "t1" 1) Scenario.customer
             (withdrawal_of (JNum (Fin 1200))) seeded).1
    ∧ 0 ≤ withdrawals ≤ deposits
    ∧ deposits ≤ Exact.MAX_SAFE_INTEGER.
Proof.
  apply (stats_add_up (quiet "t2" 2) staff registry
           (post_transaction (quiet "t1" 1) Scenario.customer
              (withdrawal_of (JNum (Fin 1200))) seeded).1);
    [| reflexivity | reflexivity].
  apply (exactly_post _ _ _ _ 1200); [| reflexivity | | ].
  - apply exactly_seed. by apply (bool_decide_unpack _).
  - unfold Exact.safe, Exact.MAX_SAFE_INTEGER. lia.
  - by vm_compute.
Defined.

Lemma substring_all (s : string) : String.substring 0 (String.length s) s = s.
Proof. induction s as [| ch s IH]; [done |]. simpl. by rewrite IH. Qed.

Lemma remove_first_unfold pattern s :
  remove_first pattern s
  = if String.prefix pattern s
    then String.substring (String.length pattern)
           (String.length s - String.length pattern) s
    else match s with
         | EmptyString => EmptyString
         | String ch rest => String ch (remove_first pattern rest)
         end.
Proof. by destruct s. Qed.

(** A string that starts with the pattern loses that occurrence. *)
Lemma remove_first_prefix (pattern s : string) :
  remove_first pattern (pattern +:+ s) = s.
Proof.
  rewrite remove_first_unfold.
  assert (String.prefix pattern (pattern +:+ s) = true) as ->.
  { induction pattern as [| ch pattern IH]; simpl; [by destruct s |].
    by destruct (Ascii.ascii_dec ch ch). }
  induction pattern as [| ch pattern IH]; simpl.
  - rewrite Nat.sub_0_r. apply substring_all.
  - exact IH.
Qed.

(** The header [Bearer <token>] carries [<token>], whatever the token
    is. *)
Lemma bearer_token (token : string) :
  remove_first "Bearer " ("Bearer " +:+ token) = token.
Proof. apply remove_first_prefix. Qed.

(** X12.  A sign-in request that carries the three fields is answered,
    when the query works, with a session for a registered user who has
    the username and the role asked for and whose stored hash the
    password verifies against, carrying a token signed for that user;
    or with one and the same 401, whether the user is unknown, has
    another role, or the password is wrong; or, only when a field is
    the empty string, with the 400 of an incomplete request. *)
Theorem login_needs_a_verified_password c clock users body
    username password role :
  cred_username body = Some username →
  cred_password body = Some password →
  cred_role body = Some role →
  (∃ user,
      user ∈ users
      ∧ reg_username user = username ∧ reg_role user = role
      ∧ bcrypt_compare c password (reg_password user) = true
      ∧ login c clock false users body
        = Answer 200
            (SessionJson (reg_id user) username role
               (jwt_sign c (reg_id user) clock)))
  ∨ login c clock false users body
    = Answer 401 (Failure "Invalid login credentials")
  ∨ login c clock false users body
    = Answer 400 (Failure "Please provide username, password, and role")
      ∧ (username = "" ∨ password = "" ∨ role = "").
Proof.
  intros Hu Hp Hr. unfold login, given. rewrite Hu, Hp, Hr.
  destruct (decide (username = "")) as [-> | Hun]; [by eauto 10 |].
  destruct (decide (password = "")) as [-> | Hpn]; [| clear Hp].
  { right. right. rewrite (bool_decide_eq_false_2 _ Hun). simpl. by eauto. }
  destruct (decide (role = "")) as [-> | Hrn].
  { right. right. rewrite (bool_decide_eq_false_2 _ Hun),
      (bool_decide_eq_false_2 _ Hpn). simpl. by eauto. }
  rewrite (bool_decide_eq_false_2 _ Hun), (bool_decide_eq_false_2 _ Hpn),
    (bool_decide_eq_false_2 _ Hrn). simpl.
  destruct (list_find _ users) as [[i user] |] eqn:Hfind; [| by eauto].
  apply list_find_Some in Hfind as (Hi & [Hname Hrole] & _).
  destruct (bcrypt_compare c password (reg_password user)) eqn:Hmatch;
    simpl; [| by eauto].
  left. exists user. simplify_eq.
  repeat split; try done. eapply list_elem_of_lookup_2; eauto.
Qed.

Lemma login_needs_a_verified_password_witness :
  (∃ user,
      user ∈ registry
      ∧ reg_username user = "johndoe" ∧ reg_role user = "customer"
      ∧ bcrypt_compare plain "password123" (reg_password user) = true
      ∧ login plain 10 false registry johndoe_signs_in
        = Answer 200
            (SessionJson (reg_id user) "johndoe" "customer"
               (jwt_sign plain (reg_id user) 10)))
  ∨ login plain 10 false registry johndoe_signs_in
    = Answer 401 (Failure "Invalid login credentials")
  ∨ login plain 10 false registry johndoe_signs_in
    = Answer 400 (Failure "Please provide username, password, and role")
      ∧ ("johndoe" = "" ∨ "password123" = "" ∨ "customer" = "").
Proof.
  apply (login_needs_a_verified_password plain 10 registry johndoe_signs_in
           "johndoe" "password123" "customer"); reflexivity.
Defined.

(** X13.  The middleware lets a request through only for a registered
    user named by a token that verifies: whenever it calls the route,
    the header held a non-empty token, [jwt.verify] accepted it, and
    [req.user] is the row of [users] whose identifier the token
    carries. *)
Theorem auth_admits_only_verified_tokens c clock broken users header user :
  auth c clock broken users header = inr user →
  ∃ text,
    header = Some text
    ∧ remove_first "Bearer " text ≠ ""
    ∧ jwt_verify c (remove_first "Bearer " text) clock
      = Some (Some (reg_id user))
    ∧ user ∈ users.
Proof.
  unfold auth. destruct header as [text |]; simpl; [| done].
  case_bool_decide as Hempty; [done |].
  destruct (jwt_verify c _ clock) as [id |] eqn:Hverify; [| done].
  destruct broken; [done |].
  destruct (list_find _ users) as [[i u] |] eqn:Hfind; [| done].
  intros [= ->]. apply list_find_Some in Hfind as (Hi & <- & _).
  exists text. repeat split; try done.
  eapply list_elem_of_lookup_2; eauto.
Qed.

Lemma auth_admits_only_verified_tokens_witness :
  ∃ text,
    Some "Bearer token:u1" = Some text
    ∧ remove_first "Bearer " text ≠ ""
    ∧ jwt_verify plain (remove_first "Bearer " text) 20
      = Some (Some "u1")
    ∧ mk_registered "u1" "johndoe" "john@example.com" "hash:password123"
        "customer" 0 ∈ registry.
Proof.
  apply (auth_admits_only_verified_tokens plain 20 false registry
           (Some "Bearer token:u1")
           (mk_registered "u1" "johndoe" "john@example.com"
              "hash:password123" "customer" 0)).
  reflexivity.
Defined.

(** X14.  Signing in and then calling a route fit together: if
    [jwt.verify] accepts, at the time of the call, the token [jwt.sign]
    made at sign-in, and user identifiers are distinct, then the token
    a successful sign-in returns, sent as [Bearer <token>], passes the
    middleware, and [req.user] is the very user who signed in. *)
Theorem session_token_authenticates c signed_at clock users body
    id username role token :
  login c signed_at false users body
  = Answer 200 (SessionJson id username role token) →
  NoDup (reg_id <$> users) →
  jwt_sign c id signed_at ≠ "" →
  jwt_verify c (jwt_sign c id signed_at) clock = Some (Some id) →
  ∃ user,
    auth c clock false users (Some ("Bearer " +:+ token)) = inr user
    ∧ reg_id user = id ∧ reg_username user = username
    ∧ reg_role user = role
    ∧ cred_username body = Some username ∧ cred_role body = Some role.
Proof.
  intros Hlogin Hnd Hsome Hverify.
  unfold login in Hlogin.
  destruct (negb (given (cred_username body)) || _ || _); [done |].
  destruct (list_find _ users) as [[i user] |] eqn:Hfind; [| done].
  destruct (negb (bcrypt_compare c _ _)); [done |].
  injection Hlogin as <- <- <- <-.
  apply list_find_Some in Hfind as (Hi & [Hname Hrole] & _).
  exists user. unfold auth. cbn [fmap option_fmap option_map].
  rewrite bearer_token.
  rewrite (bool_decide_eq_false_2 _ Hsome), Hverify.
  destruct (list_find (λ u, Some (reg_id u) = Some (reg_id user)) users)
    as [[j u] |] eqn:Hfind'.
  - apply list_find_Some in Hfind' as (Hj & Hid & _).
    assert (u = user) as ->; [| done].
    eapply (NoDup_fmap_elem reg_id); eauto.
    + eapply list_elem_of_lookup_2; eauto.
    + eapply list_elem_of_lookup_2; eauto.
    + congruence.
  - apply list_find_None in Hfind'. rewrite Forall_forall in Hfind'.
    destruct (Hfind' user); [| done].
    eapply list_elem_of_lookup_2; eauto.
Qed.

Lemma session_token_authenticates_witness :
  ∃ user,
    auth plain 20 false registry (Some ("Bearer " +:+ "token:u1")) = inr user
    ∧ reg_id user = "u1" ∧ reg_username user = "johndoe"
    ∧ reg_role user = "customer"
    ∧ cred_username johndoe_signs_in = Some "johndoe"
    ∧ cred_role johndoe_signs_in = Some "customer".
Proof.
  apply (session_token_authenticates plain 10 20 registry johndoe_signs_in
           "u1" "johndoe" "customer" "token:u1");
    [reflexivity | | discriminate | reflexivity].
  by apply (bool_decide_unpack _).
Defined.

End BankFacts.

(** ** The rest of the in-memory backend *)

Section StableSort.
Import Services.
Context {A : Type} (before : A → A → Prop) `{∀ a b, Decision (before a b)}.

Lemma insert_sorted_Permutation x l : insert_sorted before x l ≡ₚ x :: l.
Proof.
  induction l as [| y l IH]; simpl; [done |].
  case_decide; [done |]. rewrite IH. apply Permutation_swap.
Qed.

Lemma stable_sort_Permutation l : stable_sort before l ≡ₚ l.
Proof.
  induction l as [| x l IH]; simpl; [done |].
  by rewrite insert_sorted_Permutation, IH.
Qed.

Lemma insert_sorted_Sorted x l :
  (∀ a b, ¬ before a b → before b a) →
  Sorted before l → Sorted before (insert_sorted before x l).
Proof.
  intros Htotal. induction 1 as [| y l Hl IH Hhd]; simpl.
  - by repeat constructor.
  - case_decide as Hxy.
    + by repeat constructor.
    + constructor; [done |].
      destruct Hhd as [| z l Hyz]; simpl.
      * constructor. by apply Htotal.
      * case_decide; constructor; [by apply Htotal | done].
Qed.

Lemma stable_sort_Sorted l :
  (∀ a b, ¬ before a b → before b a) → Sorted before (stable_sort before l).
Proof.
  intros Htotal. induction l as [| x l IH]; simpl; [constructor |].
  by apply insert_sorted_Sorted.
Qed.

(** A list that is in order is left as it is. *)
Lemma stable_sort_sorted l : Sorted before l → stable_sort before l = l.
Proof.
  induction 1 as [| x l Hl IH Hhd]; simpl; [done |].
  fold (stable_sort before l). rewrite IH.
  destruct Hhd as [| y l Hxy]; simpl; [done |]. by rewrite decide_True.
Qed.

End StableSort.

Section ServicesFacts.
Import JS Mock Services Scenario.

Lemma num_add_comm x y : num_add x y = num_add y x.
Proof. destruct x, y; simpl; try done. f_equal. lia. Qed.

Lemma num_add_assoc x y z : num_add x (num_add y z) = num_add (num_add x y) z.
Proof. destruct x, y, z; simpl; try done. f_equal. lia. Qed.

(** Looking up another identifier is not affected by replacing a
    customer by one with the same identifier. *)
Lemma list_find_insert_other (id : string) store i (c c' : Customer) :
  store !! i = Some c →
  c_id c ≠ id → c_id c' ≠ id →
  list_find (λ x, c_id x = id) (<[i := c']> store)
  = list_find (λ x, c_id x = id) store.
Proof.
  revert i. induction store as [| x store IH]; intros [| i] Hi Hc Hc';
    simplify_eq/=.
  - by rewrite !decide_False.
  - case_decide; [done |]. by rewrite IH.
Qed.

Lemma find_customer_update_other demo id nb tx store :
  id ≠ demo →
  find_customer id (updateCustomerBalance demo nb tx store)
  = find_customer id store.
Proof.
  intros Hid. unfold find_customer, updateCustomerBalance.
  destruct (list_find (λ c, c_id c = demo) store) as [[i c] |] eqn:Hfind;
    [| done].
  apply list_find_Some in Hfind as (Hi & Hc & _).
  rewrite (list_find_insert_other id store i c); simpl; congruence.
Qed.

Lemma updateCustomerBalance_ids demo nb tx store :
  c_id <$> updateCustomerBalance demo nb tx store = c_id <$> store.
Proof.
  unfold updateCustomerBalance.
  destruct (list_find _ store) as [[i c] |] eqn:Hfind; [| done].
  apply list_find_Some in Hfind as (Hi & Hc & _).
  rewrite list_fmap_insert. simpl.
  apply list_insert_id. by rewrite list_lookup_fmap, Hi.
Qed.

Lemma makeTransaction_store demo uuid now params store :
  (makeTransaction demo uuid now params store).1 = store
  ∨ ∃ nb, (makeTransaction demo uuid now params store).1
          = updateCustomerBalance demo nb
              (mk_Transaction uuid (p_type params) (p_amount params) now
                 (p_description params)) store.
Proof.
  unfold makeTransaction.
  destruct (find_customer demo store); [| by left].
  destruct (_ && _); [by left | right; eauto].
Qed.

(** X15.  A transaction of the signed-in customer concerns nobody else:
    whatever the call and its outcome, every other customer's details
    and history are as before, and no customer is added, removed or
    given another identifier. *)
Theorem transaction_leaves_other_customers_alone demo uuid now params store
    id :
  id ≠ demo →
  getCustomerDetails id (makeTransaction demo uuid now params store).1
  = getCustomerDetails id store
  ∧ getCustomerTransactions id (makeTransaction demo uuid now params store).1
    = getCustomerTransactions id store
  ∧ c_id <$> (makeTransaction demo uuid now params store).1 = c_id <$> store.
Proof.
  intros Hid. unfold getCustomerDetails, getCustomerTransactions.
  destruct (makeTransaction_store demo uuid now params store)
    as [-> | [nb ->]]; [done |].
  by rewrite find_customer_update_other, updateCustomerBalance_ids.
Qed.

Lemma transaction_leaves_other_customers_alone_witness :
  getCustomerDetails "jane"
    (makeTransaction "john" "tx3" later (mk_params deposit (Fin 100) None)
       loaded).1
  = getCustomerDetails "jane" loaded
  ∧ getCustomerTransactions "jane"
      (makeTransaction "john" "tx3" later (mk_params deposit (Fin 100) None)
         loaded).1
    = getCustomerTransactions "jane" loaded
  ∧ c_id <$> (makeTransaction "john" "tx3" later
                (mk_params deposit (Fin 100) None) loaded).1
    = c_id <$> loaded.
Proof.
  apply (transaction_leaves_other_customers_alone "john" "tx3" later
           (mk_params deposit (Fin 100) None) loaded "jane").
  discriminate.
Defined.

(** The running totals of [getBankStats], moved by one more amount. *)
Lemma foldl_balance_shift (x a : number) (l : list Customer) :
  foldl (λ sum customer, num_add sum (c_balance customer)) (num_add a x) l
  = num_add (foldl (λ sum customer, num_add sum (c_balance customer)) a l) x.
Proof.
  revert a. induction l as [| c l IH]; intros a; simpl; [done |].
  rewrite <- IH. f_equal.
  rewrite <- !num_add_assoc. f_equal. apply num_add_comm.
Qed.

Lemma count_shift (totals : number * number) (t u : Transaction) :
  count (count totals t) u = count (count totals u) t.
Proof.
  unfold count. repeat case_bool_decide; simpl; f_equal.
  all: rewrite <- !num_add_assoc; f_equal; apply num_add_comm.
Qed.

Lemma foldl_count_shift totals t (l : list Transaction) :
  foldl count (count totals t) l = count (foldl count totals l) t.
Proof.
  revert totals. induction l as [| u l IH]; intros totals; simpl; [done |].
  by rewrite <- IH, count_shift.
Qed.

Lemma foldl_histories_shift totals t (l : list Customer) :
  foldl (λ totals customer, foldl count totals (c_transactions customer))
        (count totals t) l
  = count (foldl (λ totals customer,
                    foldl count totals (c_transactions customer)) totals l) t.
Proof.
  revert totals. induction l as [| c l IH]; intros totals; simpl; [done |].
  by rewrite <- IH, foldl_count_shift.
Qed.

(** The statistics after an accepted transaction, in the arithmetic of
    [number]. *)
Lemma getBankStats_after demo uuid now params store store' r :
  makeTransaction demo uuid now params store = (store', Resolved r) →
  getBankStats store'
  = mk_stats (totalCustomers (getBankStats store))
      (num_add (totalBalance (getBankStats store))
         (if bool_decide (p_type params = deposit)
          then p_amount params else num_neg (p_amount params)))
      (if bool_decide (p_type params = deposit)
       then num_add (totalDeposits (getBankStats store)) (p_amount params)
       else totalDeposits (getBankStats store))
      (if bool_decide (p_type params = deposit)
       then totalWithdrawals (getBankStats store)
       else num_add (totalWithdrawals (getBankStats store))
              (p_amount params)).
Proof.
  intros Hmake.
  apply makeTransaction_resolved in Hmake as (c & Hc & _ & _ & -> & _).
  unfold updateCustomerBalance, find_customer in *.
  destruct (list_find (λ c, c_id c = demo) store) as [[i c0] |] eqn:Hfind;
    simplify_eq/=.
  apply list_find_Some in Hfind as (Hi & _ & _).
  rewrite insert_take_drop by (by eapply lookup_lt_Some).
  pose proof (take_drop_middle store i c Hi) as Hsplit.
  set (l1 := take i store) in *. set (l2 := drop (S i) store) in *.
  clearbody l1 l2. subst store.
  set (t := recorded uuid now params).
  unfold getBankStats. rewrite !foldl_app, !length_app. simpl.
  assert (new_balance c params
          = num_add (c_balance c)
              (if bool_decide (p_type params = deposit)
               then p_amount params else num_neg (p_amount params))) as ->.
  { unfold new_balance, num_sub. by case_bool_decide. }
  rewrite num_add_assoc, foldl_balance_shift.
  rewrite foldl_count_shift, foldl_histories_shift.
  unfold count, t. simpl. by case_bool_decide.
Qed.

Lemma abs_sum_le (zs : list Z) :
  Z.abs (foldr Z.add 0 zs) ≤ foldr Z.add 0 (Z.abs <$> zs).
Proof.
  induction zs as [| z zs IH]; [done |].
  rewrite fmap_cons. cbn [foldr]. lia.
Qed.

Lemma whole_balances store bs x :
  balances store = Fin <$> bs →
  foldl (λ sum customer, num_add sum (c_balance customer)) (Fin x) store
  = Fin (x + foldr Z.add 0 bs).
Proof.
  unfold balances. revert bs x.
  induction store as [| c store IH]; intros [| b bs] x; rewrite ?fmap_cons;
    intros Heq; simplify_eq.
  - simpl. f_equal. lia.
  - cbn [foldl foldr]. rewrite H. simpl. rewrite (IH bs) by done.
    f_equal. lia.
Qed.

Lemma whole_count txs zs d w :
  t_amount <$> txs = Fin <$> zs →
  ∃ D W,
    foldl count (Fin d, Fin w) txs = (Fin (d + D), Fin (w + W))
    ∧ Z.abs D + Z.abs W ≤ foldr Z.add 0 (Z.abs <$> zs).
Proof.
  revert zs d w.
  induction txs as [| t txs IH]; intros [| z zs] d w; rewrite ?fmap_cons;
    intros Heq; simplify_eq.
  - exists 0, 0. simpl. split; [by rewrite !Z.add_0_r | lia].
  - cbn [foldl]. unfold count at 2. rewrite H. simpl.
    case_bool_decide.
    + destruct (IH zs (d + z) w) as (D & W & -> & Hle); [done |].
      exists (z + D), W. cbn [foldr]. split; [f_equal; f_equal; lia | lia].
    + destruct (IH zs d (w + z)) as (D & W & -> & Hle); [done |].
      exists D, (z + W). cbn [foldr]. split; [f_equal; f_equal; lia | lia].
Qed.

Lemma whole_histories store zs d w :
  amounts store = Fin <$> zs →
  ∃ D W,
    foldl (λ totals customer, foldl count totals (c_transactions customer))
          (Fin d, Fin w) store
    = (Fin (d + D), Fin (w + W))
    ∧ Z.abs D + Z.abs W ≤ foldr Z.add 0 (Z.abs <$> zs).
Proof.
  unfold amounts. revert zs d w.
  induction store as [| c store IH]; intros zs d w Heq.
  - exists 0, 0. simpl. split; [by rewrite !Z.add_0_r |].
    pose proof (abs_sum_le (Z.abs <$> zs)) as Hle.
    assert (0 ≤ foldr Z.add 0 (Z.abs <$> zs)); [| lia].
    clear. induction zs as [| z zs IH]; [done |].
    rewrite fmap_cons. cbn [foldr]. lia.
  - rewrite bind_cons in Heq. symmetry in Heq.
    apply fmap_app_inv in Heq as (zs1 & zs2 & Hzs1 & Hzs2 & ->).
    cbn [foldl].
    destruct (whole_count (c_transactions c) zs1 d w) as (D1 & W1 & -> & Hle1);
      [done |].
    destruct (IH zs2 (d + D1) (w + W1)) as (D2 & W2 & -> & Hle2); [done |].
    exists (D1 + D2), (W1 + W2).
    rewrite fmap_app, foldr_add_app.
    split; [f_equal; f_equal; lia | lia].
Qed.

(** X16.  The bank's statistics follow an accepted transaction.  When
    the amount, the balances and the amounts of all histories are whole
    numbers, and the magnitudes of the amount and the balances, and of
    the amount and the recorded amounts, add up to no more than
    [Number.MAX_SAFE_INTEGER] (so that the doubles add them exactly in
    any order), then the number of customers stays, the total balance
    moves by the amount (up for a deposit, down for a withdrawal), the
    amount is added to the total of its own type and to no other, and
    all the totals stay within [MAX_SAFE_INTEGER]. *)
Theorem bank_stats_follow_a_transaction demo uuid now params store store' r :
  makeTransaction demo uuid now params store = (store', Resolved r) →
  exact_together (p_amount params :: balances store) →
  exact_together (p_amount params :: amounts store) →
  ∃ a B D W,
    p_amount params = Fin a
    ∧ getBankStats store = mk_stats (length store) (Fin B) (Fin D) (Fin W)
    ∧ getBankStats store'
      = mk_stats (length store)
          (Fin (if bool_decide (p_type params = deposit)
                then B + a else B - a))
          (Fin (if bool_decide (p_type params = deposit) then D + a else D))
          (Fin (if bool_decide (p_type params = deposit) then W else W + a))
    ∧ Z.abs B + Z.abs a ≤ Exact.MAX_SAFE_INTEGER
    ∧ Z.abs D + Z.abs W + Z.abs a ≤ Exact.MAX_SAFE_INTEGER.
Proof.
  intros Hmake (bs' & Hbs & Hsafe_b) (zs' & Hzs & Hsafe_z).
  destruct bs' as [| a bs]; rewrite ?fmap_cons in Hbs; simplify_eq.
  destruct zs' as [| a' zs]; rewrite ?fmap_cons in Hzs; simplify_eq.
  rename H into Ha, H0 into Hbs, H2 into Hzs.
  rewrite Ha in H1. injection H1 as <-.
  unfold Exact.safe_together in *. rewrite fmap_cons in Hsafe_b, Hsafe_z.
  cbn [foldr] in Hsafe_b, Hsafe_z.
  destruct (whole_histories store zs 0 0 Hzs) as (D & W & Htotals & Hle).
  pose proof (abs_sum_le bs) as Hle_b.
  assert (getBankStats store
          = mk_stats (length store) (Fin (foldr Z.add 0 bs)) (Fin D) (Fin W))
    as Hbefore.
  { unfold getBankStats.
    rewrite (whole_balances store bs 0 Hbs), Htotals. simpl.
    by rewrite !Z.add_0_l. }
  exists a, (foldr Z.add 0 bs), D, W.
  split; [done |]. split; [done |]. split; [| lia].
  rewrite (getBankStats_after _ _ _ _ _ _ _ Hmake), Hbefore, Ha. simpl.
  case_bool_decide; simpl; f_equal; f_equal; lia.
Qed.

Lemma bank_stats_follow_a_transaction_witness :
  ∃ a B D W,
    Fin 300 = Fin a
    ∧ getBankStats loaded = mk_stats (length loaded) (Fin B) (Fin D) (Fin W)
    ∧ getBankStats
        (makeTransaction "john" "tx3" later
           (mk_params withdrawal (Fin 300) None) loaded).1
      = mk_stats (length loaded) (Fin (B - a)) (Fin D) (Fin (W + a))
    ∧ Z.abs B + Z.abs a ≤ Exact.MAX_SAFE_INTEGER
    ∧ Z.abs D + Z.abs W + Z.abs a ≤ Exact.MAX_SAFE_INTEGER.
Proof.
  apply (bank_stats_follow_a_transaction "john" "tx3" later
           (mk_params withdrawal (Fin 300) None) loaded _
           (mk_result true "tx3" (Fin 4700))).
  - reflexivity.
  - exists [300; 5000; 7500]. split; [reflexivity | by vm_compute].
  - exists [300; 2000; 500]. split; [reflexivity | by vm_compute].
Defined.

Lemma newest_first_total a b :
  ¬ Page.precedes Page.date_desc a b → Page.precedes Page.date_desc b a.
Proof. rewrite !precedes_date_desc. unfold Page.newest_first. lia. Qed.

#[local] Instance newest_first_transitive : Transitive Page.newest_first.
Proof. intros a b c. unfold Page.newest_first. lia. Qed.

Lemma sorted_newest_first l :
  Sorted Page.newest_first
    (stable_sort (Page.precedes Page.date_desc) l).
Proof.
  eapply Sorted_weaken; [| apply stable_sort_Sorted, newest_first_total].
  intros a b. by rewrite precedes_date_desc.
Qed.

Lemma getRecentTransactions_found demo limit store customer :
  find_customer demo store = Some customer →
  find_customer demo (getRecentTransactions demo limit store).1
  = Some (mk_Customer (c_id customer) (c_username customer)
            (c_email customer) (c_balance customer) (c_createdAt customer)
            (stable_sort (Page.precedes Page.date_desc)
               (c_transactions customer)))
  ∧ (getRecentTransactions demo limit store).2
    = slice_to limit
        (stable_sort (Page.precedes Page.date_desc) (c_transactions customer)).
Proof.
  unfold find_customer, getRecentTransactions. intros Hfind.
  destruct (list_find _ store) as [[i c] |] eqn:Hfound; simplify_eq/=.
  split; [| done].
  assert (list_find (λ c, c_id c = demo)
            (<[i := mk_Customer (c_id customer) (c_username customer)
                      (c_email customer) (c_balance customer)
                      (c_createdAt customer)
                      (stable_sort (Page.precedes Page.date_desc)
                         (c_transactions customer))]> store)
          = Some (i, mk_Customer (c_id customer) (c_username customer)
                       (c_email customer) (c_balance customer)
                       (c_createdAt customer)
                       (stable_sort (Page.precedes Page.date_desc)
                          (c_transactions customer)))) as ->; [| done].
  apply list_find_Some in Hfound as (Hi & Hid & Hbefore).
  apply list_find_Some. split; [| split].
  - apply list_lookup_insert_eq. by eapply lookup_lt_Some.
  - done.
  - intros j y Hj Hlt.
    rewrite list_lookup_insert_ne in Hj by lia. by eapply Hbefore.
Qed.

Lemma getRecentTransactions_missing demo limit store :
  find_customer demo store = None →
  (getRecentTransactions demo limit store).1 = store.
Proof.
  unfold find_customer, getRecentTransactions.
  by destruct (list_find _ store) as [[i c] |].
Qed.

(** X17.  The dashboard's recent transactions are the newest ones: for
    a limit that is a whole number not below zero, the call returns as
    many entries as the limit allows, newest first, all taken from the
    customer's history, and no entry left out is newer than one
    returned. *)
Theorem recent_transactions_are_the_newest demo n store customer :
  find_customer demo store = Some customer →
  0 ≤ n →
  ∃ older,
    (getRecentTransactions demo (Fin n) store).2 ++ older
    ≡ₚ c_transactions customer
    ∧ length (getRecentTransactions demo (Fin n) store).2
      = Nat.min (Z.to_nat n) (length (c_transactions customer))
    ∧ Sorted Page.newest_first (getRecentTransactions demo (Fin n) store).2
    ∧ ∀ r t,
        r ∈ (getRecentTransactions demo (Fin n) store).2 →
        t ∈ older → t_date t ≤ t_date r.
Proof.
  intros Hfind Hn.
  destruct (getRecentTransactions_found demo (Fin n) store customer Hfind)
    as [_ ->].
  set (sorted := stable_sort _ (c_transactions customer)).
  assert (StronglySorted Page.newest_first sorted) as Hsorted.
  { apply Sorted_StronglySorted; [apply _ | apply sorted_newest_first]. }
  unfold slice_to. rewrite decide_True by done.
  exists (drop (Z.to_nat n) sorted).
  rewrite take_drop. rewrite <- (take_drop (Z.to_nat n) sorted) in Hsorted.
  split; [apply stable_sort_Permutation |].
  split.
  { rewrite length_take. f_equal.
    apply Permutation_length, stable_sort_Permutation. }
  split.
  { apply StronglySorted_Sorted.
    by apply StronglySorted_app_1_l in Hsorted. }
  intros r t Hr Ht.
  by apply (StronglySorted_app_1_elem_of _ _ _ r t Hsorted).
Qed.

Lemma recent_transactions_are_the_newest_witness :
  ∃ older,
    (getRecentTransactions "john" (Fin 1) loaded).2 ++ older
    ≡ₚ c_transactions john
    ∧ length (getRecentTransactions "john" (Fin 1) loaded).2
      = Nat.min (Z.to_nat 1) (length (c_transactions john))
    ∧ Sorted Page.newest_first (getRecentTransactions "john" (Fin 1) loaded).2
    ∧ ∀ r t,
        r ∈ (getRecentTransactions "john" (Fin 1) loaded).2 →
        t ∈ older → t_date t ≤ t_date r.
Proof.
  apply (recent_transactions_are_the_newest "john" 1 loaded john);
    [reflexivity | lia].
Defined.

(** X18.  Loading the dashboard reorders the stored history and does
    nothing else: after the call the customer's history holds the same
    entries, newest first; the balance and every other customer are as
    before; a history that was already newest first, hence also a
    second call, leaves the store exactly as it is. *)
Theorem recent_transactions_only_reorder_the_store demo limit store :
  getTransactions demo (getRecentTransactions demo limit store).1
  ≡ₚ getTransactions demo store
  ∧ Sorted Page.newest_first
      (getTransactions demo (getRecentTransactions demo limit store).1)
  ∧ getAccountBalance demo (getRecentTransactions demo limit store).1
    = getAccountBalance demo store
  ∧ (∀ id, id ≠ demo →
       find_customer id (getRecentTransactions demo limit store).1
       = find_customer id store)
  ∧ (Sorted Page.newest_first (getTransactions demo store) →
     (getRecentTransactions demo limit store).1 = store)
  ∧ (getRecentTransactions demo limit
       (getRecentTransactions demo limit store).1).1
    = (getRecentTransactions demo limit store).1.
Proof.
  assert (∀ store,
             Sorted Page.newest_first (getTransactions demo store) →
             (getRecentTransactions demo limit store).1 = store) as Hfixed.
  { clear store. intros store. unfold getTransactions, find_customer,
      getRecentTransactions.
    destruct (list_find _ store) as [[i c] |] eqn:Hfound; simpl; [| done].
    intros Hsorted. rewrite stable_sort_sorted.
    - apply list_find_Some in Hfound as (Hi & _).
      apply list_insert_id. by destruct c.
    - eapply Sorted_weaken; [| exact Hsorted].
      intros a b. by rewrite precedes_date_desc. }
  assert (Sorted Page.newest_first
            (getTransactions demo (getRecentTransactions demo limit store).1))
    as Hsorted.
  { unfold getTransactions.
    destruct (find_customer demo store) as [c |] eqn:Hfind.
    - destruct (getRecentTransactions_found demo limit store c Hfind)
        as [-> _]. simpl. apply sorted_newest_first.
    - rewrite getRecentTransactions_missing, Hfind by done. constructor. }
  split; [| split; [exact Hsorted | split; [| split; [| split;
    [apply Hfixed | by apply Hfixed]]]]].
  - unfold getTransactions.
    destruct (find_customer demo store) as [c |] eqn:Hfind.
    + destruct (getRecentTransactions_found demo limit store c Hfind)
        as [-> _]. simpl. apply stable_sort_Permutation.
    + by rewrite getRecentTransactions_missing, Hfind.
  - unfold getAccountBalance.
    destruct (find_customer demo store) as [c |] eqn:Hfind.
    + by destruct (getRecentTransactions_found demo limit store c Hfind)
        as [-> _].
    + by rewrite getRecentTransactions_missing, Hfind.
  - intros id Hid. unfold find_customer, getRecentTransactions.
    destruct (list_find (λ c, c_id c = demo) store) as [[i c] |] eqn:Hfound;
      [| done].
    apply list_find_Some in Hfound as (Hi & Hc & _). simpl.
    rewrite (list_find_insert_other id store i c); simpl; congruence.
Qed.

Lemma recent_transactions_only_reorder_the_store_witness :
  getTransactions "john" (getRecentTransactions "john" (Fin 5) loaded).1
  ≡ₚ getTransactions "john" loaded
  ∧ Sorted Page.newest_first
      (getTransactions "john" (getRecentTransactions "john" (Fin 5) loaded).1)
  ∧ getAccountBalance "john" (getRecentTransactions "john" (Fin 5) loaded).1
    = getAccountBalance "john" loaded
  ∧ (∀ id, id ≠ "john" →
       find_customer id (getRecentTransactions "john" (Fin 5) loaded).1
       = find_customer id loaded)
  ∧ (Sorted Page.newest_first (getTransactions "john" loaded) →
     (getRecentTransactions "john" (Fin 5) loaded).1 = loaded)
  ∧ (getRecentTransactions "john" (Fin 5)
       (getRecentTransactions "john" (Fin 5) loaded).1).1
    = (getRecentTransactions "john" (Fin 5) loaded).1.
Proof.
  exact (recent_transactions_only_reorder_the_store "john" (Fin 5) loaded).
Defined.

End ServicesFacts.

(** ** The hosted backend, one call after the other *)

Section HostedFacts.
Import JS Supabase Hosted Scenario.

(** An accepted call was made by a registered user and drew an
    identifier no stored row has. *)
Lemma createTransaction_resolved_fresh e type amount description db db' r :
  createTransaction e type amount description db = (db', Resolved r) →
  (gen_random_uuid e ∉ row_id <$> transactions db)
  ∧ (∃ user, session e = Some user ∧ user ∈ auth_users db).
Proof.
  unfold createTransaction, insert_transaction. intros Hcall.
  repeat (case_match; simplify_eq).
  all: repeat match goal with
         | H : _ && _ = true |- _ => apply andb_true_iff in H as [H ?]
         | H : bool_decide _ = true |- _ => apply bool_decide_eq_true in H
         end.
  all: simpl in *; split; [done | by eexists].
Qed.

Lemma net_snoc user db r :
  net user (mk_backend (auth_users db) (transactions db ++ [r]))
  = net user db + (if decide (row_user_id r = user) then signed_amount r else 0).
Proof.
  unfold net, history. simpl.
  rewrite filter_app, fmap_app, foldr_add_app.
  rewrite filter_cons, filter_nil. case_decide; simpl; lia.
Qed.

Lemma get_current_balance_other user rows r :
  row_user_id r ≠ user →
  get_current_balance user (rows ++ [r]) = get_current_balance user rows.
Proof.
  intros Hr. unfold get_current_balance.
  by rewrite filter_app, filter_cons_False, filter_nil, app_nil_r.
Qed.

Lemma reachable_ledger db :
  reachable db →
  (∀ user,
      get_current_balance user (transactions db) = net user db
      ∧ 0 ≤ net user db)
  ∧ Forall (λ r, 0 < row_amount r ≤ Exact.MAX_SAFE_INTEGER
                 ∧ 0 ≤ row_balance_after r ≤ Exact.MAX_SAFE_INTEGER
                 ∧ row_user_id r ∈ auth_users db) (transactions db)
  ∧ NoDup (row_id <$> transactions db).
Proof.
  induction 1 as [users | e type z description db Hreach IH Hclock Hexact].
  - split; [| split]; simpl; [done | constructor | constructor].
  - destruct (createTransaction e type (Fin z) description db)
      as [db' [[data nb] | err]] eqn:Hcall; simpl.
    2:{ by apply createTransaction_rejected in Hcall as ->. }
    destruct IH as (Hbal & Hrows & Hnd).
    destruct (createTransaction_resolved_fresh _ _ _ _ _ _ _ Hcall)
      as (Hfresh & user' & Hsession' & Hregistered).
    apply createTransaction_resolved in Hcall
      as (user & a & Hsession & _ & [= <-] & Ha & Hfunds & Hdata & _ & ->).
    simplify_eq.
    destruct (Hbal user) as [Hcur Hpos].
    first [specialize (Hexact _ Hsession) | specialize (Hexact _ Hsession')].
    assert (row_balance_after
              (inserted e user type z description
                 (get_current_balance user (transactions db)))
            = net user db
              + signed_amount
                  (inserted e user type z description
                     (get_current_balance user (transactions db)))
            ∧ 0 ≤ row_balance_after
                    (inserted e user type z description
                       (get_current_balance user (transactions db)))
              ≤ Exact.MAX_SAFE_INTEGER)
      as [Hafter Hafter_pos].
    { unfold inserted, signed_amount. simpl. rewrite Hcur in *.
      destruct type; simpl; [lia |].
      specialize (Hfunds eq_refl). lia. }
    split; [| split].
    + intros u. rewrite net_snoc. simpl.
      case_decide as Hu; simpl in Hu.
      * subst u. rewrite get_current_balance_snoc; [lia | done |].
        intros r' Hr' _. rewrite Forall_forall in Hclock.
        by apply Hclock.
      * rewrite get_current_balance_other by done.
        destruct (Hbal u). lia.
    + simpl. apply Forall_app. split; [done |].
      apply Forall_singleton.
      split; [simpl; lia |]. split; [exact Hafter_pos | done].
    + simpl. rewrite fmap_app. apply NoDup_app. split; [done |].
      split; [| apply NoDup_singleton].
      intros x Hx Hx'. simpl in Hx'. apply list_elem_of_singleton in Hx'.
      by subst x.
Qed.

(** X19.  When the table starts empty and the calls of all clients
    reach the service one after the other, each later than every
    stored row and each with a whole-number amount that, added to the
    caller's balance, stays within [Number.MAX_SAFE_INTEGER] (so that
    the client's doubles add exactly), the hosted ledger is sound:
    every user's current balance is that user's deposits minus
    withdrawals and is not below zero; every row has an amount above
    zero, a balance not below zero, both within [MAX_SAFE_INTEGER], and
    a registered owner; and no identifier occurs twice. *)
Theorem hosted_calls_in_turn_keep_the_ledger db :
  reachable db →
  (∀ user,
      get_current_balance user (transactions db) = net user db
      ∧ 0 ≤ get_current_balance user (transactions db))
  ∧ Forall (λ r, 0 < row_amount r ≤ Exact.MAX_SAFE_INTEGER
                 ∧ 0 ≤ row_balance_after r ≤ Exact.MAX_SAFE_INTEGER
                 ∧ row_user_id r ∈ auth_users db) (transactions db)
  ∧ NoDup (row_id <$> transactions db).
Proof.
  intros Hreach. apply reachable_ledger in Hreach as (Hbal & Hrows & Hnd).
  split; [| done]. intros user. destruct (Hbal user). split; [done | lia].
Qed.

Lemma hosted_calls_in_turn_keep_the_ledger_witness :
  (∀ user,
      get_current_balance user
        (transactions
           (createTransaction (signed_in "r1" 1) deposit (Fin 5000) None
              (mk_backend ["u1"] [])).1)
      = net user
          (createTransaction (signed_in "r1" 1) deposit (Fin 5000) None
             (mk_backend ["u1"] [])).1
      ∧ 0 ≤ get_current_balance user
              (transactions
                 (createTransaction (signed_in "r1" 1) deposit (Fin 5000) None
                    (mk_backend ["u1"] [])).1))
  ∧ Forall (λ r, 0 < row_amount r ≤ Exact.MAX_SAFE_INTEGER
                 ∧ 0 ≤ row_balance_after r ≤ Exact.MAX_SAFE_INTEGER
                 ∧ row_user_id r
                   ∈ auth_users
                       (createTransaction (signed_in "r1" 1) deposit
                          (Fin 5000) None (mk_backend ["u1"] [])).1)
      (transactions
         (createTransaction (signed_in "r1" 1) deposit (Fin 5000) None
            (mk_backend ["u1"] [])).1)
  ∧ NoDup (row_id
             <$> transactions
                   (createTransaction (signed_in "r1" 1) deposit (Fin 5000)
                      None (mk_backend ["u1"] [])).1).
Proof.
  apply (hosted_calls_in_turn_keep_the_ledger
           (createTransaction (signed_in "r1" 1) deposit (Fin 5000) None
              (mk_backend ["u1"] [])).1).
  apply reachable_call; [apply reachable_empty | constructor |].
  intros user _. by vm_compute.
Defined.

(** X20.  A user's call concerns that user's rows only: whatever the
    call and its outcome, a client signed in as somebody else, or not
    signed in, lists what it listed before, every other user's current
    balance is as before, and what a client lists are rows of its own
    user. *)
Theorem hosted_rows_stay_private e viewer type amount description db :
  session viewer ≠ session e →
  getTransactions viewer (createTransaction e type amount description db).1
  = getTransactions viewer db
  ∧ (∀ user,
       Some user ≠ session e →
       get_current_balance user
         (transactions (createTransaction e type amount description db).1)
       = get_current_balance user (transactions db))
  ∧ (∀ rows,
       getTransactions viewer db = Resolved rows →
       Forall (λ r, Some (row_user_id r) = session viewer) rows).
Proof.
  intros Hother. split; [| split].
  - destruct (createTransaction e type amount description db)
      as [db' [[data nb] | err]] eqn:Hcall; simpl.
    2:{ by apply createTransaction_rejected in Hcall as ->. }
    apply createTransaction_resolved in Hcall
      as (user & a & Hsession & _ & -> & _ & _ & -> & _ & ->).
    unfold getTransactions. simpl.
    rewrite filter_app, filter_cons_False, filter_nil, app_nil_r; [done |].
    simpl. congruence.
  - intros user Huser.
    destruct (createTransaction e type amount description db)
      as [db' [[data nb] | err]] eqn:Hcall; simpl.
    2:{ by apply createTransaction_rejected in Hcall as ->. }
    apply createTransaction_resolved in Hcall
      as (user' & a & Hsession & _ & -> & _ & _ & -> & _ & ->).
    simpl. apply get_current_balance_other. simpl. congruence.
  - unfold getTransactions. intros rows Hrows.
    destruct (select_fails viewer); simplify_eq.
    apply Forall_forall. intros r Hr.
    rewrite merge_sort_Permutation in Hr.
    by apply list_elem_of_filter in Hr as [Hr _].
Qed.

Lemma hosted_rows_stay_private_witness :
  getTransactions (mk_env (Some "u2") "r5" 5 false false false)
    (createTransaction (signed_in "r4" 4) deposit (Fin 100) None hosted).1
  = getTransactions (mk_env (Some "u2") "r5" 5 false false false) hosted
  ∧ (∀ user,
       Some user ≠ session (signed_in "r4" 4) →
       get_current_balance user
         (transactions
            (createTransaction (signed_in "r4" 4) deposit (Fin 100) None
               hosted).1)
       = get_current_balance user (transactions hosted))
  ∧ (∀ rows,
       getTransactions (mk_env (Some "u2") "r5" 5 false false false) hosted
       = Resolved rows →
       Forall (λ r, Some (row_user_id r)
                    = session (mk_env (Some "u2") "r5" 5 false false false))
         rows).
Proof.
  apply (hosted_rows_stay_private (signed_in "r4" 4)
           (mk_env (Some "u2") "r5" 5 false false false) deposit (Fin 100)
           None hosted).
  discriminate.
Defined.

End HostedFacts.

(** ** The customer's page over the in-memory backend *)

Section TransactionsPageFacts.
Import JS Mock TransactionsPage Scenario.

(** X21.  The page keeps the store's own array, so the first
    transaction made from a freshly loaded page shows up twice: the
    store records it once, the balance on the page is the stored
    balance, but the page's list is its own copy of the transaction in
    front of the store's record of it, both under the same identifier,
    followed by the earlier history. *)
Theorem page_lists_its_first_transaction_twice demo uuid made submitted type
    a b store store' customer result :
  find_customer demo store = Some customer →
  c_balance customer = Fin b →
  makeTransaction demo uuid made (mk_params type (Fin a) None) store
  = (store', Resolved result) →
  ∃ page,
    handleTransactionSubmit demo uuid made submitted type (Fin a) store
      (fetchData demo store)
    = (store', page)
    ∧ balance page = getAccountBalance demo store'
    ∧ Mock.getTransactions demo store'
      = mk_Transaction uuid type (Fin a) made None :: c_transactions customer
    ∧ contents demo store' (transactions page)
      = mk_Transaction uuid type (Fin a) submitted None
        :: mk_Transaction uuid type (Fin a) made None
        :: c_transactions customer.
Proof.
  intros Hfind Hb Hmake.
  unfold handleTransactionSubmit. rewrite Hmake.
  apply makeTransaction_resolved in Hmake
    as (c & Hc & _ & -> & _ & Hfound).
  simplify_eq. eexists. split; [reflexivity |].
  unfold fetchData, getTransactions_result, getAccountBalance,
    Mock.getTransactions, contents.
  rewrite Hfind, Hfound. simpl.
  unfold new_balance, num_sub. rewrite Hb. simpl.
  split; [| done].
  destruct type; simpl.
  - destruct b; simpl; by repeat case_match.
  - destruct b; simpl; by repeat case_match.
Qed.

Lemma page_lists_its_first_transaction_twice_witness :
  ∃ page,
    handleTransactionSubmit "john" "tx3" later (later + 1) deposit (Fin 100)
      loaded (fetchData "john" loaded)
    = ((makeTransaction "john" "tx3" later (mk_params deposit (Fin 100) None)
          loaded).1, page)
    ∧ balance page
      = getAccountBalance "john"
          (makeTransaction "john" "tx3" later
             (mk_params deposit (Fin 100) None) loaded).1
    ∧ Mock.getTransactions "john"
        (makeTransaction "john" "tx3" later
           (mk_params deposit (Fin 100) None) loaded).1
      = mk_Transaction "tx3" deposit (Fin 100) later None
        :: c_transactions john
    ∧ contents "john"
        (makeTransaction "john" "tx3" later
           (mk_params deposit (Fin 100) None) loaded).1
        (transactions page)
      = mk_Transaction "tx3" deposit (Fin 100) (later + 1) None
        :: mk_Transaction "tx3" deposit (Fin 100) later None
        :: c_transactions john.
Proof.
  apply (page_lists_its_first_transaction_twice "john" "tx3" later (later + 1)
           deposit 100 5000 loaded _ john (mk_result true "tx3" (Fin 5100)));
    reflexivity.
Defined.

End TransactionsPageFacts.

(** ** The guarded routes *)

Section RoutesFacts.
Import Routes.

(** X22.  Once the stored session is read, the guards settle every
    visit within two redirects on a page the visitor may see: a page
    behind a guard is shown only to a user with the role the guard asks
    for; a visit to a page the visitor may see shows that page; and the
    home link of the 404 page leads to a page that is shown as it
    is. *)
Theorem guards_settle_on_a_permitted_page a r :
  isLoading a = false →
  user a = None ∨ user a = Some "customer" ∨ user a = Some "banker" →
  ∃ p,
    settle 2 a r = Some (Page p)
    ∧ (∀ role, guarded p = Some role → user a = Some role)
    ∧ (r ≠ Root → guarded r = None ∨ guarded r = user a → p = r)
    ∧ settle 2 a (getHomePath a) = Some (Page (getHomePath a)).
Proof.
  intros Hloaded Huser. destruct a as [u loading]. simpl in *. subst loading.
  destruct Huser as [-> | [-> | ->]]; destruct r; simpl;
    eexists; (split; [reflexivity |]); simpl;
    (split; [by intros ? [= <-] || done |]);
    (split; [| reflexivity]);
    intros Hroot [Hg | Hg]; done.
Qed.

Lemma guards_settle_on_a_permitted_page_witness :
  ∃ p,
    settle 2 (mk_auth (Some "customer") false) BankerDashboard = Some (Page p)
    ∧ (∀ role, guarded p = Some role → Some "customer" = Some role)
    ∧ (BankerDashboard ≠ Root →
       guarded BankerDashboard = None
       ∨ guarded BankerDashboard = Some "customer" →
       p = BankerDashboard)
    ∧ settle 2 (mk_auth (Some "customer") false)
        (getHomePath (mk_auth (Some "customer") false))
      = Some (Page (getHomePath (mk_auth (Some "customer") false))).
Proof.
  apply (guards_settle_on_a_permitted_page (mk_auth (Some "customer") false)
           BankerDashboard); [reflexivity |].
  right. by left.
Defined.

End RoutesFacts.
